(** * SkyShowtime / PeacockTV client ([resources/lib/sky.py])

    A shallow embedding of the [SkyShowtime] class: the catalogue
    normaliser ([get_art], [get_genres], [parse_catalog], [parse_item]),
    the session bootstrap ([__init__]), the credential operations
    ([login], [change_profile], [clear_session]) and the programme guide
    index ([get_epg], [find_program_epg]).

    Parsed JSON payloads are Python values ([pyval]); operations that can
    raise return a [result]; code that touches the cache directory, the
    clock or the network runs in a state-and-exception monad over
    [world]. *)

From Stdlib Require Import ZArith QArith.
From stdpp Require Import gmap strings list pretty.

Local Open Scope string_scope.
Set Warnings "-register-all".

(** ** Python values and exceptions *)

Module Py.

Inductive exn : Set :=
| KeyError | TypeError | AttributeError | IndexError | ValueError | IOError.

Inductive result (A : Type) : Type :=
| Ok (a : A)
| Raise (e : exn).
Arguments Ok {A} a.
Arguments Raise {A} e.

Definition bind {A B} (m : result A) (f : A -> result B) : result B :=
  match m with
  | Ok a => f a
  | Raise e => Raise e
  end.

Notation "'let*' x ':=' m 'in' k" := (bind m (fun x => k))
  (at level 10, x name, m at level 100, k at level 200,
   format "'[v' 'let*'  x  ':='  m  'in' '/' k ']'").

(** What [json.loads] produces: [None], booleans, integers, floats
    (finite, so rationals), strings, lists, and dicts with string keys.
    A dict is an association list in insertion order; a key is looked up
    at its first binding. *)
Inductive pyval : Type :=
| VNone
| VBool (b : bool)
| VInt (z : Z)
| VFloat (q : Q)
| VStr (s : string)
| VList (l : list pyval)
| VDict (d : list (string * pyval)).

Abbreviation dict := (list (string * pyval)).

(** Python truthiness ([if x:], [not x], [x and y]). *)
Definition truthy (v : pyval) : bool :=
  match v with
  | VNone => false
  | VBool b => b
  | VInt z => negb (z =? 0)%Z
  | VFloat q => negb (Qeq_bool q 0)
  | VStr s => negb (String.eqb s "")
  | VList l => match l with [] => false | _ => true end
  | VDict d => match d with [] => false | _ => true end
  end.

Fixpoint assoc (k : string) (d : dict) : option pyval :=
  match d with
  | [] => None
  | (k', v) :: d' => if String.eqb k k' then Some v else assoc k d'
  end.

(** [d[k] = v] on a dict: overwrite in place, or append a new key. *)
Fixpoint assoc_set (k : string) (v : pyval) (d : dict) : dict :=
  match d with
  | [] => [(k, v)]
  | (k', v') :: d' =>
      if String.eqb k k' then (k, v) :: d' else (k', v') :: assoc_set k v d'
  end.

(** [del d[k]] on a dict that has the key. *)
Fixpoint assoc_del (k : string) (d : dict) : dict :=
  match d with
  | [] => []
  | (k', v') :: d' =>
      if String.eqb k k' then d' else (k', v') :: assoc_del k d'
  end.

Definition has_key (k : string) (d : dict) : bool :=
  match assoc k d with Some _ => true | None => false end.

(** [d[k]] where the code has just put [k] into [d]: [None] stands in
    for the unreachable missing case. *)
Definition item (k : string) (d : dict) : pyval :=
  match assoc k d with Some v => v | None => VNone end.

(** [v == 'literal']: a string equals only the same string. *)
Definition eq_str (v : pyval) (s : string) : bool :=
  match v with
  | VStr s' => String.eqb s' s
  | _ => false
  end.

Fixpoint is_prefix (p s : string) : bool :=
  match p, s with
  | EmptyString, _ => true
  | String a p', String b s' => if Ascii.eqb a b then is_prefix p' s' else false
  | String _ _, EmptyString => false
  end.

Fixpoint is_substring (p s : string) : bool :=
  is_prefix p s ||
  match s with
  | EmptyString => false
  | String _ s' => is_substring p s'
  end.

(** [v[k]] with a string subscript. *)
Definition getitem (v : pyval) (k : string) : result pyval :=
  match v with
  | VDict d => match assoc k d with Some x => Ok x | None => Raise KeyError end
  | _ => Raise TypeError
  end.

(** [v.get(k, dflt)]. *)
Definition get_or (v : pyval) (k : string) (dflt : pyval) : result pyval :=
  match v with
  | VDict d => Ok (match assoc k d with Some x => x | None => dflt end)
  | _ => Raise AttributeError
  end.

(** [v.get(k)]. *)
Definition get (v : pyval) (k : string) : result pyval := get_or v k VNone.

(** ['k' in v]. *)
Definition contains (k : string) (v : pyval) : result bool :=
  match v with
  | VDict d => Ok (has_key k d)
  | VList l => Ok (existsb (fun x => eq_str x k) l)
  | VStr s => Ok (is_substring k s)
  | _ => Raise TypeError
  end.

(** Numbers compare by value across [bool], [int] and [float]. *)
Definition as_number (v : pyval) : option Q :=
  match v with
  | VBool b => Some (inject_Z (if b then 1 else 0))
  | VInt z => Some (inject_Z z)
  | VFloat q => Some q
  | _ => None
  end.

(** [a == b]. Dicts are compared as mappings (their keys are distinct). *)
Fixpoint py_eq (a b : pyval) : bool :=
  match a, b with
  | VNone, VNone => true
  | VStr s, VStr s' => String.eqb s s'
  | VList la, VList lb =>
      (fix go (la lb : list pyval) : bool :=
         match la, lb with
         | [], [] => true
         | x :: la', y :: lb' => py_eq x y && go la' lb'
         | _, _ => false
         end) la lb
  | VDict da, VDict db =>
      Nat.eqb (length da) (length db) &&
      (fix go (da : dict) : bool :=
         match da with
         | [] => true
         | (k, v) :: da' =>
             match assoc k db with
             | Some v' => py_eq v v'
             | None => false
             end && go da'
         end) da
  | _, _ =>
      match as_number a, as_number b with
      | Some x, Some y => Qeq_bool x y
      | _, _ => false
      end
  end.

(** [x in v] for arbitrary [x]. *)
Definition py_in (x v : pyval) : result bool :=
  match v with
  | VList l => Ok (existsb (py_eq x) l)
  | VStr s =>
      match x with
      | VStr k => Ok (is_substring k s)
      | _ => Raise TypeError
      end
  | VDict d =>
      match x with
      | VStr k => Ok (has_key k d)
      | VList _ | VDict _ => Raise TypeError
      | _ => Ok false
      end
  | _ => Raise TypeError
  end.

(** [v / d] for a non-zero integer literal [d] (true division). A float
    is read as the rational it stands for. *)
Definition truediv (v : pyval) (d : Z) : result Q :=
  match as_number v with
  | Some q => Ok (q / inject_Z d)%Q
  | None => Raise TypeError
  end.


(** [v in ['a', 'b', ...]] for a list of string literals. *)
Definition in_strs (v : pyval) (l : list string) : bool :=
  existsb (eq_str v) l.

Fixpoint chars (s : string) : list pyval :=
  match s with
  | EmptyString => []
  | String c s' => VStr (String c EmptyString) :: chars s'
  end.

(** [for x in v]: the elements of a list, the keys of a dict, the
    characters of a string. *)
Definition iter (v : pyval) : result (list pyval) :=
  match v with
  | VList l => Ok l
  | VDict d => Ok (map (fun kv => VStr (fst kv)) d)
  | VStr s => Ok (chars s)
  | _ => Raise TypeError
  end.

(** [len(v)]. *)
Definition len (v : pyval) : result nat :=
  match v with
  | VList l => Ok (length l)
  | VDict d => Ok (length d)
  | VStr s => Ok (String.length s)
  | _ => Raise TypeError
  end.

(** [v[0]]. *)
Definition first (v : pyval) : result pyval :=
  match v with
  | VList l => match l with x :: _ => Ok x | [] => Raise IndexError end
  | VStr s =>
      match s with
      | String c _ => Ok (VStr (String c EmptyString))
      | EmptyString => Raise IndexError
      end
  | VDict _ => Raise KeyError
  | _ => Raise TypeError
  end.

(** [s.replace(old, new)] for a non-empty [old]: occurrences are replaced
    left to right without overlap. [skip] counts the characters of a
    matched occurrence still to be dropped. *)
Fixpoint replace_from (old new : string) (skip : nat) (s : string) : string :=
  match s with
  | EmptyString => EmptyString
  | String c s' =>
      match skip with
      | S k => replace_from old new k s'
      | O =>
          if is_prefix old s
          then new +:+ replace_from old new (String.length old - 1) s'
          else String c (replace_from old new 0 s')
      end
  end.

Definition replace (old new s : string) : string := replace_from old new 0 s.

(** [v.replace(old, new)]: only strings have the method. *)
Definition str_replace (v : pyval) (old new : string) : result pyval :=
  match v with
  | VStr s => Ok (VStr (replace old new s))
  | _ => Raise AttributeError
  end.

(** A [for] loop whose body can raise. *)
Fixpoint foldM {A S} (f : S -> A -> result S) (l : list A) (s : S) : result S :=
  match l with
  | [] => Ok s
  | x :: l' => let* s' := f s x in foldM f l' s'
  end.

(** [t[k1][k2] = v] where [t[k1]] is a dict the code created. *)
Definition set_in (k1 k2 : string) (v : pyval) (t : dict) : dict :=
  match assoc k1 t with
  | Some (VDict d) => assoc_set k1 (VDict (assoc_set k2 v d)) t
  | _ => t
  end.

End Py.

Import Py.

(** ** Catalogue normaliser *)

(** [image_url] (local to [get_art]). *)
Definition image_url (url : pyval) : result pyval :=
  str_replace url "?language" "/400?language".

Record art_state := ArtState {
  art : dict;
  title34 : pyval;
  nontitle34 : pyval;
}.

(** One iteration of the loop of [get_art]. The three fallback
    statements are inside the loop body, as in the source. *)
Definition get_art_body (st : art_state) (i : pyval) : result art_state :=
  let* ty := getitem i "type" in
  let* st1 :=
    (if eq_str ty "titleArt34" then
       let* u := (let* x := getitem i "url" in image_url x) in
       Ok (ArtState (art st) u (nontitle34 st))
     else if eq_str ty "nonTitleArt34" then
       let* u := (let* x := getitem i "url" in image_url x) in
       Ok (ArtState (art st) (title34 st) u)
     else if eq_str ty "titleArt169" then
       let* u := (let* x := getitem i "url" in image_url x) in
       Ok (ArtState (assoc_set "poster" u (art st)) (title34 st) (nontitle34 st))
     else if eq_str ty "landscape" then
       let* u := (let* x := getitem i "url" in image_url x) in
       Ok (ArtState (assoc_set "fanart" u (art st)) (title34 st) (nontitle34 st))
     else if eq_str ty "titleLogo" then
       let* u := (let* x := getitem i "url" in image_url x) in
       Ok (ArtState (assoc_set "clearlogo" u (art st)) (title34 st) (nontitle34 st))
     else if eq_str ty "scene169" then
       let* u := (let* x := getitem i "url" in image_url x) in
       Ok (ArtState (assoc_set "thumb" u (art st)) (title34 st) (nontitle34 st))
     else Ok st) in
  let a1 := art st1 in
  let a2 :=
    if truthy (title34 st1) && negb (truthy (item "poster" a1))
    then assoc_set "poster" (title34 st1) a1 else a1 in
  let a3 :=
    if truthy (nontitle34 st1) && negb (truthy (item "poster" a2))
    then assoc_set "poster" (nontitle34 st1) a2 else a2 in
  let a4 :=
    if negb (truthy (item "thumb" a3))
    then assoc_set "thumb" (item "poster" a3) a3 else a3 in
  Ok (ArtState a4 (title34 st1) (nontitle34 st1)).

Definition art_init : dict :=
  [("icon", VNone); ("poster", VNone); ("fanart", VNone); ("thumb", VNone)].

Definition get_art (images : pyval) : result pyval :=
  let* l := iter images in
  let* st := foldM get_art_body l (ArtState art_init VNone VNone) in
  Ok (VDict (art st)).

Definition image (ty url : string) : pyval :=
  VDict [("type", VStr ty); ("url", VStr url)].

(** [get_genres]. *)
Definition get_genres_body (res : list pyval) (d : pyval) : result (list pyval) :=
  let* has := contains "subgenre" d in
  if has then
    let* sub := getitem d "subgenre" in
    let* n := len sub in
    if (0 <? n)%nat then
      let* sub := getitem d "subgenre" in
      let* g := first sub in
      let* title := getitem g "title" in
      Ok (res ++ [title])%list
    else Ok res
  else Ok res.

Definition get_genres (genres : pyval) : result pyval :=
  let* l := iter genres in
  let* res := foldM get_genres_body l [] in
  Ok (VList res).

(** [is_subscribed]: [my_segments] is [self.account['my_segments']]. *)
Fixpoint is_subscribed (my_segments : list pyval) (segments : pyval) : result bool :=
  match my_segments with
  | [] => Ok false
  | s :: rest =>
      let* b := py_in s segments in
      if b then Ok true else is_subscribed rest segments
  end.

(** The two helpers of the normaliser that live outside [sky.py]. *)
Class Formatting := {
  (** [timestamp2str(t)] and [timestamp2str(t, fmt)] of module
      [timeconv]. *)
  timestamp2str : Q -> option string -> result string;
  (** What ['{}'.format(v)] prints for [v]. *)
  format_value : pyval -> string;
}.

Section Normaliser.

Context `{Formatting}.

(** [self.account['my_segments']]. *)
Variable my_segments : list pyval.

Definition new_item : dict := [("info", VDict []); ("art", VDict [])].

(** [if 'contentSegments' in e: ...], shared by both parsers. *)
Definition add_segments (e : pyval) (t : dict) : result dict :=
  let* has := contains "contentSegments" e in
  if has then
    let* segs := getitem e "contentSegments" in
    let t := assoc_set "segments" segs t in
    let* sub := is_subscribed my_segments (item "segments" t) in
    Ok (assoc_set "subscribed" (VBool sub) t)
  else Ok t.

Definition asset_types : list string :=
  ["ASSET/PROGRAMME"; "ASSET/SLE"; "ASSET/SHORTFORM/CLIP"; "ASSET/EPISODE"].

(** The part of the loop body of [parse_catalog] that depends on
    [e['type']]; [Some t] when [t] is appended to [res]. *)
Definition parse_catalog_type (e : pyval) (t : dict) : result (option dict) :=
  let* ty := getitem e "type" in
  if eq_str ty "CATALOGUE/COLLECTION" then
    Ok (Some (assoc_set "type" (VStr "category") t))
  else if eq_str ty "CATALOGUE/LINK" then
    let t := assoc_set "type" (VStr "category") t in
    let* has := contains "linkInfo" e in
    if has then
      let* li := getitem e "linkInfo" in
      let* slug := getitem li "slug" in
      let t := assoc_set "slug" slug t in
      let* li := getitem e "linkInfo" in
      let* node := getitem li "nodeId" in
      let t := assoc_set "id" node t in
      Ok (Some t)
    else
      (* the diagnostic formats [e['linkId']] *)
      let* _ := getitem e "linkId" in
      Ok None
  else if in_strs ty asset_types then
    let t := assoc_set "type" (VStr "movie") t in
    let t := set_in "info" "mediatype" (VStr "movie") t in
    let* year := get e "year" in
    let t := set_in "info" "year" year t in
    let* has_d := contains "duration" e in
    let* t :=
      (if has_d then
         let* d := getitem e "duration" in
         let* s := getitem d "durationSeconds" in
         Ok (set_in "info" "duration" s t)
       else
         let* has_s := contains "durationSeconds" e in
         if has_s then
           let* s := getitem e "durationSeconds" in
           Ok (set_in "info" "duration" s t)
         else Ok t) in
    let* mpaa := get e "ottCertificate" in
    let t := set_in "info" "mpaa" mpaa t in
    let* plot := get e "synopsisLong" in
    let t := set_in "info" "plot" plot t in
    let* a := (let* im := getitem e "images" in get_art im) in
    let t := assoc_set "art" a t in
    let* g := (let* gl := getitem e "genreList" in get_genres gl) in
    let t := set_in "info" "genre" g t in
    let* t :=
      (if eq_str ty "ASSET/EPISODE" then
         let t := set_in "info" "mediatype" (VStr "episode") t in
         let* sn := getitem e "seriesName" in
         let t := set_in "info" "tvshowtitle" sn t in
         let* se := getitem e "seasonNumber" in
         let t := set_in "info" "season" se t in
         let* n := getitem e "number" in
         Ok (set_in "info" "episode" n t)
       else Ok t) in
    let* has_p := contains "streamPosition" e in
    let* t :=
      (if has_p then
         let* p := getitem e "streamPosition" in
         Ok (assoc_set "stream_position" p t)
       else Ok t) in
    Ok (Some t)
  else if eq_str ty "CATALOGUE/SERIES" then
    let t := assoc_set "type" (VStr "series") t in
    let t := set_in "info" "mediatype" (VStr "tvshow") t in
    let* mpaa := get e "ottCertificate" in
    let t := set_in "info" "mpaa" mpaa t in
    let* plot := get e "synopsisLong" in
    let t := set_in "info" "plot" plot t in
    let* a := (let* im := getitem e "images" in get_art im) in
    let t := assoc_set "art" a t in
    let* g := (let* gl := getitem e "genreList" in get_genres gl) in
    let t := set_in "info" "genre" g t in
    Ok (Some t)
  else
    Ok None.

(** The loop body of [parse_catalog]. *)
Definition parse_catalog_body (e : pyval) : result (option dict) :=
  let t := new_item in
  let* id := getitem e "id" in
  let t := assoc_set "id" id t in
  let* slug := get e "slug" in
  let t := assoc_set "slug" slug t in
  let* title := getitem e "title" in
  let t := set_in "info" "title" title t in
  let* has_start := contains "displayStartTime" e in
  let* t :=
    (if has_start then
       let* ms := getitem e "displayStartTime" in
       let* secs := truediv ms 1000 in
       let* label := timestamp2str secs (Some "%a %d %H:%M") in
       Ok (set_in "info" "title"
             (VStr ("[COLOR yellow]" +:+ label +:+ "[/COLOR] - " +:+
                    format_value title)) t)
     else Ok t) in
  let* t := add_segments e t in
  parse_catalog_type e t.

Definition parse_catalog_step (res : list pyval) (e : pyval) : result (list pyval) :=
  let* r := parse_catalog_body e in
  match r with
  | Some t => Ok (res ++ [VDict t])%list
  | None => Ok res
  end.

Definition parse_catalog (data : pyval) : result (list pyval) :=
  let* l := iter data in
  foldM parse_catalog_step l [].

Definition playable_types : list string :=
  ["ASSET/PROGRAMME"; "ASSET/EPISODE"; "ASSET/SLE"; "ASSET/SHORTFORM/CLIP"].

(** The [if 'formats' in att:] block of [parse_item]. *)
Definition add_formats (att : pyval) (t : dict) : result dict :=
  let* has_f := contains "formats" att in
  if has_f then
    let* f := getitem att "formats" in
    let* has_hd := contains "HD" f in
    if has_hd then
      let* hd := getitem f "HD" in
      let* cid := getitem hd "contentId" in
      let t := assoc_set "content_id" cid t in
      let* has_c := contains "startOfCredits" hd in
      if has_c then
        let* c := getitem hd "startOfCredits" in
        Ok (set_in "bookmark_metadata" "startOfCredits" c t)
      else Ok t
    else
      let* has_sd := contains "SD" f in
      if has_sd then
        let* sd := getitem f "SD" in
        let* cid := getitem sd "contentId" in
        Ok (assoc_set "content_id" cid t)
      else Ok t
  else Ok t.

(** [parse_item]. *)
Definition parse_item (data : pyval) : result dict :=
  let e := data in
  let* att := getitem e "attributes" in
  let t := new_item in
  let* id := getitem e "id" in
  let t := assoc_set "id" id t in
  let* slug := getitem att "slug" in
  let t := assoc_set "slug" slug t in
  let* title := getitem att "title" in
  let t := set_in "info" "title" title t in
  let* a := (let* im := getitem att "images" in get_art im) in
  let t := assoc_set "art" a t in
  let* g := getitem att "genres" in
  let t := set_in "info" "genre" g t in
  let t := assoc_set "bookmark_metadata" (VDict []) t in
  let* ty := getitem e "type" in
  let* t :=
    (if eq_str ty "CATALOGUE/SERIES" then
       let t := assoc_set "type" (VStr "series") t in
       let t := set_in "info" "mediatype" (VStr "tvshow") t in
       let* plot := get att "synopsisLong" in
       Ok (set_in "info" "plot" plot t)
     else if eq_str ty "CATALOGUE/SEASON" then
       let t := assoc_set "type" (VStr "season") t in
       let t := set_in "info" "mediatype" (VStr "season") t in
       let* sn := getitem att "seriesName" in
       let t := set_in "info" "tvshowtitle" sn t in
       let* se := getitem att "seasonNumber" in
       Ok (set_in "info" "season" se t)
     else if eq_str ty "ASSET/EPISODE" then
       let t := assoc_set "type" (VStr "movie") t in
       let t := set_in "info" "mediatype" (VStr "episode") t in
       let* sn := getitem att "seriesName" in
       let t := set_in "info" "tvshowtitle" sn t in
       let* se := getitem att "seasonNumber" in
       let t := set_in "info" "season" se t in
       let* n := getitem att "episodeNumber" in
       Ok (set_in "info" "episode" n t)
     else if eq_str ty "ASSET/PROGRAMME" then
       let t := assoc_set "type" (VStr "movie") t in
       let t := set_in "info" "mediatype" (VStr "movie") t in
       let* year := get e "year" in
       Ok (set_in "info" "year" year t)
     else Ok t) in
  let* t :=
    (if in_strs ty playable_types then
       let* plot := getitem att "synopsisLong" in
       let t := set_in "info" "plot" plot t in
       let* d := getitem att "durationSeconds" in
       let t := set_in "info" "duration" d t in
       let* mpaa := get att "ottCertificate" in
       let t := set_in "info" "mpaa" mpaa t in
       let* t := add_formats att t in
       let* pv := get att "providerVariantId" in
       Ok (assoc_set "provider_variant_id" pv t)
     else Ok t) in
  let* has_pu := contains "programmeUuid" att in
  let* t :=
    (if has_pu then
       let* u := getitem att "programmeUuid" in
       Ok (assoc_set "uuid" u t)
     else
       let* has_su := contains "seriesUuid" att in
       if has_su then
         let* u := getitem att "seriesUuid" in
         Ok (assoc_set "uuid" u t)
       else Ok t) in
  let* has_ps := contains "providerSeriesId" att in
  let* t :=
    (if has_ps then
       let* p := getitem att "providerSeriesId" in
       Ok (set_in "bookmark_metadata" "providerSeriesId" p t)
     else Ok t) in
  add_segments att t.

(** [parse_items]. *)
Definition parse_items (data : pyval) : result (list pyval) :=
  let* l := iter data in
  foldM (fun res e => let* t := parse_item e in Ok (res ++ [VDict t])%list) l [].

End Normaliser.

(** ** The world outside the object: cache directory, clock, network *)

Record file := File {
  content : string;
  mtime : Q;                        (* clock reading when written *)
}.

Record request := Request {
  method : string;
  url : string;
  req_headers : dict;
  body : pyval;                     (* the [data=] argument *)
}.

Record response := Response {
  status_code : Z;
  resp_content : string;
  resp_cookies : list (string * string);
}.

Record world := World {
  files : gmap string file;         (* keyed by path under [config_directory] *)
  clock : Q;                        (* [time.time()] *)
  sent : list request;              (* requests made so far, oldest first *)
  draws : nat;                      (* calls made to [random.choice] *)
}.

(** [self], together with the class attributes it aliases
    ([platforms[platform]] and [account]). *)
Record session := Session {
  logged : bool;
  platform_key : string;            (* the [platform] argument *)
  platform_name : string;           (* [self.platform['name']] *)
  host : string;                    (* [self.platform['host']] *)
  pldir : string;                   (* [self.platform['config_dir']] *)
  headers : dict;                   (* [self.platform['headers']] *)
  device_id : pyval;                (* [self.platform['device_id']] *)
  net_headers : dict;               (* [self.net.headers] *)
  cookie : pyval;                   (* [self.account['cookie']] *)
  user_token : pyval;               (* [self.account['user_token']] *)
  profile_id : pyval;               (* [self.account['profile_id']] *)
  profile_type : pyval;             (* [self.account['profile_type']] *)
  my_segments : list pyval;         (* [self.account['my_segments']] *)
  get_token_error : pyval;
  search_list : pyval;
}.

(** Modules imported by [sky.py] whose code is elsewhere, and the
    standard library's [json] and [random]. The network answers as a
    function of the request and of everything sent before it. *)
Class Collaborators := {
  json_loads : string -> result pyval;
  json_dumps : pyval -> string;
  user_agent : string -> string;
  (** [Endpoints(host).endpoints[name]] *)
  endpoints : string -> string -> string;
  (** [template.format(name=value)] *)
  format_url : string -> string -> pyval -> string;
  (** [Signature(platform).calculate_signature(method, url, headers, body)] *)
  calculate_signature : string -> string -> string -> dict -> pyval -> result dict;
  (** [Network.load_data] and [Network.post_data]: the parsed reply *)
  net_data : list request -> request -> result pyval;
  (** [Network.session.post]: the raw reply *)
  net_post : list request -> request -> result response;
  (** the index picked by the [n]-th call of [random.choice] on a
      sequence of the given length *)
  random_index : nat -> nat -> nat;
}.

(** *** State and exceptions *)

Definition M (A : Type) : Type := session * world -> result A * (session * world).

Definition ret {A} (a : A) : M A := fun st => (Ok a, st).

Definition mbind_M {A B} (m : M A) (f : A -> M B) : M B := fun st =>
  match m st with
  | (Ok a, st') => f a st'
  | (Raise e, st') => (Raise e, st')
  end.

Notation "'let!' x ':=' m 'in' k" := (mbind_M m (fun x => k))
  (at level 10, x name, m at level 100, k at level 200,
   format "'[v' 'let!'  x  ':='  m  'in' '/' k ']'").

Notation "m ';;' k" := (mbind_M m (fun _ => k))
  (at level 100, k at level 200, right associativity, only parsing).

(** A computation that only raises or returns. *)
Definition lift {A} (r : result A) : M A := fun st => (r, st).

Definition get_self : M session := fun st => (Ok (fst st), st).
Definition get_world : M world := fun st => (Ok (snd st), st).
Definition set_self (f : session -> session) : M unit :=
  fun st => (Ok tt, (f (fst st), snd st)).
Definition set_world (f : world -> world) : M unit :=
  fun st => (Ok tt, (fst st, f (snd st))).

(** *** The cache *)

Module Cache.

(** Modelled from the spec: class [Cache] of module [cache] is not in
    [sky.py]. Section 4.2: [load_file]/[save_file] are pass-throughs
    with no expiry; [load(key, ttl)] gives the entry when it is fresh
    ([now - write_timestamp < ttl]) and behaves as absent otherwise;
    [ttl = 0] or no [ttl] means no expiry; a missing key is a normal
    absent result; [remove] deletes the entry. *)
Definition stored (key : string) (w : world) : pyval :=
  match files w !! key with
  | Some f => VStr (content f)
  | None => VNone
  end.

Definition load_file (key : string) : M pyval := fun st =>
  (Ok (stored key (snd st)), st).

Definition fresh (now : Q) (ttl : Q) (f : file) : bool :=
  Qeq_bool ttl 0 || negb (Qle_bool ttl (now - mtime f)).

Definition stored_fresh (key : string) (ttl : Q) (w : world) : pyval :=
  match files w !! key with
  | Some f => if fresh (clock w) ttl f then VStr (content f) else VNone
  | None => VNone
  end.

Definition load (key : string) (ttl : Q) : M pyval := fun st =>
  (Ok (stored_fresh key ttl (snd st)), st).

Definition save_file (key : string) (data : string) : M unit :=
  set_world (fun w =>
    World (<[key := File data (clock w)]> (files w)) (clock w) (sent w) (draws w)).

Definition remove_file (key : string) : M unit :=
  set_world (fun w => World (delete key (files w)) (clock w) (sent w) (draws w)).

Definition save_json `{Collaborators} (key : string) (data : pyval) : M unit :=
  save_file key (json_dumps data).

End Cache.

(** *** The network *)

Definition record (r : request) (w : world) : world :=
  World (files w) (clock w) (sent w ++ [r])%list (draws w).

(** [self.net.load_data(url, headers)] / [self.net.post_data(url, data, headers)]. *)
Definition send_data `{Collaborators} (r : request) : M pyval := fun st =>
  (net_data (sent (snd st)) r, (fst st, record r (snd st))).

(** [self.net.session.post(url, data=..., headers=...)]. *)
Definition send_post `{Collaborators} (r : request) : M response := fun st =>
  (net_post (sent (snd st)) r, (fst st, record r (snd st))).

(** [d.update(other)]: [d[k] = other[k]] for every key [k] of [other]. *)
Definition update_keys (d other : dict) (keys : list string) : dict :=
  fold_left (fun acc k => assoc_set k (item k other) acc) keys d.

Definition update (d other : dict) : dict :=
  update_keys d other (map fst other).

(** ** The session object *)

Definition with_logged (b : bool) (s : session) : session :=
  Session b (platform_key s) (platform_name s) (host s) (pldir s) (headers s)
    (device_id s) (net_headers s) (cookie s) (user_token s) (profile_id s)
    (profile_type s) (my_segments s) (get_token_error s) (search_list s).

Definition with_headers (h : dict) (s : session) : session :=
  Session (logged s) (platform_key s) (platform_name s) (host s) (pldir s) h
    (device_id s) (net_headers s) (cookie s) (user_token s) (profile_id s)
    (profile_type s) (my_segments s) (get_token_error s) (search_list s).

Definition with_device_id (d : pyval) (s : session) : session :=
  Session (logged s) (platform_key s) (platform_name s) (host s) (pldir s)
    (headers s) d (net_headers s) (cookie s) (user_token s) (profile_id s)
    (profile_type s) (my_segments s) (get_token_error s) (search_list s).

Definition with_net_headers (h : dict) (s : session) : session :=
  Session (logged s) (platform_key s) (platform_name s) (host s) (pldir s)
    (headers s) (device_id s) h (cookie s) (user_token s) (profile_id s)
    (profile_type s) (my_segments s) (get_token_error s) (search_list s).

Definition with_cookie (c : pyval) (s : session) : session :=
  Session (logged s) (platform_key s) (platform_name s) (host s) (pldir s)
    (headers s) (device_id s) (net_headers s) c (user_token s) (profile_id s)
    (profile_type s) (my_segments s) (get_token_error s) (search_list s).

Definition with_user_token (t : pyval) (s : session) : session :=
  Session (logged s) (platform_key s) (platform_name s) (host s) (pldir s)
    (headers s) (device_id s) (net_headers s) (cookie s) t (profile_id s)
    (profile_type s) (my_segments s) (get_token_error s) (search_list s).

Definition with_profile (id ty : pyval) (s : session) : session :=
  Session (logged s) (platform_key s) (platform_name s) (host s) (pldir s)
    (headers s) (device_id s) (net_headers s) (cookie s) (user_token s) id
    ty (my_segments s) (get_token_error s) (search_list s).

Definition with_my_segments (l : list pyval) (s : session) : session :=
  Session (logged s) (platform_key s) (platform_name s) (host s) (pldir s)
    (headers s) (device_id s) (net_headers s) (cookie s) (user_token s)
    (profile_id s) (profile_type s) l (get_token_error s) (search_list s).

Definition with_get_token_error (e : pyval) (s : session) : session :=
  Session (logged s) (platform_key s) (platform_name s) (host s) (pldir s)
    (headers s) (device_id s) (net_headers s) (cookie s) (user_token s)
    (profile_id s) (profile_type s) (my_segments s) e (search_list s).

Definition with_search_list (l : pyval) (s : session) : session :=
  Session (logged s) (platform_key s) (platform_name s) (host s) (pldir s)
    (headers s) (device_id s) (net_headers s) (cookie s) (user_token s)
    (profile_id s) (profile_type s) (my_segments s) (get_token_error s) l.

(** The class attributes [platforms] and [account] as the source
    initialises them, seen through the chosen platform. *)
Definition platforms (platform : string) : option session :=
  if String.eqb platform "skyshowtime" then
    Some (Session false platform "SkyShowtime" "skyshowtime.com" "skyshowtime"
            [("x-skyott-activeterritory", VStr "ES");
             ("x-skyott-client-version", VStr "4.3.12");
             ("x-skyott-device", VStr "MOBILE");
             ("x-skyott-language", VStr "en-US");
             ("x-skyott-platform", VStr "ANDROID");
             ("x-skyott-proposition", VStr "SKYSHOWTIME");
             ("x-skyott-provider", VStr "SKYSHOWTIME");
             ("x-skyott-territory", VStr "ES")]
            VNone [] VNone VNone VNone VNone [] (VStr "") (VList []))
  else if String.eqb platform "peacocktv" then
    Some (Session false platform "PeacockTV" "peacocktv.com" "peacocktv"
            [("x-skyott-activeterritory", VStr "US");
             ("x-skyott-client-version", VStr "4.3.12");
             ("x-skyott-device", VStr "MOBILE");
             ("x-skyott-language", VStr "en");
             ("x-skyott-platform", VStr "ANDROID");
             ("x-skyott-proposition", VStr "NBCUOTT");
             ("x-skyott-provider", VStr "NBCU");
             ("x-skyott-territory", VStr "US")]
            VNone [] VNone VNone VNone VNone [] (VStr "") (VList []))
  else None.

(** [bytes.strip()]: ASCII whitespace is dropped at both ends. *)
Definition is_space (c : Ascii.ascii) : bool :=
  let n := Ascii.nat_of_ascii c in
  (n =? 32)%nat || ((9 <=? n)%nat && (n <=? 13)%nat).

Fixpoint lstrip (s : string) : string :=
  match s with
  | String c s' => if is_space c then lstrip s' else s
  | EmptyString => EmptyString
  end.

Fixpoint rstrip (s : string) : string :=
  match s with
  | String c s' =>
      match rstrip s' with
      | EmptyString => if is_space c then EmptyString else String c EmptyString
      | r => String c r
      end
  | EmptyString => EmptyString
  end.

Definition strip (s : string) : string := rstrip (lstrip s).

(** [[A-Z]] in a bytes pattern. *)
Definition is_upper (c : Ascii.ascii) : bool :=
  let n := Ascii.nat_of_ascii c in (65 <=? n)%nat && (n <=? 90)%nat.

(** [re.search(b'hterr=([A-Z]{2})', s)], giving [m.group(1)] of the
    leftmost match. *)
Fixpoint search_hterr (s : string) : option string :=
  match s with
  | EmptyString => None
  | String _ s' =>
      if is_prefix "hterr=" s then
        match String.substring 6 2 s with
        | String a (String b EmptyString) =>
            if is_upper a && is_upper b
            then Some (String a (String b EmptyString))
            else search_hterr s'
        | _ => search_hterr s'
        end
      else search_hterr s'
  end.

Definition alphabet : string :=
  "abcdefghijklmnopqrstuvwxyzABCDEFGHIJKLMNOPQRSTUVWXYZ0123456789".

Section Session.

Context `{Collaborators}.

(** [random.choice(seq)] at draw [k], as a string of one character. *)
Definition random_choice (k : nat) (seq : string) : string :=
  match String.get (random_index k (String.length seq) mod String.length seq)%nat seq with
  | Some c => String c EmptyString
  | None => EmptyString
  end.

(** [''.join(random.choice(string.ascii_letters + string.digits) for _ in
    range(n))], starting at draw [k]. *)
Fixpoint random_chars (n k : nat) : string :=
  match n with
  | O => EmptyString
  | S n' => random_choice k alphabet +:+ random_chars n' (S k)
  end.

(** [create_device_id]. *)
Definition create_device_id : M string := fun st =>
  let w := snd st in
  (Ok (random_chars 20 (draws w)),
   (fst st, World (files w) (clock w) (sent w) (draws w + 20))).

(** [get_localisation]. *)
Definition get_localisation : M pyval :=
  let! s := get_self in
  let url := endpoints (host s) "localisation" in
  let h := net_headers s in
  let h := assoc_set "Accept" (VStr "application/vnd.localisationinfo.v1+json") h in
  let! provider := lift (getitem (VDict (headers s)) "x-skyott-provider") in
  let h := assoc_set "x-skyott-provider" provider h in
  let! proposition := lift (getitem (VDict (headers s)) "x-skyott-proposition") in
  let h := assoc_set "x-skyott-proposition" proposition h in
  let! sig_header := lift (calculate_signature (platform_key s) "GET" url h VNone) in
  let h := update h sig_header in
  send_data (Request "GET" url h VNone).

(** [get_profiles]. *)
Definition get_profiles_body (res : list pyval) (d : pyval) : result (list pyval) :=
  let* id := getitem d "id" in
  let* name := getitem d "displayName" in
  let* ty := getitem d "type" in
  let* av := getitem d "avatar" in
  let* links := getitem av "links" in
  let* bg := getitem links "AvatarWithBackgroundTransparency" in
  let* href := getitem bg "href" in
  let p := [("id", id); ("name", name); ("type", ty); ("avatar", href)] in
  let* av' := str_replace (item "avatar" p) "{width}/{height}" "400" in
  let p := assoc_set "avatar" av' p in
  Ok (res ++ [VDict p])%list.

Definition get_profiles : M (list pyval) :=
  let! s := get_self in
  let url := endpoints (host s) "profiles" in
  let h := net_headers s in
  let h := assoc_set "content-type" (VStr "application/json") h in
  let h := assoc_set "cookie" (cookie s) h in
  let! data := send_data (Request "POST" url h (VStr "")) in
  let! has := lift (contains "personas" data) in
  if has then
    let! ps := lift (getitem data "personas") in
    let! l := lift (iter ps) in
    lift (foldM get_profiles_body l [])
  else ret [].

(** [select_default_profile]. *)
Definition select_default_profile : M (pyval * pyval) :=
  let! profiles := get_profiles in
  match profiles with
  | profile :: _ =>
      let! s := get_self in
      Cache.save_json (pldir s +:+ "/profile.json") profile ;;
      let! id := lift (getitem profile "id") in
      let! ty := lift (getitem profile "type") in
      ret (id, ty)
  | [] => ret (VNone, VNone)
  end.

(** [get_profile_info]. *)
Definition get_profile_info (profile_id : pyval) : M pyval :=
  let! s := get_self in
  let url := format_url (endpoints (host s) "get-profile-info") "profile_id" profile_id in
  let h := net_headers s in
  let h := assoc_set "Content-Type" (VStr "application/json") h in
  let h := assoc_set "cookie" (cookie s) h in
  let! sig_header := lift (calculate_signature (platform_key s) "GET" url h VNone) in
  let h := update h sig_header in
  send_data (Request "GET" url h VNone).

(** The [post_data] dict of [get_tokens]. *)
Definition tokens_post_data (provider territory proposition persona device : pyval) : pyval :=
  VDict [("auth", VDict [("authScheme", VStr "MESSO");
                         ("authIssuer", VStr "NOWTV");
                         ("provider", provider);
                         ("providerTerritory", territory);
                         ("proposition", proposition);
                         ("personaId", persona)]);
         ("device", VDict [("type", VStr "COMPUTER");
                           ("platform", VStr "PC");
                           ("id", device);
                           ("drmDeviceId", VStr "UNKNOWN")])].

(** [get_tokens]. *)
Definition get_tokens : M pyval :=
  let! s := get_self in
  let url := endpoints (host s) "tokens" in
  let h := [] in
  let h := assoc_set "Accept" (VStr "application/vnd.tokens.v1+json") h in
  let h := assoc_set "Content-Type" (VStr "application/vnd.tokens.v1+json") h in
  let h := assoc_set "cookie" (cookie s) h in
  let! provider := lift (getitem (VDict (headers s)) "x-skyott-provider") in
  let! territory := lift (getitem (VDict (headers s)) "x-skyott-territory") in
  let! proposition := lift (getitem (VDict (headers s)) "x-skyott-proposition") in
  let post_data :=
    tokens_post_data provider territory proposition (profile_id s) (device_id s) in
  let post_data := VStr (json_dumps post_data) in
  let! sig_header := lift (calculate_signature (platform_key s) "POST" url h post_data) in
  let h := update h sig_header in
  send_data (Request "POST" url h post_data).

(** [get_me]. *)
Definition get_me : M pyval :=
  let! s := get_self in
  let url := endpoints (host s) "me" in
  let h := net_headers s in
  let h := assoc_set "Accept" (VStr "application/vnd.userinfo.v2+json") h in
  let h := assoc_set "Content-Type" (VStr "application/vnd.userinfo.v2+json") h in
  let h := if truthy (user_token s)
           then assoc_set "x-skyott-usertoken" (user_token s) h else h in
  let! sig_header := lift (calculate_signature (platform_key s) "GET" url h VNone) in
  let h := update h sig_header in
  send_data (Request "GET" url h VNone).

(** [json.loads(content)] on what the cache returned. *)
Definition loads (content : pyval) : result pyval :=
  match content with
  | VStr c => json_loads c
  | _ => Raise TypeError
  end.

(** A [for] loop over statements with effects. *)
Fixpoint for_each {A} (f : A -> M unit) (l : list A) : M unit :=
  match l with
  | [] => ret tt
  | x :: l' => f x ;; for_each f l'
  end.

(** *** [__init__], block by block *)

Definition default_headers (platform : string) : dict :=
  [("Accept", VStr "application/json, text/javascript, */*; q=0.01");
   ("User-Agent", VStr (user_agent platform))].

(** Up to [# Load cookie]. The two directories created here hold no
    state of their own. *)
Definition init_start : M unit :=
  set_self (fun s => with_net_headers (default_headers (platform_key s))
                       (with_logged false s)).

(** [# Load cookie] *)
Definition load_cookie : M unit :=
  let! s := get_self in
  let! c := Cache.load_file (pldir s +:+ "/cookie.conf") in
  if truthy c then
    match c with
    | VStr b => set_self (fun s => with_logged true (with_cookie (VStr (strip b)) s))
    | _ => lift (Raise AttributeError)
    end
  else ret tt.

(** [# Load device_id] *)
Definition load_device_id : M unit :=
  let! s := get_self in
  let! c := Cache.load_file (pldir s +:+ "/device_id.conf") in
  if truthy c then
    set_self (with_device_id c)
  else
    let! id := create_device_id in
    set_self (with_device_id (VStr id)) ;;
    Cache.save_file (pldir s +:+ "/device_id.conf") id.

(** [# Get the territory from the cookie]: the new value of the local
    variable [territory]. *)
Definition cookie_territory (territory : pyval) : M pyval :=
  let! s := get_self in
  if negb (truthy territory) && truthy (cookie s) then
    match cookie s with
    | VStr b =>
        match search_hterr b with
        | Some code => ret (VStr code)
        | None => ret territory
        end
    | _ => lift (Raise TypeError)
    end
  else ret territory.

(** [# Load localisation], first half: the value of [extra_headers]. *)
Definition fetch_localisation : M pyval :=
  let! s := get_self in
  let localisation_filename := pldir s +:+ "/localisation.json" in
  let! c := Cache.load localisation_filename 0 in
  if truthy c then lift (loads c)
  else
    let! eh := get_localisation in
    let! has := lift (contains "headers" eh) in
    (if has then Cache.save_json localisation_filename eh else ret tt) ;;
    ret eh.

(** [# Load localisation], second half, and [# Override data from
    localisation if the user set a territory]. *)
Definition apply_localisation (extra_headers territory : pyval) : M unit :=
  let! has :=
    (if truthy extra_headers then lift (contains "headers" extra_headers)
     else ret false) in
  (if has then
     let! h := lift (getitem extra_headers "headers") in
     let! a := lift (get h "x-skyott-activeterritory") in
     let! l := lift (get h "x-skyott-language") in
     let! t := lift (get h "x-skyott-territory") in
     set_self (fun s =>
       with_headers (update (headers s)
                       [("x-skyott-activeterritory", a);
                        ("x-skyott-language", l);
                        ("x-skyott-territory", t)]) s)
   else ret tt) ;;
  (if truthy territory then
     set_self (fun s =>
       with_headers (assoc_set "x-skyott-territory" territory (headers s)) s) ;;
     let! s := get_self in
     let! act := lift (getitem (VDict (headers s)) "x-skyott-activeterritory") in
     if eq_str act "XX" then
       set_self (fun s =>
         with_headers (assoc_set "x-skyott-activeterritory" territory (headers s)) s)
     else ret tt
   else ret tt) ;;
  set_self (fun s => with_net_headers (update (net_headers s) (headers s)) s).

Definition load_localisation (territory : pyval) : M unit :=
  let! extra_headers := fetch_localisation in
  apply_localisation extra_headers territory.

(** [# Load profile] *)
Definition load_profile : M unit :=
  let! s := get_self in
  let! c := Cache.load_file (pldir s +:+ "/profile.json") in
  if truthy c then
    let! profile := lift (loads c) in
    let! id := lift (getitem profile "id") in
    set_self (fun s => with_profile id (profile_type s) s) ;;
    let! ty := lift (getitem profile "type") in
    set_self (fun s => with_profile (profile_id s) ty s)
  else
    let! p := select_default_profile in
    set_self (with_profile (fst p) (snd p)).

(** [if self.account['profile_id']: ...] *)
Definition load_profile_info : M unit :=
  let! s := get_self in
  if truthy (profile_id s) then
    let profile_info_filename := pldir s +:+ "/profile_info.json" in
    let! c := Cache.load_file profile_info_filename in
    let! data :=
      (if truthy c then lift (loads c)
       else
         let! d := get_profile_info (profile_id s) in
         Cache.save_json profile_info_filename d ;;
         ret d) in
    let! has_p := lift (contains "persona" data) in
    let! has_l :=
      (if has_p then
         let! persona := lift (getitem data "persona") in
         lift (contains "displayLanguage" persona)
       else ret false) in
    if has_l then
      let! persona := lift (getitem data "persona") in
      let! lang := lift (getitem persona "displayLanguage") in
      set_self (fun s => with_headers (assoc_set "x-skyott-language" lang (headers s)) s) ;;
      set_self (fun s => with_net_headers (update (net_headers s) (headers s)) s)
    else ret tt
  else ret tt.

(** [# Load user token] *)
Definition load_user_token : M unit :=
  let! s := get_self in
  let token_filename := pldir s +:+ "/token.json" in
  let! c := Cache.load token_filename 60 in
  let! data :=
    (if truthy c then lift (loads c)
     else
       let! d := get_tokens in
       let! has_t := lift (contains "userToken" d) in
       (if has_t then Cache.save_json token_filename d else ret tt) ;;
       let! has_d := lift (contains "description" d) in
       (if has_d then
          let! descr := lift (getitem d "description") in
          set_self (with_get_token_error descr)
        else ret tt) ;;
       ret d) in
  let! has :=
    (if truthy data then lift (contains "userToken" data) else ret false) in
  if has then
    let! tok := lift (getitem data "userToken") in
    set_self (with_user_token tok)
  else ret tt.

(** [# Search] *)
Definition load_search : M unit :=
  let! data := Cache.load_file "searchs.json" in
  let! l := (if truthy data then lift (loads data) else ret (VList [])) in
  set_self (with_search_list l).

(** [# Load my segments] *)
Definition load_my_segments : M unit :=
  let! s := get_self in
  if truthy (user_token s) then
    let me_filename := pldir s +:+ "/me.json" in
    let! c := Cache.load me_filename 0 in
    let! data :=
      (if truthy c then lift (loads c)
       else
         let! d := get_me in
         Cache.save_json me_filename d ;;
         ret d) in
    let! seg := lift (get_or data "segmentation" (VList [])) in
    let! cont := lift (get_or seg "content" (VList [])) in
    let! l := lift (iter cont) in
    for_each (fun x =>
      let! name := lift (getitem x "name") in
      set_self (fun s => with_my_segments (my_segments s ++ [name])%list s)) l
  else ret tt.

(** [__init__], run on the object's class-level state. *)
Definition init (territory : pyval) : M unit :=
  init_start ;;
  load_cookie ;;
  load_device_id ;;
  let! territory := cookie_territory territory in
  load_localisation territory ;;
  load_profile ;;
  load_profile_info ;;
  load_user_token ;;
  load_search ;;
  load_my_segments.

(** [SkyShowtime(config_directory, platform, territory)] in a fresh
    interpreter. *)
Definition SkyShowtime (platform : string) (territory : pyval) (w : world)
  : result unit * option (session * world) :=
  match platforms platform with
  | Some s => let r := init territory (s, w) in (fst r, Some (snd r))
  | None => (Raise KeyError, None)
  end.

(** *** Credentials and profiles *)

Definition try_except {A} (m handler : M A) : M A := fun st =>
  match m st with
  | (Ok a, st') => (Ok a, st')
  | (Raise _, st') => handler st'
  end.

Definition browser_user_agent : string :=
  "Mozilla/5.0 (X11; Linux x86_64) AppleWebKit/537.36 (KHTML, like Gecko) Chrome/107.0.0.0 Safari/537.36".

(** ['; '.join([key + '=' + value for key, value in cookie_dict.items()])] *)
Fixpoint join_cookies (l : list (string * string)) : string :=
  match l with
  | [] => EmptyString
  | [(k, v)] => k +:+ "=" +:+ v
  | (k, v) :: l' => k +:+ "=" +:+ v +:+ "; " +:+ join_cookies l'
  end.

(** [login]: [Some (ok, content)] for [return ok, content], [None] when
    the function ends without a [return]. *)
Definition login (username password : pyval) : M (option (bool * string)) :=
  let! s := get_self in
  let url := endpoints (host s) "login" in
  let h := net_headers s in
  let h := assoc_set "content-type" (VStr "application/x-www-form-urlencoded") h in
  let h := assoc_set "Accept" (VStr "application/vnd.siren+json") h in
  let h := assoc_set "user-agent" (VStr browser_user_agent) h in
  let! h := lift (if has_key "x-skyott-device" h
                  then Ok (assoc_del "x-skyott-device" h)
                  else Raise KeyError) in
  let post_data := VDict [("userIdentifier", username); ("password", password);
                          ("rememberMe", VBool true); ("isWeb", VBool true)] in
  let! r := send_post (Request "POST" url h post_data) in
  let cookie_string := join_cookies (resp_cookies r) in
  let c := resp_content r in
  try_except
    (let! data := lift (json_loads c) in
     let! props := lift (get_or data "properties" (VList [])) in
     let! ev := lift (get props "eventType") in
     if eq_str ev "success" then
       set_self (with_cookie (VStr cookie_string)) ;;
       let! s := get_self in
       let cookie_filename := pldir s +:+ "/cookie.conf" in
       Cache.save_file cookie_filename cookie_string ;;
       ret (Some (true, c))
     else ret None)
    (ret (Some (false, c))).

(** [delete_cookie]. *)
Definition delete_cookie : M unit :=
  let! s := get_self in
  let cookie_filename := pldir s +:+ "/cookie.conf" in
  Cache.remove_file cookie_filename.

Definition profile_scoped_files : list string :=
  ["profile_info.json"; "token.json"; "menu.json"].

(** The [for profile in profiles: ... else: ...] of [change_profile]. *)
Fixpoint change_profile_loop (id : pyval) (profiles : list pyval) : M unit :=
  match profiles with
  | [] => ret tt
  | profile :: rest =>
      let! pid := lift (getitem profile "id") in
      if py_eq pid id then
        let! s := get_self in
        Cache.save_json (pldir s +:+ "/profile.json") profile ;;
        for_each (fun f => Cache.remove_file (pldir s +:+ "/" +:+ f))
                 profile_scoped_files
      else change_profile_loop id rest
  end.

(** [change_profile]. *)
Definition change_profile (id : pyval) : M unit :=
  let! profiles := get_profiles in
  change_profile_loop id profiles.

Definition session_files : list string :=
  ["device_id.conf"; "localisation.json"; "profile.json"; "profile_info.json";
   "token.json"; "menu.json"; "me.json"].

(** [clear_session]. *)
Definition clear_session : M unit :=
  let! s := get_self in
  for_each (fun f => Cache.remove_file (pldir s +:+ "/" +:+ f)) session_files.

End Session.

(** ** Programme guide *)

Module EPG.

(** The guide as the upstream API types it: [startTimeUTC] and
    [durationSeconds] are integers and [serviceKey] is a string. The
    other keys of a channel and the [data] object of a schedule item
    stay raw JSON. *)
Record schedule_item := ScheduleItem {
  startTimeUTC : Z;
  durationSeconds : Z;
  data : pyval;
}.

Record channel := Channel {
  serviceKey : string;
  scheduleItems : list schedule_item;
  attrs : pyval;                    (* [rank], [name], [id], [images], [type] *)
}.

(** An entry [t] of the index built by [get_epg]. *)
Record program := Program {
  start : Z;
  end_ : Z;
  start_str : string;
  end_str : string;
  date_str : string;
  info : dict;
  p_art : dict;
  content_id : pyval;
  provider_variant_id : pyval;
}.

Section Guide.

Context `{Formatting}.

(** [find_image] (local to [get_epg]). *)
Fixpoint find_image_loop (d : pyval) (labels : list string) (url : pyval) : result pyval :=
  match labels with
  | [] => Ok url
  | label :: rest =>
      let* u := get d label in
      if truthy u then Ok u else find_image_loop d rest u
  end.

Definition find_image (d : pyval) : result pyval :=
  let* url := find_image_loop d ["16-9"; "scene169"; "landscape"] VNone in
  if truthy url then str_replace url "?" "/400?" else Ok url.

(** The inner loop body of [get_epg]. *)
Definition get_epg_item (i : schedule_item) : result program :=
  let t_start := startTimeUTC i in
  let t_end := (t_start + durationSeconds i)%Z in
  let* ss := timestamp2str (inject_Z t_start) None in
  let* es := timestamp2str (inject_Z t_end) None in
  let* ds := timestamp2str (inject_Z t_start) (Some "%a %d %H:%M") in
  let* title := getitem (data i) "title" in
  let* plot := get (data i) "description" in
  let inf := [("title", title); ("plot", plot);
              ("duration", VInt (durationSeconds i))] in
  let* has := contains "images" (data i) in
  let* poster :=
    (if has then
       let* im := getitem (data i) "images" in
       find_image im
     else Ok VNone) in
  let* cid := get (data i) "contentId" in
  let* pv := get (data i) "providerVariantId" in
  Ok (Program t_start t_end ss es ds inf [("poster", poster)] cid pv).

Fixpoint get_epg_items (l : list schedule_item) : result (list program) :=
  match l with
  | [] => Ok []
  | i :: l' =>
      let* t := get_epg_item i in
      let* r := get_epg_items l' in
      Ok (t :: r)
  end.

(** [get_epg], on the channels of the downloaded guide. *)
Definition get_epg (channels : list channel) : result (gmap string (list program)) :=
  foldM (fun res c =>
           let* l := get_epg_items (scheduleItems c) in
           Ok (<[serviceKey c := l]> res))
        channels ∅.

(** [p['start'] <= timestamp and timestamp <= p['end']] *)
Definition on_air (timestamp : Q) (p : program) : bool :=
  Qle_bool (inject_Z (start p)) timestamp && Qle_bool timestamp (inject_Z (end_ p)).

(** The timestamp after [if not timestamp: timestamp = time.time()];
    [None] is the default argument and [now] what the clock would read. *)
Definition effective_timestamp (now : Q) (timestamp : option Q) : Q :=
  match timestamp with
  | Some t => if Qeq_bool t 0 then now else t
  | None => now
  end.

Fixpoint first_on_air (timestamp : Q) (l : list program) : option program :=
  match l with
  | [] => None
  | p :: l' => if on_air timestamp p then Some p else first_on_air timestamp l'
  end.

(** [find_program_epg]. *)
Definition find_program_epg (now : Q) (epg : gmap string (list program))
    (service_key : string) (timestamp : option Q) : result (option program) :=
  let id := service_key in
  let timestamp := effective_timestamp now timestamp in
  match epg !! id with
  | Some l => Ok (first_on_air timestamp l)
  | None => Raise KeyError
  end.






End Guide.

End EPG.

(** ** Browsing, search and playback *)

(** What [sky.py] takes from the Python runtime and the HTTP session
    besides the collaborators above. *)
Class Runtime := {
  (** [s.lower()] *)
  str_lower : string -> string;
  (** [Network.session.put] and [Network.session.delete]: the raw reply *)
  net_put : list request -> request -> result response;
  net_delete : list request -> request -> result response;
  (** [quote(date)] for the local hour that holds the given clock
      reading, as [download_epg] formats it *)
  epg_start_time : Q -> string;
  (** [datetime.utcnow().strftime('%Y-%m-%dT%H:%M:%S.%f')[:-3] + 'Z'] at
      the given clock reading *)
  utc_timestamp : Q -> string;
  (** [json.load] on the file opened by [io.open(filename, 'r')] *)
  load_key_file : string -> result pyval;
}.

(** [v.items()] *)
Definition dict_items (v : pyval) : result dict :=
  match v with
  | VDict d => Ok d
  | _ => Raise AttributeError
  end.

(** [v += 'literal'] *)
Definition iadd_str (v : pyval) (s : string) : result pyval :=
  match v with
  | VStr x => Ok (VStr (x +:+ s))
  | VList l => Ok (VList (l ++ chars s))
  | _ => Raise TypeError
  end.

Section Browsing.

Context `{Formatting} `{Collaborators} `{Runtime}.

(** [self.net.load_data(url)]: a request without headers of its own. *)
Definition load_data (url : string) : M pyval :=
  send_data (Request "GET" url [] VNone).

(** [get_catalog]. *)
Definition get_catalog (slug : pyval) : M (list pyval) :=
  let! s := get_self in
  let url := format_url (endpoints (host s) "section") "slug" slug in
  let! data := load_data url in
  let! has := lift (let* d := getitem data "data" in contains "rail" d) in
  let! items :=
    (if has then
       lift (let* d := getitem data "data" in
             let* r := getitem d "rail" in
             getitem r "items")
     else
       lift (let* d := getitem data "data" in
             let* g := getitem d "group" in
             getitem g "rails")) in
  let! s := get_self in
  lift (parse_catalog (my_segments s) items).

(** [get_series_info], which [get_seasons] and [get_episodes] call. *)
Definition get_series_info (slug : pyval) : M (list pyval) :=
  let! s := get_self in
  let url := format_url (endpoints (host s) "get-series") "slug" slug in
  let! data := load_data url in
  let! items := lift (let* r := getitem data "relationships" in
                      let* i := getitem r "items" in
                      getitem i "data") in
  let! s := get_self in
  lift (parse_items (my_segments s) items).

Definition get_seasons (slug : pyval) : M (list pyval) := get_series_info slug.

Definition get_episodes (slug : pyval) : M (list pyval) := get_series_info slug.

(** [get_video_info]. *)
Definition get_video_info (slug : pyval) : M dict :=
  let! s := get_self in
  let url := format_url (endpoints (host s) "get-video-info") "slug" slug in
  let! data := load_data url in
  let! s := get_self in
  lift (parse_item (my_segments s) data).

(** [get_video_info_uuid]: [None] for [return None]. *)
Definition get_video_info_uuid (uuid : pyval) : M (option dict) :=
  let! s := get_self in
  let url := format_url (endpoints (host s) "get-video-info-uuid") "uuid" uuid in
  let! data := load_data url in
  let! n := lift (len data) in
  if (0 <? n)%nat then
    let! d0 := lift (first data) in
    let! s := get_self in
    let! t := lift (parse_item (my_segments s) d0) in
    ret (Some t)
  else ret None.

(** The loop of [search_vod]. *)
Fixpoint search_vod_loop (l : list pyval) (res : list pyval) : M (list pyval) :=
  match l with
  | [] => ret res
  | i :: l' =>
      let! has := lift (contains "uuid" i) in
      if has then
        let! u := lift (getitem i "uuid") in
        let! t := get_video_info_uuid u in
        match t with
        | Some t =>
            if truthy (VDict t) then search_vod_loop l' (res ++ [VDict t])
            else search_vod_loop l' res
        | None => search_vod_loop l' res
        end
      else search_vod_loop l' res
  end.

(** [search_vod]: [None] for [return None]. *)
Definition search_vod (search_term : pyval) : M (option (list pyval)) :=
  let! s := get_self in
  let url := format_url (endpoints (host s) "search-vod") "search_term" search_term in
  let! data := load_data url in
  let! has := lift (contains "results" data) in
  if negb has then ret None
  else
    let! l := lift (let* r := getitem data "results" in iter r) in
    let! res := search_vod_loop l [] in
    ret (Some res).

(** [search]. *)
Definition search (search_term : pyval) : M (list pyval) :=
  let! s := get_self in
  let url := format_url (endpoints (host s) "search") "search_term" search_term in
  let! data := load_data url in
  Cache.save_json "search_result.json" data ;;
  let! results := lift (let* d := getitem data "data" in
                        let* se := getitem d "search" in
                        getitem se "results") in
  let! s := get_self in
  lift (parse_catalog (my_segments s) results).

(** [get_my_stuff_slug]. *)
Definition get_my_stuff_slug : M pyval :=
  let! s := get_self in
  let url := format_url (endpoints (host s) "my-stuff") "slug" (VStr "/my-stuff") in
  let! data := load_data url in
  lift (let* d := getitem data "data" in
        let* g := getitem d "group" in
        getitem g "slug").

(** [get_my_section]. *)
Definition get_my_section (slug : pyval) : M (list pyval) :=
  let! s := get_self in
  let url := format_url (endpoints (host s) "my-section") "slug" slug in
  let h := net_headers s in
  let h := if truthy (user_token s)
           then assoc_set "x-skyott-usertoken" (user_token s) h else h in
  let! sig_header := lift (calculate_signature (platform_key s) "GET" url h VNone) in
  let h := update h sig_header in
  let! data := send_data (Request "GET" url h VNone) in
  let! has := lift (contains "rails" data) in
  let! some :=
    (if has then
       let! r := lift (getitem data "rails") in
       let! n := lift (len r) in
       ret (0 <? n)%nat
     else ret false) in
  if some then
    let! r := lift (getitem data "rails") in
    let! rails := lift (dict_items r) in
    match rails with
    | (_, v) :: _ =>
        let! its := lift (getitem v "items") in
        let! s := get_self in
        lift (parse_catalog (my_segments s) its)
    | [] => lift (Raise IndexError)
    end
  else ret [].

(** [get_my_list]. *)
Definition get_my_list : M (list pyval) :=
  let! slug := get_my_stuff_slug in
  get_my_section slug.

(** [get_continue_watching]. *)
Definition get_continue_watching : M (list pyval) :=
  get_my_section (VStr "/home/continue-watching").

(** *** Playback *)

(** The loop of [request_playback_tokens] over the endpoints of the
    asset; leaving the function is the [break]. *)
Fixpoint pick_manifest (preferred_server : string) (l : list pyval)
    (manifest_url : pyval) : result pyval :=
  match l with
  | [] => Ok manifest_url
  | i :: l' =>
      let* manifest_url :=
        (if negb (truthy manifest_url) then getitem i "url" else Ok manifest_url) in
      let* cdn := getitem i "cdn" in
      match cdn with
      | VStr c =>
          if String.eqb (str_lower c) (str_lower preferred_server)
          then getitem i "url"
          else pick_manifest preferred_server l' manifest_url
      | _ => Raise AttributeError
      end
  end.

Definition manifest_options : string :=
  "&audio=all&subtitle=all&forcedNarrative=true&trickplay=true".

(** [request_playback_tokens] from [res = {'response': data}] on. *)
Definition playback_result (name : string) (preferred_server : string) (data : pyval)
  : result dict :=
  let res := [("response", data)] in
  let* has_asset := contains "asset" data in
  let* res :=
    (if has_asset then
       let* l := (let* a := getitem data "asset" in
                  let* e := getitem a "endpoints" in
                  iter e) in
       let* manifest_url := pick_manifest preferred_server l VNone in
       let* manifest_url :=
         (if truthy manifest_url && String.eqb name "SkyShowtime"
          then iadd_str manifest_url manifest_options
          else Ok manifest_url) in
       Ok (assoc_set "manifest_url" manifest_url res)
     else Ok res) in
  let* has_protection := contains "protection" data in
  if has_protection then
    let* url := (let* p := getitem data "protection" in
                 getitem p "licenceAcquisitionUrl") in
    let res := assoc_set "license_url" url res in
    let* token := (let* p := getitem data "protection" in
                   getitem p "licenceToken") in
    Ok (assoc_set "license_token" token res)
  else Ok res.

(** [request_playback_tokens]. *)
Definition request_playback_tokens (url : string) (post_data : pyval)
    (content_type : string) (preferred_server : string) : M dict :=
  let! s := get_self in
  let h := net_headers s in
  let h := assoc_set "Accept" (VStr content_type) h in
  let h := assoc_set "Content-Type" (VStr content_type) h in
  let h := if truthy (user_token s)
           then assoc_set "x-skyott-usertoken" (user_token s) h else h in
  let post_data := VStr (json_dumps post_data) in
  let! sig_header := lift (calculate_signature (platform_key s) "POST" url h post_data) in
  let h := update h sig_header in
  let! r := send_post (Request "POST" url h post_data) in
  let! data := lift (json_loads (resp_content r)) in
  let! s := get_self in
  lift (playback_result (platform_name s) preferred_server data).

Definition capability (protection vcodec : string) : pyval :=
  VDict [("protection", VStr protection); ("container", VStr "ISOBMFF");
         ("transport", VStr "DASH"); ("acodec", VStr "AAC");
         ("vcodec", VStr vcodec)].

(** [get_playback_info]. *)
Definition get_playback_info (content_id provider_variant_id : pyval)
    (preferred_server : string) (uhd : bool) (hdcpEnabled : pyval) : M dict :=
  let! s := get_self in
  let url := endpoints (host s) "playouts" in
  let device :=
    [("capabilities", VList [capability "WIDEVINE" "H264"; capability "NONE" "H264"]);
     ("maxVideoFormat", VStr "HD");
     ("model", VStr "Pixel");
     ("hdcpEnabled", hdcpEnabled);
     ("supportedColourSpaces", VList [VStr "SDR"])] in
  let device :=
    if uhd then
      assoc_set "supportedColourSpaces"
        (VList [VStr "DolbyVision"; VStr "HDR10"; VStr "SDR"])
        (assoc_set "maxVideoFormat" (VStr "UHD")
           (assoc_set "capabilities"
              (VList [capability "WIDEVINE" "H264"; capability "NONE" "H264";
                      capability "WIDEVINE" "H265"]) device))
    else device in
  let post_data :=
    VDict [("device", VDict device);
           ("client", VDict [("thirdParties", VList [VStr "FREEWHEEL"])]);
           ("contentId", content_id);
           ("providerVariantId", provider_variant_id);
           ("parentalControlPin", VStr "null");
           ("personaParentalControlRating", VStr "9")] in
  request_playback_tokens url post_data "application/vnd.playvod.v1+json"
    preferred_server.

(** [get_live_playback_info]. *)
Definition get_live_playback_info (service_key : pyval) (preferred_server : string)
    (hdcpEnabled : pyval) : M dict :=
  let! s := get_self in
  let url := endpoints (host s) "playouts-live" in
  let post_data :=
    VDict [("serviceKey", service_key);
           ("device",
            VDict [("capabilities",
                    VList [capability "WIDEVINE" "H264"; capability "NONE" "H264"]);
                   ("maxVideoFormat", VStr "HD");
                   ("model", VStr "Pixel");
                   ("hdcpEnabled", hdcpEnabled)]);
           ("client", VDict [("thirdParties", VList [VStr "FREEWHEEL"]);
                             ("timeShiftEnabled", VStr "false")]);
           ("parentalControlPin", VStr "null");
           ("personaParentalControlRating", VStr "9")] in
  request_playback_tokens url post_data "application/vnd.playlive.v1+json"
    preferred_server.

(** *** Saved searches *)

(** [add_search]. *)
Definition add_search (search_term : pyval) : M unit :=
  let! s := get_self in
  match search_list s with
  | VList l => set_self (with_search_list (VList (l ++ [search_term])))
  | _ => lift (Raise AttributeError)
  end ;;
  let! s := get_self in
  Cache.save_json "searchs.json" (search_list s).

(** [delete_search]. *)
Definition delete_search (search_term : pyval) : M unit :=
  let! s := get_self in
  let! l := lift (iter (search_list s)) in
  set_self (with_search_list
              (VList (List.filter (fun x => negb (py_eq x search_term)) l))) ;;
  let! s := get_self in
  Cache.save_json "searchs.json" (search_list s).

(** *** Main menu *)

(** [download_menu]. *)
Definition download_menu : M pyval :=
  let! s := get_self in
  let h := net_headers s in
  let h := assoc_set "x-skyott-device" (VStr "COMPUTER") h in
  let h := assoc_set "x-skyott-platform" (VStr "PC") h in
  let url := endpoints (host s) "menu" in
  send_data (Request "GET" url h VNone).

(** [find_item] (local to [get_main_menu]). *)
Fixpoint find_item (term : string) (items : list pyval) : result pyval :=
  match items with
  | [] => Ok VNone
  | i :: rest =>
      let* alias := (let* a := getitem i "attributes" in getitem a "alias") in
      if eq_str alias term then Ok i else find_item term rest
  end.

(** [data['relationships']['items']['data']], as a sequence to loop over. *)
Definition related_items (data : pyval) : result (list pyval) :=
  let* r := getitem data "relationships" in
  let* i := getitem r "items" in
  let* d := getitem i "data" in
  iter d.

(** The [try: ... except: icon = None] of [get_main_menu]. *)
Definition menu_icon (i : pyval) : pyval :=
  match (let* rel := getitem i "relationships" in
         let* im := getitem rel "images" in
         let* d := getitem im "data" in
         let* f := first d in
         let* a := getitem f "attributes" in
         getitem a "url") with
  | Ok icon => icon
  | Raise _ => VNone
  end.

(** The body of the innermost loop of [get_main_menu]. *)
Definition menu_entry (res : list pyval) (i : pyval) : result (list pyval) :=
  let* att := getitem i "attributes" in
  let icon := menu_icon i in
  let* alias := getitem att "alias" in
  let* title := getitem att "title" in
  let* slug := (let* uri := getitem att "uri" in str_replace uri "/watch" "") in
  Ok (res ++ [VDict [("id", alias); ("title", title); ("slug", slug);
                     ("icon", icon)]])%list.

(** [get_main_menu] once [data] is there. *)
Definition main_menu (profile_type data : pyval) : result (list pyval) :=
  let kid := eq_str profile_type "Kid" in
  let top_label := if kid then "kidsTopNavWithIcons" else "topNavWithIcons" in
  let main_label := if kid then "Kids" else "Main" in
  let* topnav := (let* l := related_items data in find_item top_label l) in
  if truthy topnav then
    let* main := (let* l := related_items topnav in find_item main_label l) in
    if truthy main then
      let* l := related_items main in
      foldM menu_entry l []
    else Ok []
  else Ok [].

(** [get_main_menu]. *)
Definition get_main_menu : M (list pyval) :=
  let! s := get_self in
  let cache_filename := pldir s +:+ "/menu.json" in
  let! c := Cache.load cache_filename 0 in
  let! data :=
    (if truthy c then lift (loads c)
     else
       let! d := download_menu in
       Cache.save_json cache_filename d ;;
       ret d) in
  let! s := get_self in
  lift (main_menu (profile_type s) data).

(** *** Watchlist, bookmarks, devices *)

Definition send_put (r : request) : M response := fun st =>
  (net_put (sent (snd st)) r, (fst st, record r (snd st))).

Definition send_delete (r : request) : M response := fun st =>
  (net_delete (sent (snd st)) r, (fst st, record r (snd st))).

(** [to_watchlist]: the pair it returns. *)
Definition to_watchlist (uuid slug action : pyval) : M (pyval * pyval) :=
  let! uuid :=
    (if truthy slug then
       let! data := get_video_info slug in
       lift (get (VDict data) "uuid")
     else ret uuid) in
  let! s := get_self in
  let url := format_url (endpoints (host s) "to-watchlist") "uuid" uuid in
  let h := net_headers s in
  let h := assoc_set "Accept" (VStr "application/vnd.mytv.v3+json") h in
  let h := if truthy (user_token s)
           then assoc_set "x-skyott-usertoken" (user_token s) h else h in
  let method := if py_eq action (VStr "add") then "PUT" else "DELETE" in
  let! sig_header := lift (calculate_signature (platform_key s) method url h VNone) in
  let h := update h sig_header in
  let! r :=
    (if String.eqb method "PUT" then send_put (Request "PUT" url h VNone)
     else send_delete (Request "DELETE" url h VNone)) in
  if negb (status_code r =? 201)%Z then
    let! data := lift (json_loads (resp_content r)) in
    let! has := lift (contains "errorCode" data) in
    if has then
      let! code := lift (getitem data "errorCode") in
      let! descr := lift (getitem data "description") in
      ret (code, descr)
    else ret (VInt (status_code r), VStr "")
  else ret (VInt (status_code r), VStr "").

(** [get_bookmarks]. *)
Definition get_bookmarks : M pyval :=
  let! s := get_self in
  let url := endpoints (host s) "get-bookmarks" in
  let h := net_headers s in
  let h := assoc_set "Accept" (VStr "application/vnd.bookmarking.v1+json") h in
  let h := assoc_set "Content-Type" (VStr "application/vnd.bookmarking.v1+json") h in
  let h := if truthy (user_token s)
           then assoc_set "x-skyott-usertoken" (user_token s) h else h in
  let! sig_header := lift (calculate_signature (platform_key s) "GET" url h VNone) in
  let h := update h sig_header in
  send_data (Request "GET" url h VNone).

(** [set_bookmark]. *)
Definition set_bookmark (content_id metadata position : pyval) : M Z :=
  let! s := get_self in
  let url := format_url (endpoints (host s) "set-bookmark") "content_id" content_id in
  let h := net_headers s in
  let h := assoc_set "Accept" (VStr "application/vnd.bookmarking.v1+json") h in
  let h := assoc_set "Content-Type" (VStr "application/vnd.bookmarking.v1+json") h in
  let h := if truthy (user_token s)
           then assoc_set "x-skyott-usertoken" (user_token s) h else h in
  let! w := get_world in
  let now := utc_timestamp (clock w) in
  let data := VDict [("streamPosition", position); ("timestamp", VStr now);
                     ("metadata", metadata)] in
  let post_data := VStr (json_dumps data) in
  let! sig_header := lift (calculate_signature (platform_key s) "PUT" url h post_data) in
  let h := update h sig_header in
  let! r := send_put (Request "PUT" url h post_data) in
  ret (status_code r).

(** The loop body of [get_devices]. *)
Definition get_devices_body (res : list pyval) (d : pyval) : result (list pyval) :=
  let dev := [] in
  let* id := getitem d "deviceid" in
  let dev := assoc_set "id" id dev in
  let* descr := getitem d "devicedescription" in
  let dev := assoc_set "description" descr dev in
  let* signin := get_or d "signintime" (VInt 0) in
  let dev := assoc_set "signin_time" signin dev in
  let* date := (let* secs := truediv (item "signin_time" dev) 1000 in
                timestamp2str secs (Some "%d/%m/%Y %H:%M:%S")) in
  let dev := assoc_set "str_date" (VStr date) dev in
  let* alias := getitem d "alias" in
  let dev := assoc_set "alias" (if truthy alias then alias else VStr "") dev in
  let* ty := getitem d "type" in
  let dev := assoc_set "type" ty dev in
  let* has := contains "location" d in
  let* dev :=
    (if has then
       let* loc := getitem d "location" in
       Ok (assoc_set "location" loc dev)
     else Ok dev) in
  Ok (res ++ [VDict dev])%list.

(** [get_devices]. *)
Definition get_devices : M (list pyval) :=
  let! s := get_self in
  let url := endpoints (host s) "get-devices" in
  let h := net_headers s in
  let h := assoc_set "Accept" (VStr "application/vnd.bridge.v1+json") h in
  let h := assoc_set "cookie" (cookie s) h in
  let! data := send_data (Request "GET" url h VNone) in
  let! has := lift (contains "devices" data) in
  if has then
    let! l := lift (let* ds := getitem data "devices" in iter ds) in
    lift (foldM get_devices_body l [])
  else ret [].

(** *** Guide download and key files *)

(** [download_epg]. *)
Definition download_epg : M pyval :=
  let cache_filename := "cache/epg.json" in
  let! c := Cache.load cache_filename 60 in
  if truthy c then lift (loads c)
  else
    let! w := get_world in
    let date := epg_start_time (clock w) in
    let! s := get_self in
    let url := format_url (endpoints (host s) "epg") "start_time" (VStr date) in
    let! data := load_data url in
    Cache.save_json cache_filename data ;;
    ret data.

(** [import_key_file]. The cache stores text: anything else under
    [data] cannot be written. *)
Definition import_key_file (filename : string) : M unit :=
  let! data := lift (load_key_file filename) in
  let! peacock := lift (let* h := getitem data "host" in contains "peacocktv" h) in
  let output_dir := if peacock then "peacocktv" else "skyshowtime" in
  let! c := lift (getitem data "data") in
  match c with
  | VStr c => Cache.save_file (output_dir +:+ "/cookie.conf") c
  | _ => lift (Raise TypeError)
  end.

End Browsing.

(** ** Specification vocabulary *)

(** [t] lies in the closed interval [[start, end]] of [p]. *)
Definition covers (t : Q) (p : EPG.program) : Prop :=
  (inject_Z (EPG.start p) <= t)%Q /\ (t <= inject_Z (EPG.end_ p))%Q.

(** [r] is the first entry of [l], in stored order, that covers [t], or
    [None] when no entry does. *)
Definition first_covering (t : Q) (l : list EPG.program) (r : option EPG.program) : Prop :=
  match r with
  | Some p =>
      exists l1 l2, l = (l1 ++ p :: l2)%list /\ covers t p /\
                    Forall (fun q => ~ covers t q) l1
  | None => Forall (fun q => ~ covers t q) l
  end.

(** [t[k1][k2]], when present. *)
Definition item2 (k1 k2 : string) (t : dict) : option pyval :=
  match assoc k1 t with
  | Some (VDict d) => assoc k2 d
  | _ => None
  end.

(** Some name of [my] equals, in the sense of [==], some element of [l]. *)
Definition share_segment (my l : list pyval) : Prop :=
  exists s x, s ∈ my /\ x ∈ l /\ py_eq s x = true.

(** The entitlement fields of item [t] against its source payload
    [src]: [subscribed] is there exactly when [src] has
    [contentSegments], and for a list of segments it tells whether one of
    them is among [my] segments. *)
Definition entitlement (my : list pyval) (src : pyval) (t : dict) : Prop :=
  (has_key "subscribed" t = true <-> contains "contentSegments" src = Ok true) /\
  (forall l, getitem src "contentSegments" = Ok (VList l) ->
     exists b, assoc "subscribed" t = Some (VBool b) /\
               (b = true <-> share_segment my l)).

(** The content id of item [t] against the [formats] map [f] of its
    source: HD first, then SD, else none. *)
Definition format_preference (f : dict) (t : dict) : Prop :=
  match assoc "HD" f with
  | Some hd =>
      (exists cid, getitem hd "contentId" = Ok cid /\
                   assoc "content_id" t = Some cid) /\
      (forall c, getitem hd "startOfCredits" = Ok c ->
                 item2 "bookmark_metadata" "startOfCredits" t = Some c)
  | None =>
      match assoc "SD" f with
      | Some sd => exists cid, getitem sd "contentId" = Ok cid /\
                               assoc "content_id" t = Some cid
      | None => assoc "content_id" t = None
      end
  end.

(** The state changes only by requests being sent. *)
Definition net_only (st st' : session * world) : Prop :=
  fst st' = fst st /\
  files (snd st') = files (snd st) /\
  clock (snd st') = clock (snd st) /\
  draws (snd st') = draws (snd st) /\
  sent (snd st) `prefix_of` sent (snd st').

(** The cache has nothing usable under [key]: [if content:] fails. *)
Definition cache_miss (key : string) (ttl : Q) (w : world) : Prop :=
  truthy (Cache.stored_fresh key ttl w) = false.

(** A relation between the state before and after that every step of a
    computation respects, whether it returns or raises. *)
Definition preserves {A} (I : relation (session * world)) (m : M A) : Prop :=
  forall st r st', m st = (r, st') -> I st st'.

(** [preserves], for runs that start in a session satisfying [Pre]. *)
Definition preserves_if {A} (Pre : session -> Prop) (I : relation (session * world))
    (m : M A) : Prop :=
  forall s w r st', Pre s -> m (s, w) = (r, st') -> I (s, w) st'.

(** The platform directory, the host and the part [proj] of the session
    stay as they are, the files [names] of directory [dir] keep their
    content, and requests are only added to the log. *)
Definition keeps {X} (dir : string) (names : list string) (proj : session -> X)
  : relation (session * world) := fun st st' =>
  pldir (fst st') = pldir (fst st) /\
  host (fst st') = host (fst st) /\
  proj (fst st') = proj (fst st) /\
  (forall n, n ∈ names ->
     files (snd st') !! (dir +:+ "/" +:+ n) = files (snd st) !! (dir +:+ "/" +:+ n)) /\
  sent (snd st) `prefix_of` sent (snd st').

(** The cookie and every platform header except the language stay as
    they are, and a header that the network headers mirror stays
    mirrored. *)
Definition keeps_territory : relation (session * world) := fun st st' =>
  cookie (fst st') = cookie (fst st) /\
  (forall k, k <> "x-skyott-language" ->
     assoc k (headers (fst st')) = assoc k (headers (fst st))) /\
  (forall k, k <> "x-skyott-language" ->
     is_Some (assoc k (headers (fst st))) ->
     assoc k (net_headers (fst st)) = assoc k (headers (fst st)) ->
     assoc k (net_headers (fst st')) = assoc k (headers (fst st'))).

(** The account cookie after [# Load cookie]: the stored cookie,
    stripped, when the cookie file has content. *)
Definition loaded_cookie (s : session) (w : world) : pyval :=
  match Cache.stored (pldir s +:+ "/cookie.conf") w with
  | VStr c => if String.eqb c "" then cookie s else VStr (strip c)
  | _ => cookie s
  end.

(** Does the path name a file inside a directory? *)
Fixpoint has_slash (s : string) : bool :=
  match s with
  | EmptyString => false
  | String c s' => Ascii.eqb c (Ascii.ascii_of_nat 47) || has_slash s'
  end.

(** The files left after deleting [g f] for every [f] of [l]. *)
Definition remove_all (g : string -> string) (l : list string)
    (m : gmap string file) : gmap string file :=
  foldl (fun m f => delete (g f) m) m l.

(** The request that [login] posts. *)
Definition login_request `{Collaborators} (s : session) (username password : pyval)
  : request :=
  Request "POST" (endpoints (host s) "login")
    (assoc_del "x-skyott-device"
       (assoc_set "user-agent" (VStr browser_user_agent)
          (assoc_set "Accept" (VStr "application/vnd.siren+json")
             (assoc_set "content-type" (VStr "application/x-www-form-urlencoded")
                (net_headers s)))))
    (VDict [("userIdentifier", username); ("password", password);
            ("rememberMe", VBool true); ("isWeb", VBool true)]).

(** The title that [get_genres] takes from genre [d]: the title of its
    first subgenre, when it has one. *)
Definition genre_title (d : pyval) : option pyval :=
  match getitem d "subgenre" with
  | Ok (VList (g :: _)) =>
      match getitem g "title" with
      | Ok t => Some t
      | Raise _ => None
      end
  | _ => None
  end.

(** An ASCII letter or digit. *)
Definition is_alnum (c : Ascii.ascii) : bool :=
  let n := Ascii.nat_of_ascii c in
  ((48 <=? n)%nat && (n <=? 57)%nat) || ((65 <=? n)%nat && (n <=? 90)%nat) ||
  ((97 <=? n)%nat && (n <=? 122)%nat).

(** The keys that [get_art] always returns, with [icon] left empty. *)
Definition art_keys (d : dict) : Prop :=
  assoc "icon" d = Some VNone /\ has_key "poster" d = true /\
  has_key "fanart" d = true /\ has_key "thumb" d = true.

(** What every item returned by [parse_catalog] has: one of the three
    item types, an id, a slug and a title. *)
Definition catalog_item (t : dict) : Prop :=
  (assoc "type" t = Some (VStr "category") \/
   assoc "type" t = Some (VStr "movie") \/
   assoc "type" t = Some (VStr "series")) /\
  is_Some (assoc "id" t) /\ is_Some (assoc "slug" t) /\
  is_Some (item2 "info" "title" t).

(** The account's segments are only ever added to. *)
Definition segments_grow : relation (session * world) := fun st st' =>
  my_segments (fst st) `prefix_of` my_segments (fst st').

(** Does the search result [i] carry a [uuid]? *)
Definition has_uuid (i : pyval) : bool :=
  match contains "uuid" i with
  | Ok true => true
  | _ => false
  end.

(** Endpoint [j] is not on the preferred server. *)
Definition other_server `{Runtime} (preferred_server : string) (j : pyval) : Prop :=
  forall c, getitem j "cdn" = Ok (VStr c) ->
            str_lower c <> str_lower preferred_server.

(** The stored file [path] and the part [proj] of the session stay as
    they are. *)
Definition keeps_path {X} (path : string) (proj : session -> X)
  : relation (session * world) := fun st st' =>
  proj (fst st') = proj (fst st) /\
  files (snd st') !! path = files (snd st) !! path.

(** Entry [dev] of the device list against device [d] of the reply:
    the sign-in time is the number the reply gives, or 0 when it gives
    none, and the alias is never empty other than as [''] . *)
Definition device_entry (d dev : pyval) : Prop :=
  exists dd e signin alias,
    d = VDict dd /\ dev = VDict e /\
    assoc "id" e = assoc "deviceid" dd /\
    assoc "description" e = assoc "devicedescription" dd /\
    assoc "type" e = assoc "type" dd /\
    signin = match assoc "signintime" dd with Some v => v | None => VInt 0 end /\
    assoc "signin_time" e = Some signin /\
    is_Some (as_number signin) /\
    assoc "alias" dd = Some alias /\
    assoc "alias" e = Some (if truthy alias then alias else VStr "") /\
    assoc "location" e = assoc "location" dd.

(** Nothing outside the session changes, and the session stays on its
    platform directory. *)
Definition same_world : relation (session * world) := fun st st' =>
  snd st' = snd st /\ pldir (fst st') = pldir (fst st).

(** [preserves], for runs that start in a state satisfying [P]. *)
Definition preserves_from {A} (P : session * world -> Prop)
    (I : relation (session * world)) (m : M A) : Prop :=
  forall st r st', P st -> m st = (r, st') -> I st st'.

(** File [name] of the platform directory [dir] holds something. *)
Definition cached (dir name : string) (w : world) : Prop :=
  exists f, files w !! (dir +:+ "/" +:+ name) = Some f /\ content f <> "".

(** What a bootstrap reads from the platform directory besides the
    cookie and the token. *)
Definition bootstrap_files : list string :=
  ["device_id.conf"; "localisation.json"; "profile.json"; "profile_info.json";
   "me.json"].

(** The session is on directory [dir] and the world is [w]. *)
Definition at_home (dir : string) (w : world) (st : session * world) : Prop :=
  pldir (fst st) = dir /\ snd st = w.

(** Profile [q] of the list that [get_profiles] returns against persona
    [p] of the reply. *)
Definition profile_entry (p q : pyval) : Prop :=
  exists href,
    (let* a := getitem p "avatar" in
     let* l := getitem a "links" in
     let* b := getitem l "AvatarWithBackgroundTransparency" in
     getitem b "href") = Ok (VStr href) /\
    getitem q "id" = getitem p "id" /\
    getitem q "name" = getitem p "displayName" /\
    getitem q "type" = getitem p "type" /\
    getitem q "avatar" = Ok (VStr (replace "{width}/{height}" "400" href)).

(** The files that a bootstrap may write, all in the platform
    directory. *)
Definition bootstrap_outputs : list string :=
  ["device_id.conf"; "localisation.json"; "profile.json"; "profile_info.json";
   "token.json"; "me.json"].

(** Only the files [names] of directory [dir] may have changed, and the
    session stays on its platform directory. *)
Definition writes_only (dir : string) (names : list string)
  : relation (session * world) := fun st st' =>
  pldir (fst st') = pldir (fst st) /\
  forall path, (forall n, n ∈ names -> path <> dir +:+ "/" +:+ n) ->
               files (snd st') !! path = files (snd st) !! path.

(** Sample values used to run the definitions. *)
Module Sample.

Definition formatting : Formatting :=
  {| timestamp2str := fun _ _ => Ok "Mon 01 00:00";
     format_value := fun v => match v with VStr s => s | _ => "?" end |}.

Definition news : EPG.program :=
  EPG.Program 1000 1060 "" "" "" [("title", VStr "News")] [("poster", VNone)]
    VNone VNone.

Definition old_show : EPG.program :=
  EPG.Program (-10) 10 "" "" "" [("title", VStr "Test card")] [("poster", VNone)]
    VNone VNone.

Definition guide : list EPG.channel :=
  [EPG.Channel "4270"
     [EPG.ScheduleItem 1000 60 (VDict [("title", VStr "News")])]
     (VDict [("rank", VInt 1); ("name", VStr "One"); ("id", VStr "c1");
             ("type", VStr "LINEAR")])].

(** A small JSON printer, and a reader that knows a fixed set of
    documents. *)
Fixpoint dumps (v : pyval) : string :=
  match v with
  | VNone => "null"
  | VBool b => if b then "true" else "false"
  | VInt z => pretty z
  | VFloat q => pretty (Qnum q) +:+ "/" +:+ pretty (Zpos (Qden q))
  | VStr s => "'" +:+ s +:+ "'"
  | VList l =>
      "[" +:+ (fix go (l : list pyval) : string :=
                 match l with
                 | [] => ""
                 | x :: l' => dumps x +:+ "," +:+ go l'
                 end) l +:+ "]"
  | VDict d =>
      "{" +:+ (fix go (d : dict) : string :=
                 match d with
                 | [] => ""
                 | (k, x) :: d' => "'" +:+ k +:+ "':" +:+ dumps x +:+ "," +:+ go d'
                 end) d +:+ "}"
  end.

Fixpoint loads_from (known : list pyval) (s : string) : result pyval :=
  match known with
  | [] => Raise ValueError
  | v :: rest => if String.eqb (dumps v) s then Ok v else loads_from rest s
  end.

Definition token_reply : pyval :=
  VDict [("userToken", VStr "tok-1"); ("tokenExpiryTime", VStr "later")].

Definition token_denied : pyval :=
  VDict [("errorCode", VStr "OVP_00306");
         ("description", VStr "Security failure")].

Definition personas_reply : pyval :=
  VDict [("personas",
    VList [VDict [("id", VStr "p-1"); ("displayName", VStr "Ann");
                  ("type", VStr "Adult");
                  ("avatar", VDict [("links", VDict
                     [("AvatarWithBackgroundTransparency",
                       VDict [("href", VStr "http://a/{width}/{height}/1")])])])];
           VDict [("id", VStr "p-2"); ("displayName", VStr "Ben");
                  ("type", VStr "Kid");
                  ("avatar", VDict [("links", VDict
                     [("AvatarWithBackgroundTransparency",
                       VDict [("href", VStr "http://a/{width}/{height}/2")])])])]])].

Definition profile_ann : pyval :=
  VDict [("id", VStr "p-1"); ("name", VStr "Ann"); ("type", VStr "Adult");
         ("avatar", VStr "http://a/400/1")].

Definition profile_ben : pyval :=
  VDict [("id", VStr "p-2"); ("name", VStr "Ben"); ("type", VStr "Kid");
         ("avatar", VStr "http://a/400/2")].

Definition localisation_reply : pyval :=
  VDict [("headers", VDict [("x-skyott-activeterritory", VStr "XX");
                            ("x-skyott-language", VStr "pl-PL");
                            ("x-skyott-territory", VStr "CZ")])].

Definition me_reply : pyval :=
  VDict [("segmentation",
          VDict [("content", VList [VDict [("name", VStr "Y")];
                                    VDict [("name", VStr "Z")]])])].

Definition login_failure : pyval :=
  VDict [("properties", VDict [("eventType", VStr "failure")])].

Definition login_success : pyval :=
  VDict [("properties", VDict [("eventType", VStr "success")])].

Definition known_documents : list pyval :=
  [token_reply; token_denied; personas_reply; profile_ann; profile_ben;
   localisation_reply; me_reply; login_failure; login_success; VDict []; VList []].

(** The network answers by endpoint; [tokens] and [login] say what the
    tokens and login endpoints reply. *)
Definition collaborators (tokens login : pyval) : Collaborators :=
  {| json_loads := loads_from known_documents;
     json_dumps := dumps;
     user_agent := fun _ => "okhttp/4.9.3";
     endpoints := fun host name => "https://" +:+ host +:+ "/" +:+ name;
     format_url := fun template _ v => template +:+ "/" +:+ dumps v;
     calculate_signature := fun _ _ _ _ _ => Ok [("x-sky-signature", VStr "sig")];
     net_data := fun _ r =>
       if is_substring "/tokens" (url r) then Ok tokens
       else if is_substring "/profiles" (url r) then Ok personas_reply
       else if is_substring "/localisation" (url r) then Ok localisation_reply
       else if is_substring "/me" (url r) then Ok me_reply
       else Ok (VDict []);
     net_post := fun _ r =>
       Ok (Response 200 (dumps login) [("hterr", "PL"); ("skyCEsidismesso01", "abc")]);
     random_index := fun k _ => k |}.

Definition start : session :=
  match platforms "skyshowtime" with
  | Some s => s
  | None => Session false "" "" "" "" [] VNone [] VNone VNone VNone VNone [] VNone VNone
  end.

Definition empty_world : world := World ∅ 0 [] 0.

(** A session after a first bootstrap, and the files it left. *)
Definition stored_world : world :=
  World (list_to_map
           [("skyshowtime/cookie.conf", File "hterr=PL; skyCEsidismesso01=abc" 0);
            ("skyshowtime/device_id.conf", File "0123456789ABCDEFGHIJ" 0);
            ("skyshowtime/token.json", File (dumps token_reply) 0);
            ("searchs.json", File "[]" 0)])
        100 [] 20.

Definition logged_session : session :=
  with_net_headers
    (update [("Accept", VStr "application/json"); ("User-Agent", VStr "okhttp/4.9.3")]
            (headers start))
    (with_cookie (VStr "hterr=PL; skyCEsidismesso01=abc") start).

Definition my : list pyval := [VStr "Y"; VStr "Z"].

Definition movie : pyval :=
  VDict [("id", VStr "m-1"); ("type", VStr "ASSET/PROGRAMME");
         ("attributes",
          VDict [("slug", VStr "/movies/m-1"); ("title", VStr "A film");
                 ("images", VList [image "titleArt169" "http://i/1?language=en"]);
                 ("genres", VList []); ("synopsisLong", VStr "...");
                 ("durationSeconds", VInt 5400);
                 ("formats",
                  VDict [("SD", VDict [("contentId", VStr "sd-1")]);
                         ("HD", VDict [("contentId", VStr "hd-1");
                                       ("startOfCredits", VInt 5000)])]);
                 ("contentSegments", VList [VStr "X"; VStr "Y"])])].

Definition rail : pyval :=
  VList [VDict [("id", VStr "c-1"); ("title", VStr "Drama");
                ("type", VStr "CATALOGUE/COLLECTION");
                ("contentSegments", VList [VStr "A"])];
         VDict [("id", VStr "l-1"); ("title", VStr "Broken link");
                ("type", VStr "CATALOGUE/LINK"); ("linkId", VStr "x")]].

End Sample.

(** Sample replies for browsing, playback and the other calls. *)
Module Scenario.

Definition lower_char (c : Ascii.ascii) : Ascii.ascii :=
  let n := Ascii.nat_of_ascii c in
  if (65 <=? n)%nat && (n <=? 90)%nat then Ascii.ascii_of_nat (n + 32) else c.

(** [str.lower] on ASCII text. *)
Fixpoint lower (s : string) : string :=
  match s with
  | EmptyString => EmptyString
  | String c s' => String (lower_char c) (lower s')
  end.

Definition endpoint (cdn url : string) : pyval :=
  VDict [("cdn", VStr cdn); ("url", VStr url)].

Definition playback_reply : pyval :=
  VDict [("asset",
          VDict [("endpoints",
                  VList [endpoint "AKAMAI" "https://a.example/m.mpd?t=1";
                         endpoint "Limelight" "https://l.example/m.mpd?t=1"])]);
         ("protection",
          VDict [("licenceAcquisitionUrl", VStr "https://licence.example");
                 ("licenceToken", VStr "lt-1")])].

Definition search_reply : pyval :=
  VDict [("results", VList [VDict [("uuid", VStr "u-1")];
                            VDict [("title", VStr "no uuid")]])].

Definition menu_node (alias : string) (children : list pyval) : pyval :=
  VDict [("attributes", VDict [("alias", VStr alias); ("title", VStr alias);
                               ("uri", VStr ("/watch/" +:+ alias))]);
         ("relationships", VDict [("items", VDict [("data", VList children)])])].

Definition menu_reply : pyval :=
  VDict [("relationships",
          VDict [("items",
                  VDict [("data",
                          VList [menu_node "topNavWithIcons"
                                   [menu_node "Main"
                                      [menu_node "movies" [];
                                       menu_node "tv" []]]])])])].

Definition devices_reply : pyval :=
  VDict [("devices",
          VList [VDict [("deviceid", VStr "d-1"); ("devicedescription", VStr "TV");
                        ("signintime", VInt 1700000000000); ("alias", VNone);
                        ("type", VStr "TV")];
                 VDict [("deviceid", VStr "d-2"); ("devicedescription", VStr "Phone");
                        ("alias", VStr "Ann's phone"); ("type", VStr "MOBILE");
                        ("location", VStr "PL")]])].

Definition guide_reply : pyval := VDict [("channels", VList [])].

Definition key_file : pyval :=
  VDict [("app_name", VStr "skyott"); ("timestamp", VStr "1700000000000");
         ("host", VStr "https://www.peacocktv.com");
         ("data", VStr "hterr=US; skyCEsidismesso01=xyz")].

Definition documents : list pyval :=
  (Sample.known_documents ++
   [playback_reply; search_reply; menu_reply; devices_reply; guide_reply;
    VList [VStr "dune"]])%list.

(** The network answers by endpoint. *)
Definition reply (r : request) : pyval :=
  if is_substring "/tokens" (url r) then Sample.token_reply
  else if is_substring "/profiles" (url r) then Sample.personas_reply
  else if is_substring "/localisation" (url r) then Sample.localisation_reply
  else if is_substring "/search-vod" (url r) then search_reply
  else if is_substring "/get-video-info-uuid" (url r) then VList [Sample.movie]
  else if is_substring "/menu" (url r) then menu_reply
  else if is_substring "/get-devices" (url r) then devices_reply
  else if is_substring "/epg" (url r) then guide_reply
  else if is_substring "/me" (url r) then Sample.me_reply
  else VDict [].

(** [raw] is what the raw calls of the HTTP session reply. *)
Definition collaborators (raw : response) : Collaborators :=
  {| json_loads := Sample.loads_from documents;
     json_dumps := Sample.dumps;
     user_agent := fun _ => "okhttp/4.9.3";
     endpoints := fun host name => "https://" +:+ host +:+ "/" +:+ name;
     format_url := fun template _ v => template +:+ "/" +:+ Sample.dumps v;
     calculate_signature := fun _ _ _ _ _ => Ok [("x-sky-signature", VStr "sig")];
     net_data := fun _ r => Ok (reply r);
     net_post := fun _ _ => Ok raw;
     random_index := fun k _ => k |}.

Definition runtime (raw : response) : Runtime :=
  {| str_lower := lower;
     net_put := fun _ _ => Ok raw;
     net_delete := fun _ _ => Ok raw;
     epg_start_time := fun _ => "2024-01-01T10%3A00%2B01%3A00";
     utc_timestamp := fun _ => "2024-01-01T09:00:00.000Z";
     load_key_file := fun _ => Ok key_file |}.

Definition created : response := Response 201 "" [].

Definition playback_response : response :=
  Response 200 (Sample.dumps playback_reply) [].

Definition peacock : session :=
  match platforms "peacocktv" with
  | Some s => s
  | None => Sample.start
  end.

End Scenario.

(** A household whose stored profile details name a display language;
    the localisation of the network says [pl-PL]. *)
Module Household.

Definition profile_details : pyval :=
  VDict [("persona", VDict [("id", VStr "p-1");
                            ("displayLanguage", VStr "cs-CZ")])].

Definition collaborators : Collaborators :=
  {| json_loads := Sample.loads_from (profile_details :: Scenario.documents);
     json_dumps := Sample.dumps;
     user_agent := fun _ => "okhttp/4.9.3";
     endpoints := fun host name => "https://" +:+ host +:+ "/" +:+ name;
     format_url := fun template _ v => template +:+ "/" +:+ Sample.dumps v;
     calculate_signature := fun _ _ _ _ _ => Ok [("x-sky-signature", VStr "sig")];
     net_data := fun _ r => Ok (Scenario.reply r);
     net_post := fun _ _ => Ok Scenario.created;
     random_index := fun k _ => k |}.

Definition home : world :=
  World (<["skyshowtime/profile_info.json" := File (Sample.dumps profile_details) 0]>
           (<["skyshowtime/profile.json" := File (Sample.dumps Sample.profile_ann) 0]> ∅))
        0 [] 0.

End Household.

(** * Properties *)

(** ** Running code that can raise *)

Lemma bind_Ok {A B} (m : result A) (f : A -> result B) (b : B) :
  bind m f = Ok b -> exists a, m = Ok a /\ f a = Ok b.
Proof. destruct m; simpl; [eauto | discriminate]. Qed.

(** Split a hypothesis [let* x := m in k = Ok b] into its successful
    steps. *)
Ltac bind_inv H :=
  cbv beta zeta in H;
  repeat match type of H with
         | bind _ _ = Ok _ =>
             let a := fresh "x" in
             let E := fresh "E" in
             apply bind_Ok in H as (a & E & H); cbv beta zeta in H
         end.

(** ** Facts about dicts *)

Section DictFacts.

Implicit Types (k : string) (v : pyval) (d : dict).

Lemma assoc_set_eq k v d : assoc k (assoc_set k v d) = Some v.
Proof.
  induction d as [|[k' v'] d IH]; simpl.
  - by rewrite String.eqb_refl.
  - destruct (String.eqb k k') eqn:E; simpl; rewrite ?String.eqb_refl, ?E; auto.
Qed.

Lemma assoc_set_ne k k' v d : k <> k' -> assoc k (assoc_set k' v d) = assoc k d.
Proof.
  intros Hne. induction d as [|[k2 v2] d IH]; simpl.
  - destruct (String.eqb_spec k k'); congruence.
  - destruct (String.eqb_spec k' k2) as [->|]; simpl.
    + destruct (String.eqb_spec k k2); congruence.
    + destruct (String.eqb_spec k k2); auto.
Qed.

Lemma item_set_eq k v d : item k (assoc_set k v d) = v.
Proof. unfold item. by rewrite assoc_set_eq. Qed.

Lemma item_set_ne k k' v d : k <> k' -> item k (assoc_set k' v d) = item k d.
Proof. intros. unfold item. by rewrite assoc_set_ne. Qed.

Lemma has_key_set_eq k v d : has_key k (assoc_set k v d) = true.
Proof. unfold has_key. by rewrite assoc_set_eq. Qed.

Lemma has_key_set_ne k k' v d : k <> k' -> has_key k (assoc_set k' v d) = has_key k d.
Proof. intros. unfold has_key. by rewrite assoc_set_ne. Qed.

Lemma assoc_set_in_ne k k1 k2 v d : k <> k1 -> assoc k (set_in k1 k2 v d) = assoc k d.
Proof.
  intros. unfold set_in. destruct (assoc k1 d) as [[]|]; auto using assoc_set_ne.
Qed.

Lemma has_key_set_in_ne k k1 k2 v d :
  k <> k1 -> has_key k (set_in k1 k2 v d) = has_key k d.
Proof. intros. unfold has_key. by rewrite assoc_set_in_ne. Qed.

Lemma assoc_update_keys k d other keys :
  assoc k (update_keys d other keys) =
  if bool_decide (k ∈ keys) then Some (item k other) else assoc k d.
Proof.
  unfold update_keys. revert d.
  induction keys as [|k' keys IH]; intros d; simpl; [done|].
  rewrite IH. destruct (decide (k = k')) as [->|Hne].
  - rewrite (bool_decide_eq_true_2 (k' ∈ k' :: keys)) by apply list_elem_of_here.
    case_bool_decide; [done|]. by rewrite assoc_set_eq.
  - rewrite assoc_set_ne by done.
    apply (f_equal (fun b : bool => if b then Some (item k other) else assoc k d)).
    apply bool_decide_ext. rewrite elem_of_cons. tauto.
Qed.

Lemma assoc_in_keys k d : k ∈ map fst d <-> is_Some (assoc k d).
Proof.
  induction d as [|[k' v'] d IH]; simpl.
  - split; [intros ?%elem_of_nil; done | intros [? ?]; done].
  - rewrite elem_of_cons. destruct (String.eqb_spec k k') as [->|Hne].
    + split; eauto.
    + rewrite <- IH. tauto.
Qed.

(** After [d.update(other)], a key of [other] has the value it has in
    [other], and every other key keeps the value it had in [d]. *)
Lemma assoc_update k d other :
  assoc k (update d other) =
  match assoc k other with
  | Some v => Some v
  | None => assoc k d
  end.
Proof.
  unfold update. rewrite assoc_update_keys.
  case_bool_decide as Hin.
  - apply assoc_in_keys in Hin as [v Hv]. unfold item. by rewrite Hv.
  - destruct (assoc k other) eqn:E; [|done].
    exfalso. apply Hin, assoc_in_keys. eauto.
Qed.

Lemma item_update k d other :
  item k (update d other) = if has_key k other then item k other else item k d.
Proof.
  unfold item, has_key. rewrite assoc_update. by destruct (assoc k other).
Qed.

Lemma eq_str_true v s : eq_str v s = true <-> v = VStr s.
Proof.
  destruct v; simpl; try (split; [discriminate | congruence]).
  destruct (String.eqb_spec s0 s); split; congruence.
Qed.

Lemma py_eq_str s v : py_eq (VStr s) v = true <-> v = VStr s.
Proof.
  destruct v; simpl; try (split; [discriminate | congruence]).
  destruct (String.eqb_spec s s0); split; congruence.
Qed.

End DictFacts.

(** ** Art resolution *)

(** C3 (art poster fallback and thumb mirroring), evaluated on the code:
    the result of [get_art] depends on the order of the images. With the
    4:3 non-title image listed before the 4:3 title image the poster is
    the non-title image, although a higher-priority source is present;
    in the other order it is the title image. With the 4:3 title image
    listed before the 16:9 title image the poster is the 16:9 image but
    the thumb keeps the 4:3 image, although no [scene169] image was
    supplied. *)
Theorem get_art_depends_on_order :
  (let* a := get_art (VList [image "nonTitleArt34" "n"; image "titleArt34" "t"]) in
   getitem a "poster") = Ok (VStr "n") /\
  (let* a := get_art (VList [image "titleArt34" "t"; image "nonTitleArt34" "n"]) in
   getitem a "poster") = Ok (VStr "t") /\
  get_art (VList [image "titleArt34" "t"; image "titleArt169" "p"]) =
    Ok (VDict [("icon", VNone); ("poster", VStr "p"); ("fanart", VNone);
               ("thumb", VStr "t")]) /\
  get_art (VList [image "titleArt169" "p"; image "titleArt34" "t"]) =
    Ok (VDict [("icon", VNone); ("poster", VStr "p"); ("fanart", VNone);
               ("thumb", VStr "p")]).
Proof. repeat split; reflexivity. Qed.

(** The example of the spec: only a 4:3 non-title image. *)
Example get_art_nontitle_only :
  get_art (VList [image "nonTitleArt34" "http://img/n?language=en"]) =
  Ok (VDict [("icon", VNone); ("poster", VStr "http://img/n/400?language=en");
             ("fanart", VNone); ("thumb", VStr "http://img/n/400?language=en")]).
Proof. reflexivity. Qed.

(** ** Programme guide lookup *)

Section GuideFacts.

Import EPG.

Lemma on_air_covers t p : on_air t p = true <-> covers t p.
Proof.
  unfold on_air, covers. rewrite andb_true_iff, !Qle_bool_iff. tauto.
Qed.

Lemma on_air_not_covers t p : on_air t p = false <-> ~ covers t p.
Proof.
  rewrite <- on_air_covers. destruct (on_air t p); split; congruence.
Qed.

(** The loop of [find_program_epg] returns the first covering entry. *)
Lemma first_on_air_spec t l : first_covering t l (first_on_air t l).
Proof.
  induction l as [|p l IH]; simpl.
  - constructor.
  - destruct (on_air t p) eqn:E.
    + exists [], l. repeat split; auto. all: by apply on_air_covers.
    + apply on_air_not_covers in E.
      destruct (first_on_air t l) as [q|]; simpl in *.
      * destruct IH as (l1 & l2 & -> & Hq & Hl1).
        exists (p :: l1), l2. repeat split; auto. all: apply Hq.
      * by constructor.
Qed.

Lemma effective_timestamp_nonzero now t :
  ~ (t == 0)%Q -> effective_timestamp now (Some t) = t.
Proof.
  intros Hne. unfold effective_timestamp.
  destruct (Qeq_bool t 0) eqn:E; [|done].
  by apply Qeq_bool_iff in E.
Qed.

Context `{Formatting}.

(** An entry built by [get_epg] ends [durationSeconds] after it starts. *)
Lemma get_epg_item_interval i p :
  get_epg_item i = Ok p ->
  start p = startTimeUTC i /\ end_ p = (start p + durationSeconds i)%Z.
Proof.
  unfold get_epg_item. intros Hp. bind_inv Hp. by injection Hp as <-.
Qed.

Lemma get_epg_items_interval l ps :
  get_epg_items l = Ok ps ->
  Forall (fun p => exists i, i ∈ l /\ get_epg_item i = Ok p) ps.
Proof.
  revert ps. induction l as [|i l IH]; simpl; intros ps Hps.
  - injection Hps as <-. constructor.
  - destruct (get_epg_item i) as [p|] eqn:Ei; simpl in Hps; [|discriminate].
    destruct (get_epg_items l) as [r|]; simpl in Hps; [|discriminate].
    injection Hps as <-. constructor.
    + exists i. split; [apply list_elem_of_here | done].
    + eapply Forall_impl; [by apply IH|].
      intros q (j & Hj & Hq). exists j. split; [by apply list_elem_of_further | done].
Qed.

(** Every list of an index built by [get_epg] comes from the schedule
    items of the guide; every channel of the guide has a list. *)
Lemma get_epg_fold guide (acc idx : gmap string (list program)) :
  foldM (fun res c =>
           let* l := get_epg_items (scheduleItems c) in
           Ok (<[serviceKey c := l]> res)) guide acc = Ok idx ->
  (forall c, c ∈ guide -> is_Some (idx !! serviceKey c)) /\
  (forall k, is_Some (acc !! k) -> is_Some (idx !! k)) /\
  (forall k l, idx !! k = Some l ->
     acc !! k = Some l \/ exists c, c ∈ guide /\ get_epg_items (scheduleItems c) = Ok l).
Proof.
  revert acc. induction guide as [|c guide IH]; simpl; intros acc Hf.
  - injection Hf as <-. split; [|split]; auto. by intros c ?%elem_of_nil.
  - destruct (get_epg_items (scheduleItems c)) as [l|] eqn:El; simpl in Hf; [|discriminate].
    apply IH in Hf as (Hin & Hacc & Hfrom). split; [|split].
    + intros c' [->|Hc']%elem_of_cons; [|auto].
      apply Hacc. rewrite lookup_insert_eq. eauto.
    + intros k Hk. apply Hacc.
      destruct (decide (k = serviceKey c)) as [->|];
        [rewrite lookup_insert_eq | rewrite lookup_insert_ne by congruence]; eauto.
    + intros k l' Hk. apply Hfrom in Hk as [Hk|(c' & Hc' & Hl')].
      * destruct (decide (k = serviceKey c)) as [->|].
        -- rewrite lookup_insert_eq in Hk. injection Hk as <-.
           right. exists c. split; [apply list_elem_of_here | done].
        -- rewrite lookup_insert_ne in Hk by congruence. by left.
      * right. exists c'. split; [by apply list_elem_of_further | done].
Qed.



(** C2 (EPG inclusive lookup), amended: for every index, every channel
    key present in it and every timestamp [t] other than 0,
    [find_program_epg] returns the first entry, in stored order, of that
    channel whose interval [[start, end]] contains [t], both bounds
    included, and returns [None], without raising, when no entry of the
    channel contains [t]. A timestamp of 0 is treated like a missing one
    and replaced by the clock. In an index built by [get_epg] every entry
    has [end = start + durationSeconds]. *)
Theorem find_program_epg_first_covering now (epg : gmap string (list program)) k l t :
  epg !! k = Some l ->
  ~ (t == 0)%Q ->
  (exists r, find_program_epg now epg k (Some t) = Ok r /\ first_covering t l r) /\
  (forall guide idx k' l',
     get_epg guide = Ok idx -> idx !! k' = Some l' ->
     Forall (fun p => exists i, get_epg_item i = Ok p /\
                        end_ p = (start p + durationSeconds i)%Z) l').
Proof.
  intros Hk Ht. split.
  - exists (first_on_air t l). split; [|apply first_on_air_spec].
    unfold find_program_epg. by rewrite Hk, effective_timestamp_nonzero.
  - intros guide idx k' l' Hg Hl'.
    apply get_epg_fold in Hg as (_ & _ & Hfrom).
    apply Hfrom in Hl' as [Hl'|(c & _ & Hl')]; [by rewrite lookup_empty in Hl'|].
    apply get_epg_items_interval in Hl'.
    eapply Forall_impl; [exact Hl'|].
    intros p (i & _ & Hp). exists i. split; [done|].
    by apply get_epg_item_interval.
Qed.


End GuideFacts.

(** C2 as stated fails at timestamp 0: an entry running from -10 to 10
    contains 0, but the lookup, made when the clock reads 100, searches
    for 100 and finds nothing. *)
Lemma find_program_epg_zero_timestamp :
  ~ (forall now (epg : gmap string (list EPG.program)) k l t,
       epg !! k = Some l ->
       exists r, EPG.find_program_epg now epg k (Some t) = Ok r /\
                 first_covering t l r).
Proof.
  intros Hall.
  destruct (Hall 100%Q {["4270" := [Sample.old_show]]} "4270" [Sample.old_show] 0%Q)
    as (r & Hr & Hfirst); [reflexivity|].
  vm_compute in Hr. injection Hr as <-.
  simpl in Hfirst. apply Forall_cons in Hfirst as [Hno _].
  apply Hno. split; discriminate.
Qed.

Lemma find_program_epg_first_covering_witness :
  (exists r, EPG.find_program_epg 0 {["4270" := [Sample.news]]} "4270" (Some 1060%Q) = Ok r /\
             first_covering 1060 [Sample.news] r) /\
  (forall guide idx k' l',
     EPG.get_epg (H:=Sample.formatting) guide = Ok idx -> idx !! k' = Some l' ->
     Forall (fun p => exists i, EPG.get_epg_item (H:=Sample.formatting) i = Ok p /\
                        EPG.end_ p = (EPG.start p + EPG.durationSeconds i)%Z) l').
Proof.
  apply (find_program_epg_first_covering (H:=Sample.formatting)).
  - reflexivity.
  - discriminate.
Defined.


(** The boundary example of the spec. *)
Example find_program_epg_bounds :
  let epg : gmap string (list EPG.program) := {["4270" := [Sample.news]]} in
  EPG.find_program_epg 0 epg "4270" (Some 1000%Q) = Ok (Some Sample.news) /\
  EPG.find_program_epg 0 epg "4270" (Some 1060%Q) = Ok (Some Sample.news) /\
  EPG.find_program_epg 0 epg "4270" (Some 999%Q) = Ok None /\
  EPG.find_program_epg 0 epg "4270" (Some 1061%Q) = Ok None.
Proof. repeat split; reflexivity. Qed.

(** ** Catalogue normaliser *)

(** Take apart a successful run: binds, conditionals, returns. *)
Ltac run_inv :=
  repeat match goal with
         | H : bind _ _ = Ok _ |- _ => bind_inv H
         | H : Ok _ = Ok _ |- _ => injection H as H; try subst
         | H : Raise _ = Ok _ |- _ => discriminate H
         | H : (if ?c then _ else _) = Ok _ |- _ => destruct c eqn:?
         end.

Ltac frame_keys :=
  repeat first [ rewrite assoc_set_ne by done
               | rewrite assoc_set_in_ne by done ].

Section NormaliserFacts.

Context `{Formatting}.
Variable my : list pyval.

Lemma item2_set_in_eq k1 k2 v t d :
  assoc k1 t = Some (VDict d) -> item2 k1 k2 (set_in k1 k2 v t) = Some v.
Proof.
  intros Hd. unfold item2, set_in. rewrite Hd, assoc_set_eq. apply assoc_set_eq.
Qed.

Lemma item2_set_in_ne k1 k2 k2' v t :
  k2 <> k2' -> item2 k1 k2 (set_in k1 k2' v t) = item2 k1 k2 t.
Proof.
  intros Hne. unfold item2, set_in.
  destruct (assoc k1 t) as [[]|] eqn:E; rewrite ?E; try done.
  rewrite assoc_set_eq. by apply assoc_set_ne.
Qed.

Lemma item2_set_ne k1 k2 k v t :
  k1 <> k -> item2 k1 k2 (assoc_set k v t) = item2 k1 k2 t.
Proof. intros Hne. unfold item2. by rewrite assoc_set_ne. Qed.

Lemma item2_set_in_other k1 k2 k1' k2' v t :
  k1 <> k1' -> item2 k1 k2 (set_in k1' k2' v t) = item2 k1 k2 t.
Proof. intros Hne. unfold item2. by rewrite assoc_set_in_ne. Qed.

(** [is_subscribed] on a list of segments: does any of my segments occur
    in it? *)
Lemma is_subscribed_list l :
  is_subscribed my (VList l) = Ok (existsb (fun s => existsb (py_eq s) l) my).
Proof.
  induction my as [|s rest IH]; simpl; [done|].
  destruct (existsb (py_eq s) l); [done|]. apply IH.
Qed.

Lemma is_subscribed_share l b :
  is_subscribed my (VList l) = Ok b -> (b = true <-> share_segment my l).
Proof.
  rewrite is_subscribed_list. intros Hb. injection Hb as <-.
  unfold share_segment. rewrite existsb_exists. split.
  - intros (s & Hs & Hx). apply existsb_exists in Hx as (x & Hx & Heq).
    exists s, x. by rewrite !list_elem_of_In.
  - intros (s & x & Hs & Hx & Heq). exists s. rewrite <- list_elem_of_In.
    split; [done|]. apply existsb_exists. exists x. by rewrite <- list_elem_of_In.
Qed.

(** What [add_segments] does to the item. *)
Lemma add_segments_inv e t t' :
  add_segments my e t = Ok t' ->
  (contains "contentSegments" e = Ok false /\ t' = t) \/
  (contains "contentSegments" e = Ok true /\
   exists segs sub,
     getitem e "contentSegments" = Ok segs /\
     is_subscribed my segs = Ok sub /\
     t' = assoc_set "subscribed" (VBool sub) (assoc_set "segments" segs t)).
Proof.
  unfold add_segments. intros Ht. run_inv.
  - right. split; [done|]. rewrite item_set_eq in *. eauto.
  - by left.
Qed.

Lemma add_formats_frame att t t' k :
  add_formats att t = Ok t' ->
  k <> "content_id" -> k <> "bookmark_metadata" -> assoc k t' = assoc k t.
Proof.
  unfold add_formats. intros Ht ? ?. run_inv; by frame_keys.
Qed.

(** The type-dependent part of [parse_catalog] leaves the entitlement
    keys alone. *)
Lemma parse_catalog_type_frame e t t' k :
  parse_catalog_type e t = Ok (Some t') ->
  k = "subscribed" \/ k = "segments" -> assoc k t' = assoc k t.
Proof.
  unfold parse_catalog_type. intros Ht [-> | ->]; run_inv; by frame_keys.
Qed.

Lemma getitem_dict d k v : getitem (VDict d) k = Ok v <-> assoc k d = Some v.
Proof.
  simpl. destruct (assoc k d); split; intros Hv; try discriminate; congruence.
Qed.

Lemma contains_dict d k b : contains k (VDict d) = Ok b <-> has_key k d = b.
Proof. simpl. split; congruence. Qed.

Lemma has_key_false k d : has_key k d = false <-> assoc k d = None.
Proof. unfold has_key. destruct (assoc k d); split; congruence. Qed.

Lemma getitem_is_dict v k x : getitem v k = Ok x -> exists d, v = VDict d.
Proof. destruct v; simpl; try discriminate. eauto. Qed.

(** What [add_formats] does to an item without a content id. *)
Lemma add_formats_spec att t t' d :
  add_formats att t = Ok t' ->
  assoc "content_id" t = None ->
  assoc "bookmark_metadata" t = Some (VDict d) ->
  (contains "formats" att = Ok false -> assoc "content_id" t' = None) /\
  (forall f, getitem att "formats" = Ok (VDict f) -> format_preference f t').
Proof.
  intros Ht Hc Hb. split.
  - intros Hno. unfold add_formats in Ht. rewrite Hno in Ht.
    injection Ht as <-. done.
  - intros f Hf. unfold format_preference.
    destruct (getitem_is_dict _ _ _ Hf) as [a ->].
    unfold add_formats in Ht.
    assert (contains "formats" (VDict a) = Ok true) as Hcont.
    { apply getitem_dict in Hf. apply contains_dict. unfold has_key. by rewrite Hf. }
    rewrite Hcont, Hf in Ht. cbn [bind contains] in Ht. unfold has_key in Ht.
    destruct (assoc "HD" f) as [hd|] eqn:Ehd.
    + assert (getitem (VDict f) "HD" = Ok hd) as Eg by by apply getitem_dict.
      rewrite Eg in Ht. run_inv.
      * split.
        -- eexists. split; [eassumption|]. frame_keys. by rewrite assoc_set_eq.
        -- intros c Hc'.
           match goal with
           | |- context [set_in _ _ ?y _] => assert (c = y) as -> by congruence
           end.
           apply (item2_set_in_eq _ _ _ _ d). by rewrite assoc_set_ne.
      * split.
        -- eexists. split; [eassumption|]. by rewrite assoc_set_eq.
        -- intros c Hc'. destruct (getitem_is_dict _ _ _ Hc') as [h ->].
           match goal with
           | E : contains "startOfCredits" _ = Ok false |- _ =>
               apply contains_dict, has_key_false in E
           end.
           apply getitem_dict in Hc'. congruence.
    + destruct (assoc "SD" f) as [sd|] eqn:Esd.
      * assert (getitem (VDict f) "SD" = Ok sd) as Eg by by apply getitem_dict.
        rewrite Eg in Ht. run_inv.
        eexists. split; [eassumption|]. by rewrite assoc_set_eq.
      * by injection Ht as <-.
Qed.

Lemma format_preference_frame f t t' :
  assoc "content_id" t' = assoc "content_id" t ->
  item2 "bookmark_metadata" "startOfCredits" t' =
    item2 "bookmark_metadata" "startOfCredits" t ->
  format_preference f t -> format_preference f t'.
Proof. unfold format_preference. intros -> ->. done. Qed.

Lemma add_segments_frame e t t' :
  add_segments my e t = Ok t' ->
  assoc "content_id" t' = assoc "content_id" t /\
  item2 "bookmark_metadata" "startOfCredits" t' =
    item2 "bookmark_metadata" "startOfCredits" t.
Proof.
  intros [[_ ->]|[_ (segs & sub & _ & _ & ->)]]%add_segments_inv; [done|].
  split; [by frame_keys | by rewrite !item2_set_ne].
Qed.

Ltac frame_item2 :=
  repeat first [ rewrite item2_set_ne by done
               | rewrite item2_set_in_ne by done
               | rewrite item2_set_in_other by done ].

(** C8 (playable format preference): a playable item parsed by
    [parse_item] takes its content id from the [HD] entry of the formats
    map when there is one, and then carries the HD start-of-credits
    marker, when present, in its bookmark metadata; otherwise it takes
    the content id from the [SD] entry when there is one; with neither
    entry, or without a formats map, it has no content id. *)
Theorem parse_item_format_preference data t att ty :
  parse_item my data = Ok t ->
  getitem data "attributes" = Ok att ->
  getitem data "type" = Ok ty ->
  in_strs ty playable_types = true ->
  (contains "formats" att = Ok false -> assoc "content_id" t = None) /\
  (forall f, getitem att "formats" = Ok (VDict f) -> format_preference f t).
Proof.
  unfold parse_item. intros Ht Hatt Hty Hplay.
  rewrite Hatt, Hty in Ht. cbn [bind] in Ht. rewrite Hplay in Ht.
  bind_inv Ht.
  apply add_segments_frame in Ht as [Hc Hs].
  (* the type-specific fields *)
  match goal with
  | E : (if eq_str ty _ then _ else _) = Ok ?t1 |- _ =>
      assert (assoc "content_id" t1 = None /\
              assoc "bookmark_metadata" t1 = Some (VDict [])) as [Hc1 Hb1]
        by (run_inv; split; frame_keys; done);
      clear E
  end.
  (* the playable fields *)
  match goal with
  | E : bind (getitem att "synopsisLong") _ = Ok _ |- _ => bind_inv E
  end.
  match goal with
  | E : add_formats att ?t1 = Ok _ |- _ =>
      apply (add_formats_spec _ _ _ []) in E as [Hno Hpref];
        [| by frame_keys | by frame_keys]
  end.
  (* uuid, series id *)
  repeat match goal with
         | E : (if ?b then _ else _) = Ok _ |- _ => destruct b
         | E : bind _ _ = Ok _ |- _ => bind_inv E
         | E : Ok _ = Ok _ |- _ => injection E as E; subst
         end.
  all: split;
    [ intros Hf; rewrite Hc; frame_keys; auto
    | intros f Hf; eapply format_preference_frame; [ | | by apply Hpref];
      [ rewrite Hc; by frame_keys | rewrite Hs; by frame_item2 ] ].
Qed.

Lemma getitem_contains v k x : getitem v k = Ok x -> contains k v = Ok true.
Proof.
  intros Hx. destruct (getitem_is_dict _ _ _ Hx) as [d ->].
  apply getitem_dict in Hx. apply contains_dict. unfold has_key. by rewrite Hx.
Qed.

Lemma entitlement_frame src t t' :
  assoc "subscribed" t' = assoc "subscribed" t ->
  entitlement my src t -> entitlement my src t'.
Proof. unfold entitlement, has_key. by intros ->. Qed.

Lemma add_segments_entitlement e t t' :
  add_segments my e t = Ok t' ->
  assoc "subscribed" t = None ->
  entitlement my e t'.
Proof.
  intros [[Hno ->]|[Hyes (segs & sub & Hsegs & Hsub & ->)]]%add_segments_inv Hnone.
  - split.
    + unfold has_key. rewrite Hnone, Hno. split; discriminate.
    + intros l Hl%getitem_contains. congruence.
  - split.
    + by rewrite has_key_set_eq.
    + intros l Hl. rewrite Hl in Hsegs. injection Hsegs as <-.
      exists sub. split; [apply assoc_set_eq | by apply is_subscribed_share].
Qed.

Lemma parse_catalog_fold (all : list pyval) l acc res :
  (forall e, e ∈ l -> e ∈ all) ->
  foldM (parse_catalog_step my) l acc = Ok res ->
  Forall (fun v => exists e t, e ∈ all /\ v = VDict t /\
                     parse_catalog_body my e = Ok (Some t)) acc ->
  Forall (fun v => exists e t, e ∈ all /\ v = VDict t /\
                     parse_catalog_body my e = Ok (Some t)) res.
Proof.
  revert acc. induction l as [|e l IH]; simpl; intros acc Hsub Hf Hacc.
  - by injection Hf as <-.
  - apply bind_Ok in Hf as (acc' & Hstep & Hf).
    apply (IH acc'); [|done|].
    + intros e' He'. apply Hsub. by apply list_elem_of_further.
    + unfold parse_catalog_step in Hstep. bind_inv Hstep.
      destruct x as [t|]; injection Hstep as <-; [|done].
      apply Forall_app. split; [done|]. constructor; [|done].
      exists e, t. split; [|done]. apply Hsub, list_elem_of_here.
Qed.

(** C4 (entitlement flag): an item produced by [parse_item] or by
    [parse_catalog] has a [subscribed] field exactly when its source
    payload has [contentSegments]; for a list of segments the field is
    true exactly when one of them is among the session's segments. Every
    item of the list returned by [parse_catalog] is produced by the loop
    body from an entry of the input. *)
Theorem subscribed_flag :
  (forall data t,
     parse_item my data = Ok t ->
     exists att, getitem data "attributes" = Ok att /\ entitlement my att t) /\
  (forall e t,
     parse_catalog_body my e = Ok (Some t) -> entitlement my e t) /\
  (forall data res,
     parse_catalog my data = Ok res ->
     exists l, iter data = Ok l /\
       Forall (fun v => exists e t, e ∈ l /\ v = VDict t /\
                          parse_catalog_body my e = Ok (Some t)) res).
Proof.
  split; [|split].
  - intros data t Ht. unfold parse_item in Ht. bind_inv Ht.
    eexists. split; [eassumption|].
    eapply add_segments_entitlement; [exact Ht|].
    repeat match goal with
           | E : (if eq_str _ _ then _ else _) = Ok _ |- _ => run_inv
           | E : (if in_strs _ _ then _ else _) = Ok _ |- _ =>
               destruct (in_strs _ _) in E; bind_inv E
           | E : add_formats _ _ = Ok _ |- _ =>
               apply add_formats_frame with (k := "subscribed") in E; [|done..]
           | E : (if ?b then _ else _) = Ok _ |- _ => destruct b
           | E : bind _ _ = Ok _ |- _ => bind_inv E
           | E : Ok _ = Ok _ |- _ => injection E as E; subst
           end.
    all: frame_keys; rewrite ?E; by frame_keys.
  - intros e t Ht. unfold parse_catalog_body in Ht. bind_inv Ht.
    eapply entitlement_frame.
    + eapply parse_catalog_type_frame; [exact Ht | by left].
    + eapply add_segments_entitlement; [eassumption|].
      run_inv; by frame_keys.
  - intros data res Hres. unfold parse_catalog in Hres.
    apply bind_Ok in Hres as (l & Hl & Hres). exists l. split; [done|].
    by eapply parse_catalog_fold.
Qed.

End NormaliserFacts.

(** ** Running code with effects *)

Section Effects.

Lemma mbind_M_Ok {A B} (m : M A) (f : A -> M B) st a st' :
  m st = (Ok a, st') -> mbind_M m f st = f a st'.
Proof. unfold mbind_M. by intros ->. Qed.

Lemma mbind_M_Raise {A B} (m : M A) (f : A -> M B) st e st' :
  m st = (Raise e, st') -> mbind_M m f st = (Raise e, st').
Proof. unfold mbind_M. by intros ->. Qed.

Lemma mbind_M_inv {A B} (m : M A) (f : A -> M B) st b st2 :
  mbind_M m f st = (Ok b, st2) ->
  exists a st1, m st = (Ok a, st1) /\ f a st1 = (Ok b, st2).
Proof.
  unfold mbind_M. destruct (m st) as [[a|e] st1]; [eauto | discriminate].
Qed.

Context (I : relation (session * world)) `{!PreOrder I}.

Lemma preserves_ret {A} (a : A) : preserves I (ret a).
Proof. intros st r st' [= _ <-]. reflexivity. Qed.

Lemma preserves_lift {A} (x : result A) : preserves I (lift x).
Proof. intros st r st' [= _ <-]. reflexivity. Qed.

Lemma preserves_get_self : preserves I get_self.
Proof. intros st r st' [= _ <-]. reflexivity. Qed.

Lemma preserves_bind {A B} (m : M A) (f : A -> M B) :
  preserves I m -> (forall a, preserves I (f a)) -> preserves I (mbind_M m f).
Proof.
  intros Hm Hf st r st'. unfold mbind_M.
  destruct (m st) as [[a|e] st1] eqn:E.
  - intros Hfa. transitivity st1; [by eapply Hm | by eapply Hf].
  - intros [= _ <-]. by eapply Hm.
Qed.

Lemma preserves_for_each {A} (f : A -> M unit) l :
  (forall x, preserves I (f x)) -> preserves I (for_each f l).
Proof.
  intros Hf. induction l as [|x l IH]; simpl.
  - apply preserves_ret.
  - apply preserves_bind; auto.
Qed.

Lemma preserves_try_except {A} (m h : M A) :
  preserves I m -> preserves I h -> preserves I (try_except m h).
Proof.
  intros Hm Hh st r st'. unfold try_except.
  destruct (m st) as [[a|e] st1] eqn:E.
  - intros [= _ <-]. by eapply Hm.
  - intros Hr. transitivity st1; [by eapply Hm | by eapply Hh].
Qed.

Lemma preserves_set_self (f : session -> session) :
  (forall s w, I (s, w) (f s, w)) -> preserves I (set_self f).
Proof. intros Hf [s w] r st' [= _ <-]. apply Hf. Qed.

Lemma preserves_set_world (f : world -> world) :
  (forall s w, I (s, w) (s, f w)) -> preserves I (set_world f).
Proof. intros Hf [s w] r st' [= _ <-]. apply Hf. Qed.

Lemma preserves_load_file key : preserves I (Cache.load_file key).
Proof. intros st r st' [= _ <-]. reflexivity. Qed.

Lemma preserves_load key ttl : preserves I (Cache.load key ttl).
Proof. intros st r st' [= _ <-]. reflexivity. Qed.

End Effects.

(** Walk through a computation, leaving the steps that change the
    state. *)
Ltac preserves_step :=
  match goal with
  | |- preserves _ (mbind_M _ _) =>
      apply preserves_bind; try apply _; [|intros ?]
  | |- preserves _ (ret _) => apply preserves_ret; apply _
  | |- preserves _ (lift _) => apply preserves_lift; apply _
  | |- preserves _ get_self => apply preserves_get_self; apply _
  | |- preserves _ (Cache.load_file _) => apply preserves_load_file; apply _
  | |- preserves _ (Cache.load _ _) => apply preserves_load; apply _
  | |- preserves _ (for_each _ _) =>
      apply preserves_for_each; try apply _; intros ?
  | |- preserves _ (try_except _ _) => apply preserves_try_except; try apply _
  | |- preserves _ (if ?c then _ else _) => destruct c
  | |- preserves _ (match ?x with _ => _ end) => destruct x
  | |- preserves _ (let _ := _ in _) => cbv zeta
  end.

(** ** Requests *)

Section NetFacts.

Context `{Collaborators}.

#[global] Instance net_only_preorder : PreOrder net_only.
Proof.
  split.
  - intros st. by repeat split.
  - intros st1 st2 st3 (? & ? & ? & ? & ?) (? & ? & ? & ? & ?).
    repeat split; try congruence. by etransitivity.
Qed.

Lemma send_data_net_only r : preserves net_only (send_data r).
Proof.
  intros [s w] res st' [= _ <-]. repeat split; simpl. by apply prefix_app_r.
Qed.

Lemma send_post_net_only r : preserves net_only (send_post r).
Proof.
  intros [s w] res st' [= _ <-]. repeat split; simpl. by apply prefix_app_r.
Qed.

Ltac net_only_tac :=
  repeat first [ preserves_step
               | apply send_data_net_only
               | apply send_post_net_only ].

Lemma get_localisation_net_only : preserves net_only get_localisation.
Proof. unfold get_localisation. net_only_tac. Qed.

Lemma get_profiles_net_only : preserves net_only get_profiles.
Proof. unfold get_profiles. net_only_tac. Qed.

Lemma get_profile_info_net_only id : preserves net_only (get_profile_info id).
Proof. unfold get_profile_info. net_only_tac. Qed.

Lemma get_tokens_net_only : preserves net_only get_tokens.
Proof. unfold get_tokens. net_only_tac. Qed.

Lemma get_me_net_only : preserves net_only get_me.
Proof. unfold get_me. net_only_tac. Qed.

(** A successful [get_tokens] has sent one request, to the tokens
    endpoint, whose body names the session's profile and device. *)
Lemma get_tokens_inv s w d st' :
  get_tokens (s, w) = (Ok d, st') ->
  exists h prov terr prop,
    let req := Request "POST" (endpoints (host s) "tokens") h
                 (VStr (json_dumps
                    (tokens_post_data prov terr prop (profile_id s) (device_id s)))) in
    st' = (s, record req w) /\ net_data (sent w) req = Ok d.
Proof.
  unfold get_tokens. intros Hg.
  repeat match type of Hg with
         | mbind_M _ _ _ = (Ok _, _) =>
             apply mbind_M_inv in Hg as (? & ? & Hstep & Hg);
             first [ injection Hstep as <- <- | injection Hstep as ? <- ]
         end.
  simpl in *. cbv zeta in Hg. unfold send_data in Hg. simpl in Hg.
  injection Hg as Hd <-. eauto 10.
Qed.

End NetFacts.

(** ** The normaliser on sample payloads *)

Lemma parse_item_format_preference_witness :
  exists t att,
    parse_item Sample.my Sample.movie = Ok t /\
    getitem Sample.movie "attributes" = Ok att /\
    (contains "formats" att = Ok false -> assoc "content_id" t = None) /\
    (forall f, getitem att "formats" = Ok (VDict f) -> format_preference f t).
Proof.
  eexists. eexists. split; [reflexivity|]. split; [reflexivity|].
  apply (parse_item_format_preference Sample.my Sample.movie _ _
           (VStr "ASSET/PROGRAMME")); reflexivity.
Defined.

Example parse_item_prefers_hd :
  (let* t := parse_item Sample.my Sample.movie in
   Ok (assoc "content_id" t, item2 "bookmark_metadata" "startOfCredits" t,
       assoc "subscribed" t)) =
  Ok (Some (VStr "hd-1"), Some (VInt 5000), Some (VBool true)).
Proof. reflexivity. Qed.

Lemma subscribed_flag_witness :
  (exists t att,
     parse_item Sample.my Sample.movie = Ok t /\
     getitem Sample.movie "attributes" = Ok att /\
     entitlement Sample.my att t) /\
  (exists res l,
     parse_catalog (H:=Sample.formatting) Sample.my Sample.rail = Ok res /\
     iter Sample.rail = Ok l /\
     Forall (fun v => exists e t, e ∈ l /\ v = VDict t /\
               parse_catalog_body (H:=Sample.formatting) Sample.my e = Ok (Some t) /\
               entitlement Sample.my e t) res).
Proof.
  pose proof (subscribed_flag (H:=Sample.formatting) Sample.my) as (Hitem & Hbody & Hcat).
  split.
  - destruct (Hitem Sample.movie _ eq_refl) as (att & Hatt & Hent).
    eexists. exists att. repeat split; try done. all: apply Hent.
  - destruct (Hcat Sample.rail _ eq_refl) as (l & Hl & Hres).
    eexists. exists l. split; [reflexivity|]. split; [done|].
    eapply Forall_impl; [exact Hres|].
    intros v (e & t & He & -> & Ht). exists e, t. repeat split; try done.
    all: by apply Hbody.
Defined.

(** ** Cache files *)

Section CacheFacts.

Lemma append_inj_l (p a b : string) : p +:+ a = p +:+ b -> a = b.
Proof. induction p as [|c p IH]; simpl; [done|]. intros [= Heq]. auto. Qed.

Lemma has_slash_append (p rest : string) : has_slash (p +:+ "/" +:+ rest) = true.
Proof.
  induction p as [|c p IH]; simpl; [done|]. rewrite IH. apply orb_true_r.
Qed.

(** A file name outside the platform directory is none of its files. *)
Lemma top_level_path (name p rest : string) :
  has_slash name = false -> name <> p +:+ "/" +:+ rest.
Proof. intros Hn ->. by rewrite has_slash_append in Hn. Qed.

Lemma lookup_remove_all g l (m : gmap string file) path :
  remove_all g l m !! path =
  if bool_decide (path ∈ g <$> l) then None else m !! path.
Proof.
  unfold remove_all. revert m. induction l as [|f l IH]; intros m.
  - case_bool_decide as Hin; [by apply elem_of_nil in Hin | done].
  - cbn [foldl fmap list_fmap]. rewrite IH. destruct (decide (path = g f)) as [->|Hne].
    + rewrite (bool_decide_eq_true_2 (g f ∈ g f :: (g <$> l)))
        by apply list_elem_of_here.
      rewrite lookup_delete_eq. by case_bool_decide.
    + rewrite lookup_delete_ne by congruence.
      apply (f_equal (fun b : bool => if b then None else m !! path)).
      apply bool_decide_ext. rewrite elem_of_cons. tauto.
Qed.

(** A loop of [remove_file] deletes the listed files and nothing else. *)
Lemma for_each_remove_file g l s w :
  for_each (fun f => Cache.remove_file (g f)) l (s, w) =
  (Ok tt, (s, World (remove_all g l (files w)) (clock w) (sent w) (draws w))).
Proof.
  revert w. induction l as [|f l IH]; intros w.
  - by destruct w.
  - simpl. unfold mbind_M. simpl. by rewrite IH.
Qed.

End CacheFacts.

Ltac path_ne :=
  let Heq := fresh in intros Heq; apply append_inj_l in Heq; discriminate Heq.

Section SessionReset.

Context `{Collaborators}.

Lemma not_session_file dir path :
  (forall f, f ∈ session_files -> path <> dir +:+ "/" +:+ f) ->
  path ∉ (fun f => dir +:+ "/" +:+ f) <$> session_files.
Proof.
  intros Hne (f & -> & Hf)%list_elem_of_fmap. by eapply Hne.
Qed.

(** C5 (session reset), amended: [clear_session] deletes the seven
    session files of the platform directory, the device identity file
    among them, and leaves every other file as it was, in particular the
    cookie file and the saved searches; the session object, the clock
    and the request log are untouched. The next startup finds no device
    identity, draws a new one and stores it. *)
Theorem clear_session_effect s w :
  exists w',
    clear_session (s, w) = (Ok tt, (s, w')) /\
    clock w' = clock w /\ sent w' = sent w /\ draws w' = draws w /\
    (forall f, f ∈ session_files -> files w' !! (pldir s +:+ "/" +:+ f) = None) /\
    (forall path,
       (forall f, f ∈ session_files -> path <> pldir s +:+ "/" +:+ f) ->
       files w' !! path = files w !! path) /\
    files w' !! (pldir s +:+ "/cookie.conf") = files w !! (pldir s +:+ "/cookie.conf") /\
    files w' !! "searchs.json" = files w !! "searchs.json" /\
    (forall s2, pldir s2 = pldir s ->
       exists w2,
         load_device_id (s2, w') =
           (Ok tt, (with_device_id (VStr (random_chars 20 (draws w))) s2, w2)) /\
         files w2 !! (pldir s +:+ "/device_id.conf") =
           Some (File (random_chars 20 (draws w)) (clock w))).
Proof.
  exists (World (remove_all (fun f => pldir s +:+ "/" +:+ f) session_files (files w))
            (clock w) (sent w) (draws w)).
  split; [|split; [done|split; [done|split; [done|]]]].
  { unfold clear_session, mbind_M, get_self. cbv beta iota. cbn [fst snd].
    apply for_each_remove_file. }
  cbn [files clock draws].
  split; [|split; [|split; [|split]]].
  - intros f Hf. rewrite lookup_remove_all.
    rewrite bool_decide_eq_true_2; [done|].
    apply list_elem_of_fmap. eauto.
  - intros path Hpath. rewrite lookup_remove_all.
    rewrite bool_decide_eq_false_2; [done|]. by apply not_session_file.
  - rewrite lookup_remove_all. rewrite bool_decide_eq_false_2; [done|].
    apply not_session_file. intros f Hf. unfold session_files in Hf.
    repeat (apply elem_of_cons in Hf as [->|Hf]; [path_ne|]).
    by apply elem_of_nil in Hf.
  - rewrite lookup_remove_all. rewrite bool_decide_eq_false_2; [done|].
    apply not_session_file. intros f Hf. by apply top_level_path.
  - intros s2 Hdir.
    exists (World (<[pldir s +:+ "/device_id.conf" :=
                      File (random_chars 20 (draws w)) (clock w)]>
                   (remove_all (fun f => pldir s +:+ "/" +:+ f) session_files (files w)))
              (clock w) (sent w) (draws w + 20)).
    split; [|cbn [files]; apply lookup_insert_eq].
    unfold load_device_id, mbind_M, get_self, Cache.load_file, Cache.stored.
    cbv beta iota. cbn [fst snd files]. rewrite Hdir, lookup_remove_all.
    rewrite bool_decide_eq_true_2
      by (apply list_elem_of_fmap; exists "device_id.conf";
          split; [done | apply list_elem_of_here]).
    cbn [truthy]. reflexivity.
Qed.

End SessionReset.

(** C5 as stated fails: a startup reads its device identity, the session
    is reset, and the next startup reads a different identity. *)
Lemma clear_session_forgets_device_id :
  ~ (forall (C : Collaborators) s w s1 w1 s2 w2 s3 w3,
       load_device_id (s, w) = (Ok tt, (s1, w1)) ->
       clear_session (s1, w1) = (Ok tt, (s2, w2)) ->
       load_device_id (s2, w2) = (Ok tt, (s3, w3)) ->
       device_id s3 = device_id s1).
Proof.
  intros Hall.
  pose (C := Sample.collaborators Sample.token_reply Sample.login_failure).
  pose (st1 := snd (load_device_id (H:=C) (Sample.start, Sample.stored_world))).
  pose (st2 := snd (clear_session st1)).
  pose (st3 := snd (load_device_id (H:=C) st2)).
  assert (device_id (fst st3) = device_id (fst st1)) as Hid.
  { apply (Hall C Sample.start Sample.stored_world (fst st1) (snd st1)
             (fst st2) (snd st2) (fst st3) (snd st3)); vm_compute; reflexivity. }
  vm_compute in Hid. discriminate Hid.
Qed.

Lemma clear_session_effect_witness :
  exists w',
    clear_session (Sample.start, Sample.stored_world) = (Ok tt, (Sample.start, w')) /\
    files w' !! "skyshowtime/token.json" = None /\
    files w' !! "skyshowtime/device_id.conf" = None /\
    files w' !! "skyshowtime/cookie.conf" =
      files Sample.stored_world !! "skyshowtime/cookie.conf" /\
    files w' !! "searchs.json" = files Sample.stored_world !! "searchs.json".
Proof.
  destruct (clear_session_effect
              (H:=Sample.collaborators Sample.token_reply Sample.login_failure)
              Sample.start Sample.stored_world)
    as (w' & Hrun & _ & _ & _ & Hdel & _ & Hcookie & Hsearch & _).
  exists w'. split; [exact Hrun|]. split; [|split; [|split]].
  - apply (Hdel "token.json"). unfold session_files.
    do 4 apply list_elem_of_further. apply list_elem_of_here.
  - apply (Hdel "device_id.conf"). apply list_elem_of_here.
  - exact Hcookie.
  - exact Hsearch.
Defined.

(** ** Login *)

Section LoginFacts.

Context `{Collaborators}.

Lemma login_headers_ready s :
  has_key "x-skyott-device" (net_headers s) = true ->
  has_key "x-skyott-device"
    (assoc_set "user-agent" (VStr browser_user_agent)
       (assoc_set "Accept" (VStr "application/vnd.siren+json")
          (assoc_set "content-type" (VStr "application/x-www-form-urlencoded")
             (net_headers s)))) = true.
Proof. intros Hk. by rewrite !has_key_set_ne. Qed.

(** The start of [login], up to the reply. *)
Lemma login_unfold u p s w r :
  has_key "x-skyott-device" (net_headers s) = true ->
  net_post (sent w) (login_request s u p) = Ok r ->
  login u p (s, w) =
  try_except
    (let! data := lift (json_loads (resp_content r)) in
     let! props := lift (get_or data "properties" (VList [])) in
     let! ev := lift (get props "eventType") in
     if eq_str ev "success" then
       set_self (with_cookie (VStr (join_cookies (resp_cookies r)))) ;;
       let! s := get_self in
       Cache.save_file (pldir s +:+ "/cookie.conf") (join_cookies (resp_cookies r)) ;;
       ret (Some (true, resp_content r))
     else ret None)
    (ret (Some (false, resp_content r)))
    (s, record (login_request s u p) w).
Proof.
  intros Hk Hr. apply login_headers_ready in Hk.
  unfold login, mbind_M at 1, get_self. cbv beta iota zeta. cbn [fst snd].
  unfold mbind_M at 1, lift at 1. rewrite Hk. cbv beta iota.
  unfold mbind_M at 1, send_post. cbv beta iota. cbn [fst snd].
  fold (login_request s u p). rewrite Hr. reflexivity.
Qed.

(** The success path: the cookie is stored, with the write time as its
    only attribute, and [(True, body)] is returned. *)
Lemma login_success u p s w r data props :
  has_key "x-skyott-device" (net_headers s) = true ->
  net_post (sent w) (login_request s u p) = Ok r ->
  json_loads (resp_content r) = Ok data ->
  get_or data "properties" (VList []) = Ok props ->
  get props "eventType" = Ok (VStr "success") ->
  exists w',
    login u p (s, w) =
      (Ok (Some (true, resp_content r)),
       (with_cookie (VStr (join_cookies (resp_cookies r))) s, w')) /\
    files w' = <[pldir s +:+ "/cookie.conf" :=
                   File (join_cookies (resp_cookies r)) (clock w)]> (files w).
Proof.
  intros Hk Hr Hd Hp He. rewrite (login_unfold _ _ _ _ r) by done.
  unfold try_except, mbind_M, lift. rewrite Hd, Hp, He. cbn.
  eexists. split; reflexivity.
Qed.

(** The failure path of the [except] clause: [(False, body)]. *)
Lemma login_parse_failure u p s w r e :
  has_key "x-skyott-device" (net_headers s) = true ->
  net_post (sent w) (login_request s u p) = Ok r ->
  json_loads (resp_content r) = Raise e ->
  login u p (s, w) =
    (Ok (Some (false, resp_content r)), (s, record (login_request s u p) w)).
Proof.
  intros Hk Hr Hd. rewrite (login_unfold _ _ _ _ r) by done.
  unfold try_except, mbind_M, lift. by rewrite Hd.
Qed.

(** C6 (login result contract), on the code: when the reply parses, has
    a [properties] object and its event marker is not ["success"], no
    [return] statement is reached: [login] returns [None], not a
    [(False, body)] pair. *)
Theorem login_returns_nothing u p s w r data props ev :
  has_key "x-skyott-device" (net_headers s) = true ->
  net_post (sent w) (login_request s u p) = Ok r ->
  json_loads (resp_content r) = Ok data ->
  get_or data "properties" (VList []) = Ok props ->
  get props "eventType" = Ok ev ->
  eq_str ev "success" = false ->
  login u p (s, w) = (Ok None, (s, record (login_request s u p) w)).
Proof.
  intros Hk Hr Hd Hp He Hne. rewrite (login_unfold _ _ _ _ r) by done.
  unfold try_except, mbind_M, lift. by rewrite Hd, Hp, He, Hne.
Qed.

End LoginFacts.

Lemma login_returns_nothing_witness :
  fst (login (H:=Sample.collaborators Sample.token_reply Sample.login_failure)
         (VStr "ann@example.org") (VStr "secret")
         (Sample.logged_session, Sample.stored_world)) = Ok None.
Proof.
  rewrite (login_returns_nothing
             (H:=Sample.collaborators Sample.token_reply Sample.login_failure)
             _ _ _ _
             (Response 200 (Sample.dumps Sample.login_failure)
                [("hterr", "PL"); ("skyCEsidismesso01", "abc")])
             Sample.login_failure
             (VDict [("eventType", VStr "failure")])
             (VStr "failure")); reflexivity.
Defined.

(** ** Stepping through a computation *)

Section Stepping.

Context {A B : Type} (f : A -> M B) (st : session * world).

Lemma step_assoc {C} (m : M C) (g : C -> M A) :
  mbind_M (mbind_M m g) f st = mbind_M m (fun c => mbind_M (g c) f) st.
Proof. unfold mbind_M. by destruct (m st) as [[c|e] st1]. Qed.

Lemma step_ret a : mbind_M (ret a) f st = f a st.
Proof. done. Qed.

Lemma step_lift_Ok a : mbind_M (lift (Ok a)) f st = f a st.
Proof. done. Qed.

Lemma step_lift_Raise e : mbind_M (lift (Raise e)) f st = (Raise e, st).
Proof. done. Qed.

End Stepping.

Section SteppingState.

Context {B : Type} (st : session * world).

Lemma step_get_self (f : session -> M B) : mbind_M get_self f st = f (fst st) st.
Proof. done. Qed.

Lemma step_set_self g (f : unit -> M B) :
  mbind_M (set_self g) f st = f tt (g (fst st), snd st).
Proof. done. Qed.

Lemma step_load_file key (f : pyval -> M B) :
  mbind_M (Cache.load_file key) f st = f (Cache.stored key (snd st)) st.
Proof. done. Qed.

Lemma step_load key ttl (f : pyval -> M B) :
  mbind_M (Cache.load key ttl) f st = f (Cache.stored_fresh key ttl (snd st)) st.
Proof. done. Qed.

Lemma step_save_file key data (f : unit -> M B) :
  mbind_M (Cache.save_file key data) f st =
  f tt (fst st, World (<[key := File data (clock (snd st))]> (files (snd st)))
                  (clock (snd st)) (sent (snd st)) (draws (snd st))).
Proof. done. Qed.

Lemma step_remove_file key (f : unit -> M B) :
  mbind_M (Cache.remove_file key) f st =
  f tt (fst st, World (delete key (files (snd st)))
                  (clock (snd st)) (sent (snd st)) (draws (snd st))).
Proof. done. Qed.

End SteppingState.

Lemma run_ret {A} (a : A) st : ret a st = (Ok a, st).
Proof. done. Qed.

Lemma run_set_self g st : set_self g st = (Ok tt, (g (fst st), snd st)).
Proof. done. Qed.

Lemma run_lift {A} (r : result A) st : lift r st = (r, st).
Proof. done. Qed.

Lemma run_save_file key data st :
  Cache.save_file key data st =
  (Ok tt, (fst st, World (<[key := File data (clock (snd st))]> (files (snd st)))
                     (clock (snd st)) (sent (snd st)) (draws (snd st)))).
Proof. done. Qed.

(** Run the next step of a computation whose outcome is determined. *)
Ltac exec_step :=
  first [ rewrite step_assoc
        | rewrite step_ret
        | rewrite step_lift_Ok
        | rewrite step_lift_Raise
        | rewrite step_get_self
        | rewrite step_set_self
        | rewrite step_load_file
        | rewrite step_load
        | rewrite step_save_file
        | rewrite step_remove_file
        | rewrite run_ret
        | rewrite run_set_self
        | rewrite run_lift
        | rewrite run_save_file
        | progress unfold Cache.save_json
        | progress cbv beta iota zeta
        | progress cbn [fst snd] ].

Ltac exec := repeat exec_step.

(** ** Token acquisition *)

Section TokenFacts.

Context `{Collaborators}.


(** An entry younger than the TTL is served from the cache. *)
Lemma stored_fresh_within key ttl w c t0 :
  files w !! key = Some (File c t0) ->
  (clock w - t0 < ttl)%Q ->
  Cache.stored_fresh key ttl w = VStr c.
Proof.
  intros Hf Hlt. unfold Cache.stored_fresh, Cache.fresh. rewrite Hf. simpl.
  destruct (Qle_bool ttl (clock w - t0)) eqn:E.
  - apply Qle_bool_iff in E. by apply Qle_not_lt in E.
  - by rewrite orb_true_r.
Qed.

Lemma truthy_str c : c <> "" -> truthy (VStr c) = true.
Proof. intros Hc. simpl. by destruct (String.eqb_spec c ""). Qed.




End TokenFacts.


(** ** Frames that depend on the platform directory *)

Section ConditionalFrames.

Context (Pre : session -> Prop) (I : relation (session * world)) `{!PreOrder I}.
Hypothesis stable : forall st st', Pre (fst st) -> I st st' -> Pre (fst st').

Lemma preserves_if_weaken {A} (m : M A) : preserves I m -> preserves_if Pre I m.
Proof. intros Hm s w r st' _ Hrun. by eapply Hm. Qed.

Lemma preserves_if_bind {A B} (m : M A) (f : A -> M B) :
  preserves_if Pre I m -> (forall a, preserves_if Pre I (f a)) ->
  preserves_if Pre I (mbind_M m f).
Proof.
  intros Hm Hf s w r st' Hpre. unfold mbind_M.
  destruct (m (s, w)) as [[a|e] [s1 w1]] eqn:E.
  - intros Hfa. pose proof (Hm _ _ _ _ Hpre E) as H1.
    transitivity (s1, w1); [done|]. eapply Hf; [|done].
    apply (stable (s, w) (s1, w1) Hpre H1).
  - intros [= _ <-]. by eapply Hm.
Qed.

Lemma preserves_if_get_self {B} (f : session -> M B) :
  (forall s, Pre s -> preserves_if Pre I (f s)) ->
  preserves_if Pre I (mbind_M get_self f).
Proof. intros Hf s w r st' Hpre Hrun. by eapply (Hf s Hpre). Qed.

Lemma preserves_if_for_each {A} (f : A -> M unit) l :
  (forall x, preserves_if Pre I (f x)) -> preserves_if Pre I (for_each f l).
Proof.
  intros Hf. induction l as [|x l IH]; simpl.
  - apply preserves_if_weaken, preserves_ret. apply _.
  - apply preserves_if_bind; auto.
Qed.

End ConditionalFrames.

Section KeepsFacts.

Context `{Collaborators}.
Context {X : Type} (dir : string) (names : list string) (proj : session -> X).

#[global] Instance keeps_preorder : PreOrder (keeps dir names proj).
Proof.
  split.
  - intros st. by repeat split.
  - intros st1 st2 st3 (? & ? & ? & Hf1 & ?) (? & ? & ? & Hf2 & ?).
    repeat split; try congruence.
    + intros n Hn. rewrite Hf2, Hf1; done.
    + by etransitivity.
Qed.

Lemma keeps_stable st st' :
  pldir (fst st) = dir -> keeps dir names proj st st' -> pldir (fst st') = dir.
Proof. intros Hd (Hp & _). congruence. Qed.

Lemma net_only_keeps st st' : net_only st st' -> keeps dir names proj st st'.
Proof.
  intros (Hs & Hf & _ & _ & Hp). unfold keeps. rewrite Hs, Hf. by repeat split.
Qed.

Lemma preserves_net_only_keeps {A} (m : M A) :
  preserves net_only m -> preserves (keeps dir names proj) m.
Proof. intros Hm st r st' Hrun. eapply net_only_keeps, Hm, Hrun. Qed.

Lemma set_self_keeps g :
  (forall s, pldir (g s) = pldir s /\ host (g s) = host s /\ proj (g s) = proj s) ->
  preserves (keeps dir names proj) (set_self g).
Proof.
  intros Hg [s w] r st' [= _ <-]. destruct (Hg s) as (? & ? & ?).
  by repeat split.
Qed.

Lemma save_file_keeps key data :
  (forall n, n ∈ names -> key <> dir +:+ "/" +:+ n) ->
  preserves (keeps dir names proj) (Cache.save_file key data).
Proof.
  intros Hk [s w] r st' [= _ <-].
  split; [done|split; [done|split; [done|split; [|done]]]].
  intros n Hn. cbn [snd files]. rewrite lookup_insert_ne; [done|]. by apply Hk.
Qed.

Lemma create_device_id_keeps : preserves (keeps dir names proj) create_device_id.
Proof. intros [s w] r st' [= _ <-]. by repeat split. Qed.

Lemma remove_file_keeps key :
  (forall n, n ∈ names -> key <> dir +:+ "/" +:+ n) ->
  preserves (keeps dir names proj) (Cache.remove_file key).
Proof.
  intros Hk [s w] r st' [= _ <-].
  split; [done|split; [done|split; [done|split; [|done]]]].
  intros n Hn. cbn [snd files]. rewrite lookup_delete_ne; [done|]. by apply Hk.
Qed.

End KeepsFacts.

(** Walk through a computation that starts in directory [dir]. *)
Ltac keeps_side :=
  match goal with
  | |- forall n, n ∈ [] -> _ =>
      let n := fresh "n" in
      let Hn := fresh "Hn" in
      intros n Hn; by apply elem_of_nil in Hn
  | Hdir : pldir ?s = _ |- forall n, n ∈ _ -> pldir ?s +:+ _ <> _ =>
      let n := fresh "n" in
      let Hn := fresh "Hn" in
      intros n Hn; rewrite Hdir;
      repeat (apply elem_of_cons in Hn as [->|Hn]; [path_ne|]);
      by apply elem_of_nil in Hn
  end.

Ltac keeps_step :=
  match goal with
  | |- preserves_if _ _ (mbind_M get_self _) =>
      apply preserves_if_get_self; intros ? ?
  | |- preserves_if _ _ (mbind_M _ _) =>
      apply preserves_if_bind; [apply _ | apply keeps_stable | | intros ?]
  | |- preserves_if _ _ (for_each _ _) =>
      apply preserves_if_for_each; [apply _ | apply keeps_stable | intros ?]
  | |- preserves_if _ _ (if ?c then _ else _) => destruct c
  | |- preserves_if _ _ (match ?x with _ => _ end) => destruct x
  | |- preserves_if _ _ (let _ := _ in _) => cbv zeta
  | |- preserves_if _ _ (Cache.save_json _ _) => unfold Cache.save_json
  | |- preserves_if _ _ _ => apply preserves_if_weaken
  | |- preserves _ (ret _) => apply preserves_ret; apply _
  | |- preserves _ (lift _) => apply preserves_lift; apply _
  | |- preserves _ get_self => apply preserves_get_self; apply _
  | |- preserves _ (Cache.load_file _) => apply preserves_load_file; apply _
  | |- preserves _ (Cache.load _ _) => apply preserves_load; apply _
  | |- preserves _ (set_self _) => apply set_self_keeps; intros ?; by repeat split
  | |- preserves _ (Cache.save_file _ _) => apply save_file_keeps; keeps_side
  | |- preserves _ create_device_id => apply create_device_id_keeps
  | |- preserves _ get_localisation =>
      apply preserves_net_only_keeps, get_localisation_net_only
  | |- preserves _ get_profiles =>
      apply preserves_net_only_keeps, get_profiles_net_only
  | |- preserves _ (get_profile_info _) =>
      apply preserves_net_only_keeps, get_profile_info_net_only
  | |- preserves _ get_tokens =>
      apply preserves_net_only_keeps, get_tokens_net_only
  | |- preserves _ get_me =>
      apply preserves_net_only_keeps, get_me_net_only
  end.

Section BootstrapFrames.

Context `{Collaborators}.
Variable dir : string.

(** The steps of [__init__] before the profile is loaded leave the
    stored profile and the token cache alone. *)
Lemma init_prefix_keeps territory :
  preserves_if (fun s => pldir s = dir)
    (keeps dir ["profile.json"; "token.json"] (fun _ => tt))
    (init_start ;; load_cookie ;; load_device_id ;;
     let! t := cookie_territory territory in load_localisation t).
Proof.
  unfold init_start, load_cookie, load_device_id, cookie_territory,
    load_localisation, fetch_localisation, apply_localisation.
  repeat keeps_step.
Qed.

(** Loading the profile details keeps the profile, the device and the
    token cache. *)
Lemma load_profile_info_keeps :
  preserves_if (fun s => pldir s = dir)
    (keeps dir ["token.json"] (fun s => (profile_id s, device_id s)))
    load_profile_info.
Proof. unfold load_profile_info. repeat keeps_step. Qed.

(** The last steps of [__init__] keep the profile and the device. *)
Lemma init_suffix_keeps :
  preserves_if (fun s => pldir s = dir)
    (keeps dir [] (fun s => (profile_id s, device_id s)))
    (load_search ;; load_my_segments).
Proof. unfold load_search, load_my_segments. repeat keeps_step. Qed.

End BootstrapFrames.

(** ** Profile switch *)

Section ProfileFacts.

Context `{Collaborators}.

Lemma init_split territory st :
  init territory st =
  mbind_M (init_start ;; load_cookie ;; load_device_id ;;
           let! t := cookie_territory territory in load_localisation t)
          (fun _ => load_profile ;; load_profile_info ;; load_user_token ;;
                    (load_search ;; load_my_segments)) st.
Proof.
  unfold init, mbind_M.
  repeat match goal with
         | |- context [let (_, _) := ?x in _] =>
             destruct x as [[?|?] ?]; try reflexivity
         end.
Qed.

(** The loop of [change_profile] stops at the first profile with the
    requested id. *)
Lemma change_profile_loop_match id l1 p l2 pid s w :
  Forall (fun q => exists qid, getitem q "id" = Ok qid /\ py_eq qid id = false) l1 ->
  getitem p "id" = Ok pid ->
  py_eq pid id = true ->
  change_profile_loop id (l1 ++ p :: l2) (s, w) =
  (Ok tt,
   (s, World (remove_all (fun f => pldir s +:+ "/" +:+ f) profile_scoped_files
                (<[pldir s +:+ "/profile.json" := File (json_dumps p) (clock w)]>
                   (files w)))
             (clock w) (sent w) (draws w))).
Proof.
  intros Hl1 Hp Heq. induction Hl1 as [|q l1 (qid & Hq & Hne) _ IH]; simpl.
  - rewrite Hp. exec. rewrite Heq. exec. reflexivity.
  - rewrite Hq. exec. by rewrite Hne.
Qed.

Lemma load_profile_stored_inv s w c p pid s' w' :
  Cache.stored (pldir s +:+ "/profile.json") w = VStr c ->
  c <> "" ->
  json_loads c = Ok p ->
  getitem p "id" = Ok pid ->
  load_profile (s, w) = (Ok tt, (s', w')) ->
  w' = w /\ profile_id s' = pid /\ pldir s' = pldir s /\ host s' = host s /\
  device_id s' = device_id s.
Proof.
  intros Hc Hne Hp Hid. unfold load_profile. exec.
  rewrite Hc, (truthy_str _ Hne). cbn [loads]. rewrite Hp. exec. rewrite Hid. exec.
  destruct (getitem p "type") as [ty|e]; exec; [|discriminate].
  intros [= <- <-]. by repeat split.
Qed.

Lemma load_user_token_keeps dir :
  preserves_if (fun s => pldir s = dir)
    (keeps dir [] (fun s => (profile_id s, device_id s)))
    load_user_token.
Proof. unfold load_user_token. repeat keeps_step. Qed.

(** Without a usable cached token, a successful token step has sent a
    request to the tokens endpoint for the session's profile and device. *)
Lemma load_user_token_request s w s' w' :
  cache_miss (pldir s +:+ "/token.json") 60 w ->
  load_user_token (s, w) = (Ok tt, (s', w')) ->
  exists h prov terr prop,
    (sent w ++
     [Request "POST" (endpoints (host s) "tokens") h
        (VStr (json_dumps
           (tokens_post_data prov terr prop (profile_id s) (device_id s))))])%list
    `prefix_of` sent w'.
Proof.
  intros Hmiss. unfold cache_miss in Hmiss.
  unfold load_user_token. exec. rewrite Hmiss. exec. intros Hrun.
  apply mbind_M_inv in Hrun as (d & st1 & Hget & Hrest).
  apply get_tokens_inv in Hget as (h & prov & terr & prop & -> & _).
  exists h, prov, terr, prop.
  match type of Hrest with
  | ?m _ = _ =>
      assert (preserves_if (fun s0 => pldir s0 = pldir s)
                (keeps (pldir s) [] (fun _ => tt)) m) as Hk
        by (repeat keeps_step)
  end.
  apply Hk in Hrest as (_ & _ & _ & _ & Hpre); [|done]. exact Hpre.
Qed.

(** C9 (profile switch): when the freshly fetched profile list has a
    profile with the requested id, [change_profile] stores the first
    such profile as the selection and deletes the profile details, the
    token and the menu caches; every other file is left as it was. A
    later bootstrap on these files runs under the new profile and sends
    a token request that names it. *)
Theorem change_profile_effect id s w profiles s1 w1 l1 p l2 pid :
  get_profiles (s, w) = (Ok profiles, (s1, w1)) ->
  profiles = (l1 ++ p :: l2)%list ->
  Forall (fun q => exists qid, getitem q "id" = Ok qid /\ py_eq qid id = false) l1 ->
  getitem p "id" = Ok pid ->
  py_eq pid id = true ->
  exists w',
    change_profile id (s, w) = (Ok tt, (s, w')) /\
    files w' !! (pldir s +:+ "/profile.json") =
      Some (File (json_dumps p) (clock w)) /\
    (forall f, f ∈ profile_scoped_files ->
       files w' !! (pldir s +:+ "/" +:+ f) = None) /\
    (forall path,
       path <> pldir s +:+ "/profile.json" ->
       (forall f, f ∈ profile_scoped_files -> path <> pldir s +:+ "/" +:+ f) ->
       files w' !! path = files w !! path) /\
    (forall territory s2 w2 s3 w3,
       pldir s2 = pldir s ->
       files w2 = files w' ->
       json_dumps p <> "" ->
       json_loads (json_dumps p) = Ok p ->
       init territory (s2, w2) = (Ok tt, (s3, w3)) ->
       profile_id s3 = pid /\
       exists pre post h prov terr prop,
         sent w3 =
           (pre ++ Request "POST" (endpoints (host s2) "tokens") h
                     (VStr (json_dumps
                        (tokens_post_data prov terr prop pid (device_id s3))))
                :: post)%list /\
         sent w2 `prefix_of` pre).
Proof.
  intros Hget -> Hl1 Hp Heq.
  pose proof (get_profiles_net_only _ _ _ Hget) as (Hs & Hf & Hc & Hd & _).
  simpl in Hs, Hf, Hc, Hd. subst s1.
  set (g := fun f => pldir s +:+ "/" +:+ f).
  set (path := pldir s +:+ "/profile.json").
  exists (World (remove_all g profile_scoped_files
                   (<[path := File (json_dumps p) (clock w)]> (files w)))
            (clock w1) (sent w1) (draws w1)).
  assert (forall f, f ∈ profile_scoped_files -> path <> g f) as Hpath.
  { intros f Hf'. unfold profile_scoped_files in Hf'. unfold path, g.
    repeat (apply elem_of_cons in Hf' as [->|Hf']; [path_ne|]).
    by apply elem_of_nil in Hf'. }
  assert (forall q, q ∉ g <$> profile_scoped_files <->
                    forall f, f ∈ profile_scoped_files -> q <> g f) as Hnotin.
  { intros q. rewrite list_elem_of_fmap. split.
    - intros Hn f Hf' ->. apply Hn. eauto.
    - intros Hn (f & -> & Hf'). by eapply Hn. }
  split; [|split; [|split; [|split]]].
  - unfold change_profile. rewrite (mbind_M_Ok _ _ _ _ _ Hget).
    rewrite (change_profile_loop_match id l1 p l2 pid) by done.
    by rewrite Hf, Hc.
  - cbn [files]. rewrite lookup_remove_all.
    rewrite bool_decide_eq_false_2 by by apply Hnotin.
    apply lookup_insert_eq.
  - intros f Hf'. cbn [files]. rewrite lookup_remove_all.
    rewrite bool_decide_eq_true_2; [done|]. apply list_elem_of_fmap. eauto.
  - intros q Hq1 Hq2. cbn [files]. rewrite lookup_remove_all.
    rewrite bool_decide_eq_false_2 by by apply Hnotin.
    by rewrite lookup_insert_ne.
  - intros territory s2 w2 s3 w3 Hdir Hfiles Hne Hround Hinit.
    cbn [files] in Hfiles.
    rewrite init_split in Hinit.
    apply mbind_M_inv in Hinit as (u & [sa wa] & Hprefix & Hinit).
    apply (init_prefix_keeps (pldir s)) in Hprefix
      as (Hdir_a & Hhost_a & _ & Hfiles_a & Hsent_a); [|done].
    cbn [fst snd] in *.
    apply mbind_M_inv in Hinit as (u1 & [sb wb] & Hprofile & Hinit).
    apply mbind_M_inv in Hinit as (u2 & [sc wc] & Hinfo & Hinit).
    apply mbind_M_inv in Hinit as (u3 & [sd wd] & Htoken & Hsuffix).
    destruct u, u1, u2, u3.
    (* the stored profile is read back *)
    assert (files wa !! path = Some (File (json_dumps p) (clock w))) as Hpa.
    { etransitivity;
        [exact (Hfiles_a "profile.json" ltac:(apply list_elem_of_here))|].
      change (pldir s +:+ "/" +:+ "profile.json") with path.
      rewrite Hfiles, lookup_remove_all.
      rewrite bool_decide_eq_false_2 by by apply Hnotin.
      apply lookup_insert_eq. }
    assert (files wa !! g "token.json" = None) as Hta.
    { etransitivity;
        [exact (Hfiles_a "token.json"
                  ltac:(apply list_elem_of_further, list_elem_of_here))|].
      change (pldir s +:+ "/" +:+ "token.json") with (g "token.json").
      rewrite Hfiles, lookup_remove_all.
      rewrite bool_decide_eq_true_2; [done|].
      apply list_elem_of_fmap. exists "token.json". split; [done|].
      apply list_elem_of_further, list_elem_of_here. }
    apply (load_profile_stored_inv _ _ (json_dumps p) p pid) in Hprofile
      as (-> & Hpid_b & Hdir_b & Hhost_b & Hdev_b); try done;
      [|unfold Cache.stored; rewrite Hdir_a, Hdir; fold path; by rewrite Hpa].
    apply (load_profile_info_keeps (pldir s)) in Hinfo
      as (Hdir_c & Hhost_c & [= Hpid_c Hdev_c] & Hfiles_c & Hsent_c); [|congruence].
    cbn [fst snd] in *.
    pose proof Htoken as Htoken'.
    apply (load_user_token_keeps (pldir s)) in Htoken'
      as (Hdir_d & Hhost_d & [= Hpid_d Hdev_d] & _ & _); [|congruence].
    cbn [fst snd] in *.
    apply load_user_token_request in Htoken as (h & prov & terr & prop & Hreq).
    2:{ unfold cache_miss, Cache.stored_fresh.
        replace (pldir sc) with (pldir s) by congruence.
        change (pldir s +:+ "/token.json") with (g "token.json").
        replace (files wc !! g "token.json") with (files wa !! g "token.json")
          by (symmetry; exact (Hfiles_c "token.json" ltac:(apply list_elem_of_here))).
        by rewrite Hta. }
    apply (init_suffix_keeps (pldir s)) in Hsuffix
      as (_ & _ & [= Hpid_3 Hdev_3] & _ & Hsent_3); [|congruence].
    cbn [fst snd] in *.
    split; [congruence|].
    destruct Hreq as [k1 Hk1]. destruct Hsent_3 as [k2 Hk2].
    exists (sent wc), (k1 ++ k2)%list, h, prov, terr, prop. split.
    + assert (host sc = host s2) as Hh by congruence.
      assert (profile_id sc = pid) as Hi by congruence.
      assert (device_id sc = device_id s3) as Hv by congruence.
      rewrite Hh, Hi, Hv in Hk1. by rewrite Hk2, Hk1, <- !app_assoc.
    + by etransitivity.
Qed.

End ProfileFacts.

Lemma change_profile_effect_witness :
  let C := Sample.collaborators Sample.token_reply Sample.login_failure in
  exists w' s3 w3,
    change_profile (H:=C) (VStr "p-2") (Sample.logged_session, Sample.stored_world) =
      (Ok tt, (Sample.logged_session, w')) /\
    files w' !! "skyshowtime/profile.json" =
      Some (File (Sample.dumps Sample.profile_ben) 100) /\
    files w' !! "skyshowtime/token.json" = None /\
    init (H:=C) VNone (Sample.start, w') = (Ok tt, (s3, w3)) /\
    profile_id s3 = VStr "p-2".
Proof.
  intros C.
  pose (st1 := snd (get_profiles (H:=C) (Sample.logged_session, Sample.stored_world))).
  assert (get_profiles (H:=C) (Sample.logged_session, Sample.stored_world) =
          (Ok [Sample.profile_ann; Sample.profile_ben], (fst st1, snd st1))) as Hget
    by (vm_compute; reflexivity).
  assert (Forall (fun q => exists qid, getitem q "id" = Ok qid /\
                                       py_eq qid (VStr "p-2") = false)
            [Sample.profile_ann]) as Hl1.
  { constructor; [|constructor]. exists (VStr "p-1"). split; vm_compute; reflexivity. }
  assert (getitem Sample.profile_ben "id" = Ok (VStr "p-2")) as Hp
    by (vm_compute; reflexivity).
  assert (py_eq (VStr "p-2") (VStr "p-2") = true) as Heq by (vm_compute; reflexivity).
  destruct (change_profile_effect (H:=C) (VStr "p-2")
              Sample.logged_session Sample.stored_world
              [Sample.profile_ann; Sample.profile_ben] (fst st1) (snd st1)
              [Sample.profile_ann] Sample.profile_ben [] (VStr "p-2")
              Hget eq_refl Hl1 Hp Heq)
    as (w' & Hrun & Hprofile & Hgone & _ & Hnext).
  pose (w2 := snd (snd (change_profile (H:=C) (VStr "p-2")
                          (Sample.logged_session, Sample.stored_world)))).
  assert (w' = w2) as -> by (unfold w2; by rewrite Hrun).
  pose (st3 := snd (init (H:=C) VNone (Sample.start, w2))).
  assert (init (H:=C) VNone (Sample.start, w2) = (Ok tt, (fst st3, snd st3))) as Hinit
    by (vm_compute; reflexivity).
  assert (json_dumps (Collaborators:=C) Sample.profile_ben <> "") as Hne
    by (vm_compute; discriminate).
  assert (json_loads (Collaborators:=C) (json_dumps Sample.profile_ben) =
          Ok Sample.profile_ben) as Hround by (vm_compute; reflexivity).
  assert ("token.json" ∈ profile_scoped_files) as Hin
    by apply list_elem_of_further, list_elem_of_here.
  exists w2, (fst st3), (snd st3).
  split; [exact Hrun|]. split; [exact Hprofile|].
  split; [exact (Hgone "token.json" Hin)|].
  split; [exact Hinit|].
  exact (proj1 (Hnext VNone Sample.start w2 (fst st3) (snd st3)
                  eq_refl eq_refl Hne Hround Hinit)).
Defined.

(** ** Territory *)

Section TerritoryFacts.

Context `{Collaborators}.

#[global] Instance keeps_territory_preorder : PreOrder keeps_territory.
Proof.
  split.
  - intros st. by repeat split.
  - intros st1 st2 st3 (Hc1 & Hh1 & Hn1) (Hc2 & Hh2 & Hn2).
    split; [congruence|]. split.
    + intros k Hk. rewrite Hh2, Hh1; done.
    + intros k Hk Hsome Hnet. apply Hn2; [done| |by apply Hn1].
      by rewrite Hh1.
Qed.

Lemma same_session_keeps_territory st st' :
  fst st' = fst st -> keeps_territory st st'.
Proof. intros Hs. unfold keeps_territory. rewrite Hs. by repeat split. Qed.

Lemma net_only_keeps_territory {A} (m : M A) :
  preserves net_only m -> preserves keeps_territory m.
Proof.
  intros Hm st r st' Hrun. apply same_session_keeps_territory.
  by destruct (Hm _ _ _ Hrun) as (? & _).
Qed.

Lemma save_file_keeps_territory key data :
  preserves keeps_territory (Cache.save_file key data).
Proof. intros [s w] r st' [= _ <-]. by apply same_session_keeps_territory. Qed.

Lemma set_self_keeps_territory g :
  (forall s, cookie (g s) = cookie s /\ headers (g s) = headers s /\
             net_headers (g s) = net_headers s) ->
  preserves keeps_territory (set_self g).
Proof.
  intros Hg [s w] r st' [= _ <-]. destruct (Hg s) as (Hc & Hh & Hn).
  unfold keeps_territory. cbn [fst]. rewrite Hc, Hh, Hn. by repeat split.
Qed.

Lemma set_language_keeps_territory lang :
  preserves keeps_territory
    (set_self (fun s => with_headers (assoc_set "x-skyott-language" lang (headers s)) s)).
Proof.
  intros [s w] r st' [= _ <-]. unfold keeps_territory. cbn [fst]. simpl.
  split; [done|]. split.
  - intros k Hk. by rewrite assoc_set_ne.
  - intros k Hk _ Hnet. by rewrite assoc_set_ne.
Qed.

Lemma mirror_headers_keeps_territory :
  preserves keeps_territory
    (set_self (fun s => with_net_headers (update (net_headers s) (headers s)) s)).
Proof.
  intros [s w] r st' [= _ <-]. unfold keeps_territory. cbn [fst]. simpl.
  split; [done|]. split; [done|].
  intros k Hk [v Hv] _. by rewrite assoc_update, Hv.
Qed.

Ltac territory_step :=
  first [ preserves_step
        | apply save_file_keeps_territory
        | apply set_language_keeps_territory
        | apply mirror_headers_keeps_territory
        | apply set_self_keeps_territory; intros ?; by repeat split
        | apply net_only_keeps_territory, get_profiles_net_only
        | apply net_only_keeps_territory, get_profile_info_net_only
        | apply net_only_keeps_territory, get_tokens_net_only
        | apply net_only_keeps_territory, get_me_net_only
        | progress unfold Cache.save_json ].

(** The steps of [__init__] after the localisation keep the cookie and
    the territory headers. *)
Lemma init_suffix_keeps_territory :
  preserves keeps_territory
    (load_profile ;; load_profile_info ;; load_user_token ;;
     load_search ;; load_my_segments).
Proof.
  unfold load_profile, select_default_profile, load_profile_info, load_user_token,
    load_search, load_my_segments.
  repeat territory_step.
Qed.

Lemma mbind_M_ext {A B} (m : M A) (f g : A -> M B) st :
  (forall a st', f a st' = g a st') -> mbind_M m f st = mbind_M m g st.
Proof. intros Hfg. unfold mbind_M. by destruct (m st) as [[a|e] st']. Qed.

Lemma load_device_id_keeps_cookie dir :
  preserves_if (fun s => pldir s = dir)
    (keeps dir [] (fun s => (cookie s, headers s)))
    load_device_id.
Proof. unfold load_device_id. repeat keeps_step. Qed.

Lemma fetch_localisation_keeps_session dir :
  preserves_if (fun s => pldir s = dir)
    (keeps dir [] (fun s => s))
    fetch_localisation.
Proof. unfold fetch_localisation. repeat keeps_step. Qed.

Lemma init_split_territory territory st :
  init territory st =
  mbind_M (init_start ;; load_cookie ;; load_device_id)
    (fun _ =>
       let! t := cookie_territory territory in
       let! loc := fetch_localisation in
       apply_localisation loc t ;;
       (load_profile ;; load_profile_info ;; load_user_token ;;
        load_search ;; load_my_segments)) st.
Proof.
  unfold init, load_localisation.
  repeat first [ reflexivity
               | progress (rewrite ?step_assoc; cbv beta);
                 try (apply mbind_M_ext; intros ? ?; cbv beta)
               | apply mbind_M_ext; intros ? ?; cbv beta ].
Qed.

(** The account cookie and the platform headers after the first three
    blocks of [__init__]. *)
Lemma init_prefix_cookie s w s1 w1 :
  (init_start ;; load_cookie ;; load_device_id) (s, w) = (Ok tt, (s1, w1)) ->
  cookie s1 = loaded_cookie s w /\ headers s1 = headers s.
Proof.
  unfold init_start, load_cookie, loaded_cookie. exec.
  assert (Cache.stored (pldir s +:+ "/cookie.conf") w = VNone \/
          exists c, Cache.stored (pldir s +:+ "/cookie.conf") w = VStr c) as [Ec|[c Ec]]
    by (unfold Cache.stored; destruct (files w !! _); eauto).
  all: cbn [pldir with_net_headers with_logged]; rewrite Ec; cbn [truthy]; exec.
  2: destruct (String.eqb c "") eqn:Eempty; cbn [negb]; exec.
  all: intros Hdev.
  all: match type of Hdev with
       | load_device_id (?s0, _) = _ =>
           apply (load_device_id_keeps_cookie (pldir s0)) in Hdev
             as (_ & _ & [= Hc Hh] & _); [|done]
       end.
  all: cbn [fst] in Hc, Hh; by rewrite Hc, Hh.
Qed.

Lemma is_prefix_app p s : is_prefix p s = true -> exists r, s = p +:+ r.
Proof.
  revert s. induction p as [|a p IH]; intros s; simpl.
  - eauto.
  - destruct s as [|b s]; [discriminate|].
    destruct (Ascii.eqb_spec a b) as [->|]; [|discriminate].
    intros [r ->]%IH. eauto.
Qed.

(** A territory found by the search is two capital letters that follow
    ["hterr="] in the cookie. *)
Lemma search_hterr_sound b code :
  search_hterr b = Some code ->
  exists pre a c post,
    b = pre +:+ "hterr=" +:+ String a (String c post) /\
    code = String a (String c EmptyString) /\
    is_upper a = true /\ is_upper c = true.
Proof.
  induction b as [|x b IH]; [discriminate|].
  cbn [search_hterr].
  assert (search_hterr b = Some code ->
          exists pre a c post,
            String x b = pre +:+ "hterr=" +:+ String a (String c post) /\
            code = String a (String c EmptyString) /\
            is_upper a = true /\ is_upper c = true) as Hrest.
  { intros (pre & a & c & post & -> & Hcode)%IH.
    exists (String x pre), a, c, post. by split. }
  destruct (is_prefix "hterr=" (String x b)) eqn:Ep; [|done].
  apply is_prefix_app in Ep as [r Er].
  assert (String.substring 6 2 (String x b) = String.substring 0 2 r) as ->
    by (by rewrite Er).
  destruct r as [|a [|c post]]; cbn [String.substring]; try done.
  assert (String.substring 0 0 post = EmptyString) as -> by (by destruct post).
  destruct (is_upper a && is_upper c) eqn:Eu; [|done].
  intros [= <-]. apply andb_true_iff in Eu as [? ?].
  by exists EmptyString, a, c, post.
Qed.

Lemma search_hterr_truthy b code : search_hterr b = Some code -> truthy (VStr code) = true.
Proof. by intros (? & ? & ? & ? & _ & -> & _)%search_hterr_sound. Qed.

(** A cookie with ["hterr="] followed by two capital letters yields a
    territory. *)
Lemma search_hterr_complete pre a c post :
  is_upper a = true -> is_upper c = true ->
  is_Some (search_hterr (pre +:+ "hterr=" +:+ String a (String c post))).
Proof.
  intros Ha Hc. induction pre as [|x pre IH].
  - destruct post; cbv -[is_upper]; rewrite Ha, Hc; eauto.
  - change (String x pre +:+ "hterr=" +:+ String a (String c post))
      with (String x (pre +:+ "hterr=" +:+ String a (String c post))).
    cbn [search_hterr].
    destruct (is_prefix _ _); [|done].
    destruct (String.substring _ _ _) as [|a' [|c' [|]]]; try done.
    by destruct (is_upper a' && is_upper c').
Qed.

(** The territory after [# Get the territory from the cookie]. *)
Lemma cookie_territory_spec territory s w t' st' :
  cookie_territory territory (s, w) = (Ok t', st') ->
  st' = (s, w) /\
  (truthy territory = true -> t' = territory) /\
  (truthy territory = false ->
   forall b code, cookie s = VStr b -> b <> "" -> search_hterr b = Some code ->
                  t' = VStr code) /\
  (truthy territory = false ->
   truthy (cookie s) = false \/ (exists b, cookie s = VStr b /\ search_hterr b = None) ->
   t' = territory).
Proof.
  unfold cookie_territory. exec.
  destruct (truthy territory) eqn:Et; cbn [negb andb]; exec.
  { intros [= <- <-]. by repeat split. }
  destruct (truthy (cookie s)) eqn:Ec; exec.
  2:{ intros [= <- <-]. split; [done|]. split; [done|]. split; [|done].
      intros _ b code Hb Hne _. rewrite Hb, (truthy_str _ Hne) in Ec. discriminate. }
  destruct (cookie s) as [| | | |b| |] eqn:Eb; exec; try discriminate.
  destruct (search_hterr b) as [code|] eqn:Es; exec; intros [= <- <-].
  - split; [done|]. split; [done|]. split.
    + intros _ b' code' [= <-] _ Hs. congruence.
    + intros _ [?|(b' & [= <-] & ?)]; congruence.
  - split; [done|]. split; [done|]. split; [|done].
    intros _ b' code' [= <-] _ Hs. congruence.
Qed.

(** What [apply_localisation] leaves in the headers: the override when
    there is one, also as active territory when the localisation said
    ["XX"]; else the territory of the localisation. The network headers
    mirror every platform header. *)
Lemma apply_localisation_spec loc t s w s3 w3 :
  apply_localisation loc t (s, w) = (Ok tt, (s3, w3)) ->
  cookie s3 = cookie s /\
  (truthy t = true ->
   assoc "x-skyott-territory" (headers s3) = Some t /\
   (forall h, getitem loc "headers" = Ok (VDict h) ->
              assoc "x-skyott-activeterritory" h = Some (VStr "XX") ->
              assoc "x-skyott-activeterritory" (headers s3) = Some t)) /\
  (truthy t = false ->
   forall h, getitem loc "headers" = Ok (VDict h) ->
             assoc "x-skyott-territory" (headers s3) =
               Some (item "x-skyott-territory" h)) /\
  (forall k, is_Some (assoc k (headers s3)) ->
             assoc k (net_headers s3) = assoc k (headers s3)).
Proof.
  unfold apply_localisation. intros Hrun.
  apply mbind_M_inv in Hrun as (has & [s1 w1] & H1 & Hrun).
  apply mbind_M_inv in Hrun as ([] & [s2 w2] & H2 & Hrun).
  apply mbind_M_inv in Hrun as ([] & [s2' w2'] & H3 & H4).
  (* the localisation hints *)
  assert (s1 = s /\
          (forall h, getitem loc "headers" = Ok (VDict h) -> has = true)) as [-> Hhas].
  { destruct (truthy loc) eqn:El; [unfold lift in H1|unfold ret in H1];
      injection H1 as Hc <- <-.
    - split; [done|]. intros h Hh%getitem_contains. congruence.
    - split; [done|]. intros h Hh.
      destruct (getitem_is_dict _ _ _ Hh) as [d ->]. by destruct d. }
  assert (cookie s2 = cookie s /\
          (forall h, getitem loc "headers" = Ok (VDict h) ->
             assoc "x-skyott-territory" (headers s2) =
               Some (item "x-skyott-territory" h) /\
             assoc "x-skyott-activeterritory" (headers s2) =
               Some (item "x-skyott-activeterritory" h))) as [Hc2 Hh2].
  { destruct has.
    - revert H2. exec.
      destruct (getitem loc "headers") as [h|e] eqn:Eh; exec; [|discriminate].
      destruct (get h "x-skyott-activeterritory") as [a|e] eqn:Ea; exec; [|discriminate].
      destruct (get h "x-skyott-language") as [l|e] eqn:El; exec; [|discriminate].
      destruct (get h "x-skyott-territory") as [tt'|e] eqn:Et; exec; [|discriminate].
      intros [= <- <-]. split; [done|]. intros h' [= ->].
      cbn in Ea, Et. injection Ea as <-. injection Et as <-.
      cbn [headers with_headers]. rewrite !assoc_update. by cbn.
    - injection H2 as <- <-. split; [done|].
      intros h Hh. apply Hhas in Hh. discriminate. }
  (* the override *)
  assert (cookie s2' = cookie s2 /\
          (truthy t = true ->
           assoc "x-skyott-territory" (headers s2') = Some t /\
           (assoc "x-skyott-activeterritory" (headers s2) = Some (VStr "XX") ->
            assoc "x-skyott-activeterritory" (headers s2') = Some t)) /\
          (truthy t = false -> s2' = s2)) as (Hc3 & Ht3 & Hf3).
  { destruct (truthy t) eqn:Et.
    - revert H3. exec. cbn [headers with_headers]. cbn [getitem].
      rewrite assoc_set_ne by done.
      destruct (assoc "x-skyott-activeterritory" (headers s2)) as [act|] eqn:Ea;
        exec; [|discriminate].
      destruct (eq_str act "XX") eqn:Ex; exec; intros [= <- <-].
      + split; [done|]. split; [|done]. intros _. cbn [headers with_headers].
        split; [|intros _; apply assoc_set_eq].
        rewrite assoc_set_ne by done. apply assoc_set_eq.
      + split; [done|]. split; [|done]. intros _. cbn [headers with_headers].
        split; [apply assoc_set_eq|]. intros [= ->]. discriminate.
    - injection H3 as <- <-. by repeat split. }
  injection H4 as <- <-. cbn [cookie headers net_headers with_net_headers].
  split; [congruence|]. split; [|split].
  - intros Ht. destruct (Ht3 Ht) as [Hterr Hact]. split; [done|].
    intros h Hh Hxx. apply Hact. destruct (Hh2 h Hh) as [_ ->].
    unfold item. by rewrite Hxx.
  - intros Ht h Hh. rewrite (Hf3 Ht). by destruct (Hh2 h Hh).
  - intros k [v Hv]. by rewrite assoc_update, Hv.
Qed.

(** C1 (territory precedence): after a bootstrap that completes, with
    [loc] the localisation the bootstrap used (cached or fetched): an
    override that was supplied is the [x-skyott-territory] header, and
    also the [x-skyott-activeterritory] header when the localisation
    gave ["XX"] for it; without an override, a cookie with a code after
    ["hterr="] makes that code the territory; without either, the
    territory is the one of the localisation. The account cookie is the
    stored cookie, and the network headers carry the same territory. *)
Theorem territory_precedence territory s w s' w' :
  init territory (s, w) = (Ok tt, (s', w')) ->
  exists st1 loc st2,
    (init_start ;; load_cookie ;; load_device_id) (s, w) = (Ok tt, st1) /\
    fetch_localisation st1 = (Ok loc, st2) /\
    cookie s' = loaded_cookie s w /\
    (truthy territory = true ->
     assoc "x-skyott-territory" (headers s') = Some territory /\
     (forall h, getitem loc "headers" = Ok (VDict h) ->
                assoc "x-skyott-activeterritory" h = Some (VStr "XX") ->
                assoc "x-skyott-activeterritory" (headers s') = Some territory)) /\
    (truthy territory = false ->
     forall b code,
       cookie s' = VStr b -> b <> "" -> search_hterr b = Some code ->
       assoc "x-skyott-territory" (headers s') = Some (VStr code)) /\
    (truthy territory = false ->
     truthy (cookie s') = false \/
       (exists b, cookie s' = VStr b /\ search_hterr b = None) ->
     forall h, getitem loc "headers" = Ok (VDict h) ->
               assoc "x-skyott-territory" (headers s') =
                 Some (item "x-skyott-territory" h)) /\
    (is_Some (assoc "x-skyott-territory" (headers s')) ->
     assoc "x-skyott-territory" (net_headers s') =
       assoc "x-skyott-territory" (headers s')).
Proof.
  intros Hinit. rewrite init_split_territory in Hinit.
  apply mbind_M_inv in Hinit as ([] & [s1 w1] & Hprefix & Hinit).
  apply mbind_M_inv in Hinit as (t' & st1' & Hcookie & Hinit).
  apply cookie_territory_spec in Hcookie as (-> & Hover & Hcode & Hnone).
  apply mbind_M_inv in Hinit as (loc & [s2 w2] & Hfetch & Hinit).
  apply mbind_M_inv in Hinit as ([] & [s3 w3] & Happly & Hsuffix).
  exists (s1, w1), loc, (s2, w2). split; [done|]. split; [done|].
  destruct (init_prefix_cookie _ _ _ _ Hprefix) as [Hc1 _].
  pose proof Hfetch as Hsame.
  apply (fetch_localisation_keeps_session (pldir s1)) in Hsame
    as (_ & _ & Hs2 & _); [|done]. cbn [fst] in Hs2. subst s2.
  apply apply_localisation_spec in Happly as (Hc3 & Hset & Hloc & Hmirror).
  apply init_suffix_keeps_territory in Hsuffix as (Hc' & Hh' & Hn').
  cbn [fst] in Hc', Hh', Hn'.
  assert (cookie s' = cookie s1) as Hck by congruence.
  rewrite Hck, !Hh' by done.
  split; [done|]. split; [|split; [|split]].
  - intros Ht. rewrite (Hover Ht) in Hset. by apply Hset.
  - intros Ht b code Hb Hne Hs.
    rewrite (Hcode Ht b code Hb Hne Hs) in Hset.
    by apply Hset, (search_hterr_truthy b).
  - intros Ht Hno h Hh. rewrite (Hnone Ht Hno) in Hloc. by apply Hloc.
  - intros Hsome. rewrite <- (Hh' "x-skyott-territory") by done.
    apply Hn'; [done|done|]. by apply Hmirror.
Qed.

End TerritoryFacts.

Lemma territory_precedence_witness :
  let C := Sample.collaborators Sample.token_reply Sample.login_failure in
  (exists s' w',
     init (H:=C) (VStr "GB") (Sample.start, Sample.stored_world) = (Ok tt, (s', w')) /\
     assoc "x-skyott-territory" (headers s') = Some (VStr "GB") /\
     assoc "x-skyott-activeterritory" (headers s') = Some (VStr "GB")) /\
  (exists s' w',
     init (H:=C) VNone (Sample.start, Sample.stored_world) = (Ok tt, (s', w')) /\
     cookie s' = VStr "hterr=PL; skyCEsidismesso01=abc" /\
     assoc "x-skyott-territory" (headers s') = Some (VStr "PL")) /\
  (exists s' w',
     init (H:=C) VNone (Sample.start, Sample.empty_world) = (Ok tt, (s', w')) /\
     cookie s' = VNone /\
     assoc "x-skyott-territory" (headers s') = Some (VStr "CZ")).
Proof.
  intros C.
  assert (forall w st1 loc st2,
            (init_start ;; load_cookie ;; load_device_id) (Sample.start, w) = (Ok tt, st1) ->
            fetch_localisation (H:=C) st1 = (Ok loc, st2) ->
            Ok loc = fst (fetch_localisation (H:=C)
                       (snd ((init_start ;; load_cookie ;; load_device_id)
                               (Sample.start, w))))) as Hloc.
  { intros w st1 loc st2 Hpre Hfetch. rewrite Hpre. cbn [snd]. by rewrite Hfetch. }
  split; [|split].
  - pose (st := snd (init (H:=C) (VStr "GB") (Sample.start, Sample.stored_world))).
    assert (init (H:=C) (VStr "GB") (Sample.start, Sample.stored_world) =
            (Ok tt, (fst st, snd st))) as Hinit by (vm_compute; reflexivity).
    destruct (territory_precedence (H:=C) _ _ _ _ _ Hinit)
      as (st1 & loc & st2 & Hpre & Hfetch & _ & Hover & _).
    pose proof (Hloc _ _ _ _ Hpre Hfetch) as Hl. vm_compute in Hl.
    injection Hl as ->.
    destruct (Hover eq_refl) as [Hterr Hact].
    exists (fst st), (snd st). split; [exact Hinit|]. split; [exact Hterr|].
    exact (Hact _ eq_refl eq_refl).
  - pose (st := snd (init (H:=C) VNone (Sample.start, Sample.stored_world))).
    assert (init (H:=C) VNone (Sample.start, Sample.stored_world) =
            (Ok tt, (fst st, snd st))) as Hinit by (vm_compute; reflexivity).
    destruct (territory_precedence (H:=C) _ _ _ _ _ Hinit)
      as (st1 & loc & st2 & _ & _ & Hck & _ & Hcode & _).
    assert (cookie (fst st) = VStr "hterr=PL; skyCEsidismesso01=abc") as Hb
      by (rewrite Hck; vm_compute; reflexivity).
    exists (fst st), (snd st). split; [exact Hinit|]. split; [exact Hb|].
    apply (Hcode eq_refl _ "PL" Hb); [discriminate | vm_compute; reflexivity].
  - pose (st := snd (init (H:=C) VNone (Sample.start, Sample.empty_world))).
    assert (init (H:=C) VNone (Sample.start, Sample.empty_world) =
            (Ok tt, (fst st, snd st))) as Hinit by (vm_compute; reflexivity).
    destruct (territory_precedence (H:=C) _ _ _ _ _ Hinit)
      as (st1 & loc & st2 & Hpre & Hfetch & Hck & _ & _ & Hnone & _).
    pose proof (Hloc _ _ _ _ Hpre Hfetch) as Hl. vm_compute in Hl.
    injection Hl as ->.
    assert (cookie (fst st) = VNone) as Hb by (rewrite Hck; vm_compute; reflexivity).
    exists (fst st), (snd st). split; [exact Hinit|]. split; [exact Hb|].
    assert (truthy (cookie (fst st)) = false) as Hfalsy by (by rewrite Hb).
    exact (Hnone eq_refl (or_introl Hfalsy) _ eq_refl).
Defined.

(** ** Further properties *)

Section LoopFacts.

Lemma foldM_app {A S} (f : S -> A -> result S) l1 l2 s :
  foldM f (l1 ++ l2) s = let* s' := foldM f l1 s in foldM f l2 s'.
Proof.
  revert s. induction l1 as [|x l1 IH]; intros s; simpl; [done|].
  destruct (f s x); simpl; [apply IH | done].
Qed.

End LoopFacts.

Section ArtFacts.

Lemma item_assoc k d v : assoc k d = Some v -> item k d = v.
Proof. unfold item. by intros ->. Qed.

Lemma replace_nonempty old new s :
  new <> "" -> s <> "" -> replace old new s <> "".
Proof.
  intros Hnew Hs. destruct s as [|c s]; [done|].
  unfold replace. cbn [replace_from]. destruct (is_prefix old (String c s)).
  - destruct new; [done|]. simpl. discriminate.
  - discriminate.
Qed.

(** An image of another type leaves an explicit poster where it is. *)
Lemma get_art_body_keeps_poster st i st' p :
  getitem i "type" <> Ok (VStr "titleArt169") ->
  assoc "poster" (art st) = Some p -> truthy p = true ->
  get_art_body st i = Ok st' ->
  assoc "poster" (art st') = Some p.
Proof.
  intros Hty Hp Htr Hrun. unfold get_art_body in Hrun.
  apply bind_Ok in Hrun as (ty & Ety & Hrun).
  apply bind_Ok in Hrun as (st1 & Est1 & Hrun).
  injection Hrun as <-. cbn [art].
  assert (assoc "poster" (art st1) = Some p) as Hp1.
  { destruct (eq_str ty "titleArt34"); [run_inv; done|].
    destruct (eq_str ty "nonTitleArt34"); [run_inv; done|].
    destruct (eq_str ty "titleArt169") eqn:E169.
    { apply eq_str_true in E169 as ->. done. }
    destruct (eq_str ty "landscape"); [run_inv; cbn [art]; by rewrite assoc_set_ne|].
    destruct (eq_str ty "titleLogo"); [run_inv; cbn [art]; by rewrite assoc_set_ne|].
    destruct (eq_str ty "scene169"); [run_inv; cbn [art]; by rewrite assoc_set_ne|].
    by run_inv. }
  rewrite (item_assoc _ _ _ Hp1), Htr, !andb_false_r.
  rewrite (item_assoc _ _ _ Hp1), Htr, !andb_false_r.
  destruct (negb _); [by rewrite assoc_set_ne|done].
Qed.

End ArtFacts.

Section ArtTheorems.

Lemma get_art_tail_keeps_poster l st st' p :
  Forall (fun j => getitem j "type" <> Ok (VStr "titleArt169")) l ->
  assoc "poster" (art st) = Some p -> truthy p = true ->
  foldM get_art_body l st = Ok st' ->
  assoc "poster" (art st') = Some p.
Proof.
  intros Hl. revert st. induction Hl as [|j l Hj Hl IH]; intros st Hp Htr Hrun.
  - simpl in Hrun. by injection Hrun as <-.
  - simpl in Hrun. apply bind_Ok in Hrun as (st1 & E1 & Hrun).
    eapply IH; [|done|done]. by eapply get_art_body_keeps_poster.
Qed.

(** X1: an explicit 16:9 title image with a non-empty URL is the poster,
    wherever it stands in the list: the poster is the URL of the last
    such image, resized. *)
Theorem get_art_explicit_poster l1 i l2 u a :
  getitem i "type" = Ok (VStr "titleArt169") ->
  getitem i "url" = Ok (VStr u) ->
  u <> "" ->
  Forall (fun j => getitem j "type" <> Ok (VStr "titleArt169")) l2 ->
  get_art (VList (l1 ++ i :: l2)) = Ok a ->
  getitem a "poster" = Ok (VStr (replace "?language" "/400?language" u)).
Proof.
  intros Hty Hurl Hu Hl2 Hrun. unfold get_art in Hrun. cbn [iter bind] in Hrun.
  apply bind_Ok in Hrun as (st3 & Hfold & Hrun). injection Hrun as <-.
  rewrite foldM_app in Hfold. apply bind_Ok in Hfold as (st1 & _ & Hfold).
  cbn [foldM] in Hfold. apply bind_Ok in Hfold as (st2 & Hbody & Hfold).
  apply getitem_dict.
  eapply get_art_tail_keeps_poster; [done| |by apply truthy_str, replace_nonempty|done].
  unfold get_art_body in Hbody. rewrite Hty, Hurl in Hbody.
  cbn [bind eq_str String.eqb Ascii.eqb Bool.eqb image_url str_replace art title34 nontitle34] in Hbody.
  rewrite item_set_eq in Hbody.
  rewrite (truthy_str (replace "?language" "/400?language" u)) in Hbody
    by by apply replace_nonempty.
  rewrite !andb_false_r in Hbody.
  rewrite item_set_eq in Hbody.
  rewrite (truthy_str (replace "?language" "/400?language" u)) in Hbody
    by by apply replace_nonempty.
  rewrite !andb_false_r in Hbody.
  injection Hbody as <-. cbn [art].
  destruct (negb _); [rewrite assoc_set_ne by done|]; apply assoc_set_eq.
Qed.

Lemma get_art_explicit_poster_witness :
  getitem (VDict [("icon", VNone); ("poster", VStr "http://i/p/400?language=en");
                  ("fanart", VNone); ("thumb", VStr "t")]) "poster" =
  Ok (VStr (replace "?language" "/400?language" "http://i/p?language=en")).
Proof.
  apply (get_art_explicit_poster
           [image "titleArt34" "t"] (image "titleArt169" "http://i/p?language=en")
           [image "nonTitleArt34" "n"] "http://i/p?language=en").
  - reflexivity.
  - reflexivity.
  - discriminate.
  - repeat constructor. discriminate.
  - vm_compute. reflexivity.
Defined.

Lemma art_keys_set k v d : k <> "icon" -> art_keys d -> art_keys (assoc_set k v d).
Proof.
  intros Hk (Hi & Hp & Hf & Ht). unfold art_keys.
  rewrite assoc_set_ne by done. split; [done|].
  repeat split.
  - destruct (decide ("poster" = k)) as [<-|]; [apply has_key_set_eq|by rewrite has_key_set_ne].
  - destruct (decide ("fanart" = k)) as [<-|]; [apply has_key_set_eq|by rewrite has_key_set_ne].
  - destruct (decide ("thumb" = k)) as [<-|]; [apply has_key_set_eq|by rewrite has_key_set_ne].
Qed.

Lemma get_art_body_invariant st i st' :
  art_keys (art st) ->
  get_art_body st i = Ok st' ->
  art_keys (art st') /\
  (truthy (item "poster" (art st')) = true -> truthy (item "thumb" (art st')) = true).
Proof.
  intros Hk Hrun. unfold get_art_body in Hrun.
  apply bind_Ok in Hrun as (ty & Ety & Hrun).
  apply bind_Ok in Hrun as (st1 & Est1 & Hrun).
  assert (art_keys (art st1)) as Hk1.
  { destruct (eq_str ty "titleArt34"); [by run_inv|].
    destruct (eq_str ty "nonTitleArt34"); [by run_inv|].
    destruct (eq_str ty "titleArt169"); [run_inv; by apply art_keys_set|].
    destruct (eq_str ty "landscape"); [run_inv; by apply art_keys_set|].
    destruct (eq_str ty "titleLogo"); [run_inv; by apply art_keys_set|].
    destruct (eq_str ty "scene169"); [run_inv; by apply art_keys_set|].
    by run_inv. }
  injection Hrun as <-. cbn [art].
  set (a2 := if _ && _ then _ else art st1).
  assert (art_keys a2) as Hk2.
  { subst a2. destruct (_ && _); [by apply art_keys_set|done]. }
  clearbody a2.
  set (a3 := if _ && _ then _ else a2).
  assert (art_keys a3) as Hk3.
  { subst a3. destruct (_ && _); [by apply art_keys_set|done]. }
  clearbody a3.
  destruct (truthy (item "thumb" a3)) eqn:Eth; cbn [negb].
  - done.
  - split; [by apply art_keys_set|].
    by rewrite item_set_eq, item_set_ne.
Qed.

(** X2: whatever the images, the art that [get_art] returns has the four
    keys it starts from, [icon] is never filled, and once a poster is
    resolved a thumb is resolved too. *)
Theorem get_art_invariant images a :
  get_art images = Ok a ->
  exists d, a = VDict d /\ art_keys d /\
    (truthy (item "poster" d) = true -> truthy (item "thumb" d) = true).
Proof.
  intros Hrun. unfold get_art in Hrun.
  apply bind_Ok in Hrun as (l & _ & Hrun).
  apply bind_Ok in Hrun as (st & Hfold & Hrun). injection Hrun as <-.
  exists (art st). split; [done|].
  assert (forall st0, art_keys (art st0) ->
            (truthy (item "poster" (art st0)) = true ->
             truthy (item "thumb" (art st0)) = true) ->
            foldM get_art_body l st0 = Ok st ->
            art_keys (art st) /\
            (truthy (item "poster" (art st)) = true ->
             truthy (item "thumb" (art st)) = true)) as Hind.
  { clear Hfold. induction l as [|i l IH]; intros st0 Hk Himp Hf.
    - simpl in Hf. by injection Hf as <-.
    - simpl in Hf. apply bind_Ok in Hf as (st1 & E1 & Hf).
      destruct (get_art_body_invariant _ _ _ Hk E1) as (Hk1 & Himp1).
      by eapply IH. }
  eapply Hind; [| |done]; [by repeat split|done].
Qed.

Lemma get_art_invariant_witness :
  exists d, VDict [("icon", VNone); ("poster", VStr "p"); ("fanart", VNone);
                   ("thumb", VStr "t")] = VDict d /\ art_keys d /\
    (truthy (item "poster" d) = true -> truthy (item "thumb" d) = true).
Proof.
  apply (get_art_invariant (VList [image "titleArt34" "t"; image "titleArt169" "p"])).
  vm_compute. reflexivity.
Defined.

End ArtTheorems.

Section GenreFacts.

Lemma get_genres_body_spec res d res' :
  get_genres_body res d = Ok res' ->
  res' = (res ++ match genre_title d with Some t => [t] | None => [] end)%list.
Proof.
  unfold get_genres_body, genre_title. intros Hrun.
  apply bind_Ok in Hrun as (has & Ehas & Hrun). destruct has.
  - apply bind_Ok in Hrun as (sub & Esub & Hrun). rewrite Esub.
    apply bind_Ok in Hrun as (n & En & Hrun).
    destruct (0 <? n)%nat eqn:Epos.
    + rewrite Esub in Hrun. cbn [bind] in Hrun.
      apply bind_Ok in Hrun as (g & Eg & Hrun).
      apply bind_Ok in Hrun as (title & Et & Hrun). injection Hrun as <-.
      destruct sub as [| | | |s|l|dd]; try discriminate.
      * destruct s; [discriminate|]. injection Eg as <-. discriminate.
      * destruct l as [|g' l]; [discriminate|]. injection Eg as ->. by rewrite Et.
    + injection Hrun as <-.
      destruct sub as [| | | |s|l|dd]; try discriminate; try by rewrite app_nil_r.
      destruct l; [by rewrite app_nil_r|]. simpl in En. injection En as <-. done.
  - injection Hrun as <-.
    destruct d as [| | | |s|l|dd]; try discriminate; simpl; try by rewrite app_nil_r.
    simpl in Ehas. injection Ehas as Ehas. apply has_key_false in Ehas.
    by rewrite Ehas, app_nil_r.
Qed.

Lemma get_genres_fold l acc res :
  foldM get_genres_body l acc = Ok res ->
  res = (acc ++ omap genre_title l)%list.
Proof.
  revert acc. induction l as [|d l IH]; intros acc Hrun; simpl in Hrun.
  - injection Hrun as <-. by rewrite app_nil_r.
  - apply bind_Ok in Hrun as (acc1 & E1 & Hrun).
    apply get_genres_body_spec in E1 as ->. apply IH in Hrun as ->.
    rewrite <- app_assoc. f_equal. simpl. by destruct (genre_title d).
Qed.

(** X3: [get_genres] returns, in order, the title of the first subgenre
    of every genre that has one; a genre without [subgenre], or with an
    empty one, contributes nothing. *)
Theorem get_genres_titles l res :
  get_genres (VList l) = Ok res ->
  res = VList (omap genre_title l).
Proof.
  unfold get_genres. cbn [iter bind]. intros Hrun.
  apply bind_Ok in Hrun as (r & Hfold & Hrun). injection Hrun as <-.
  by apply get_genres_fold in Hfold as ->.
Qed.

Lemma get_genres_titles_witness :
  VList [VStr "Drama"] =
  VList (omap genre_title
           [VDict [("genre", VStr "a")];
            VDict [("subgenre", VList [])];
            VDict [("subgenre", VList [VDict [("title", VStr "Drama")];
                                       VDict [("title", VStr "Crime")]])]]).
Proof.
  apply (get_genres_titles
           [VDict [("genre", VStr "a")];
            VDict [("subgenre", VList [])];
            VDict [("subgenre", VList [VDict [("title", VStr "Drama")];
                                       VDict [("title", VStr "Crime")]])]]).
  vm_compute. reflexivity.
Defined.

End GenreFacts.

Section CatalogueFacts.

Context `{Formatting}.
Variable my : list pyval.

(** A link that cannot be resolved and carries no [linkId] stops the
    loop body: the diagnostic for it needs [e['linkId']]. *)
Lemma parse_catalog_body_unresolved_link d r :
  assoc "type" d = Some (VStr "CATALOGUE/LINK") ->
  assoc "linkInfo" d = None ->
  assoc "linkId" d = None ->
  parse_catalog_body my (VDict d) = Ok r -> False.
Proof.
  intros Hty Hinfo Hid Hrun. unfold parse_catalog_body in Hrun.
  bind_inv Hrun.
  unfold parse_catalog_type in Hrun.
  cbn [getitem] in Hrun. rewrite Hty in Hrun.
  cbn [bind eq_str String.eqb Ascii.eqb Bool.eqb contains has_key] in Hrun.
  unfold has_key in Hrun. rewrite Hinfo, Hid in Hrun. discriminate.
Qed.

(** X4: one [CATALOGUE/LINK] entry with neither [linkInfo] nor [linkId]
    makes [parse_catalog] raise, whatever else the list holds: no item
    of the list is returned. *)
Theorem parse_catalog_unresolved_link l1 d l2 :
  assoc "type" d = Some (VStr "CATALOGUE/LINK") ->
  assoc "linkInfo" d = None ->
  assoc "linkId" d = None ->
  exists e, parse_catalog my (VList (l1 ++ VDict d :: l2)) = Raise e.
Proof.
  intros Hty Hinfo Hid.
  destruct (parse_catalog my (VList (l1 ++ VDict d :: l2))) as [res|e] eqn:Hrun;
    [exfalso|by exists e].
  unfold parse_catalog in Hrun. cbn [iter bind] in Hrun.
  rewrite foldM_app in Hrun. apply bind_Ok in Hrun as (acc & _ & Hrun).
  cbn [foldM] in Hrun. apply bind_Ok in Hrun as (acc1 & Hstep & _).
  unfold parse_catalog_step in Hstep. apply bind_Ok in Hstep as (r & Hbody & _).
  by eapply parse_catalog_body_unresolved_link.
Qed.

End CatalogueFacts.

Lemma parse_catalog_unresolved_link_witness :
  exists e,
    parse_catalog (H:=Sample.formatting) Sample.my
      (VList ([VDict [("id", VStr "c-1"); ("title", VStr "Drama");
                      ("type", VStr "CATALOGUE/COLLECTION")]] ++
              VDict [("id", VStr "l-1"); ("title", VStr "Broken link");
                     ("type", VStr "CATALOGUE/LINK")] :: [])) = Raise e.
Proof.
  apply (parse_catalog_unresolved_link (H:=Sample.formatting) Sample.my
           [VDict [("id", VStr "c-1"); ("title", VStr "Drama");
                   ("type", VStr "CATALOGUE/COLLECTION")]]
           [("id", VStr "l-1"); ("title", VStr "Broken link");
            ("type", VStr "CATALOGUE/LINK")] []); reflexivity.
Defined.

Ltac lookup_simpl :=
  repeat first [ rewrite assoc_set_eq
               | rewrite assoc_set_ne by done
               | rewrite assoc_set_in_ne by done
               | rewrite item2_set_ne by done
               | rewrite item2_set_in_ne by done
               | rewrite item2_set_in_other by done ].

Section CatalogueShape.

Context `{Formatting}.
Variable my : list pyval.

Lemma parse_catalog_type_shape e t t' :
  parse_catalog_type e t = Ok (Some t') ->
  is_Some (assoc "id" t) -> is_Some (assoc "slug" t) ->
  is_Some (item2 "info" "title" t) ->
  catalog_item t'.
Proof.
  intros Hrun Hid Hslug Htitle. unfold parse_catalog_type in Hrun.
  apply bind_Ok in Hrun as (ty & Ety & Hrun).
  destruct (eq_str ty "CATALOGUE/COLLECTION");
    [|destruct (eq_str ty "CATALOGUE/LINK");
      [|destruct (in_strs ty asset_types);
        [|destruct (eq_str ty "CATALOGUE/SERIES"); [|discriminate]]]].
  all: run_inv; try discriminate.
  all: try match goal with Hr : Some _ = Some _ |- _ => injection Hr as <- end.
  all: unfold catalog_item; (split; [|split; [|split]]); lookup_simpl; eauto.
Qed.

Lemma parse_catalog_body_shape e t :
  parse_catalog_body my e = Ok (Some t) -> catalog_item t.
Proof.
  unfold parse_catalog_body. intros Hrun.
  apply bind_Ok in Hrun as (id & Eid & Hrun).
  apply bind_Ok in Hrun as (slug & Eslug & Hrun).
  apply bind_Ok in Hrun as (title & Etitle & Hrun).
  apply bind_Ok in Hrun as (has & Ehas & Hrun).
  apply bind_Ok in Hrun as (t1 & Et1 & Hrun).
  apply bind_Ok in Hrun as (t2 & Et2 & Hrun).
  assert (is_Some (assoc "id" t1) /\ is_Some (assoc "slug" t1) /\
          is_Some (item2 "info" "title" t1)) as (Hid & Hslug & Htitle).
  { destruct has; run_inv; (split; [|split]); lookup_simpl; eauto;
      by erewrite item2_set_in_eq. }
  apply add_segments_inv in Et2 as [(_ & ->)|(_ & segs & sub & _ & _ & ->)].
  - by eapply parse_catalog_type_shape.
  - eapply parse_catalog_type_shape; [done|..]; by lookup_simpl.
Qed.

(** X5: every item that [parse_catalog] returns is a category, a movie or
    a series with an id, a slug and a title; entries of any other type
    are left out, so the result is never longer than the input. *)
Theorem parse_catalog_items data res :
  parse_catalog my data = Ok res ->
  Forall (fun v => exists t, v = VDict t /\ catalog_item t) res /\
  exists l, iter data = Ok l /\ length res <= length l.
Proof.
  unfold parse_catalog. intros Hrun.
  apply bind_Ok in Hrun as (l & El & Hrun). split.
  - eapply Forall_impl.
    + eapply (parse_catalog_fold my l l []); [done|done|constructor].
    + intros v (e & t & _ & -> & Hbody). exists t. split; [done|].
      by eapply parse_catalog_body_shape.
  - exists l. split; [done|].
    assert (forall acc, foldM (parse_catalog_step my) l acc = Ok res ->
                        length res <= length acc + length l) as Hlen.
    { clear. induction l as [|e l IH]; intros acc Hf; simpl in Hf.
      - injection Hf as <-. lia.
      - apply bind_Ok in Hf as (acc1 & Hstep & Hf). apply IH in Hf.
        unfold parse_catalog_step in Hstep.
        apply bind_Ok in Hstep as ([t|] & _ & Hstep); injection Hstep as <-.
        + rewrite length_app in Hf. simpl in *. lia.
        + simpl. lia. }
    by apply Hlen in Hrun.
Qed.

End CatalogueShape.

Lemma parse_catalog_items_witness :
  exists res,
    parse_catalog (H:=Sample.formatting) Sample.my Sample.rail = Ok res /\
    Forall (fun v => exists t, v = VDict t /\ catalog_item t) res /\
    exists l, iter Sample.rail = Ok l /\ length res <= length l.
Proof.
  pose (res := match parse_catalog (H:=Sample.formatting) Sample.my Sample.rail with
               | Ok r => r | Raise _ => [] end).
  assert (parse_catalog (H:=Sample.formatting) Sample.my Sample.rail = Ok res) as Hres
    by (vm_compute; reflexivity).
  exists res. split; [exact Hres|].
  exact (parse_catalog_items (H:=Sample.formatting) Sample.my Sample.rail res Hres).
Defined.

Section ItemFacts.

Context `{Formatting}.
Variable my : list pyval.

(** X6: the [uuid] of a parsed item is the programme's when the source
    has [programmeUuid], otherwise the series' when it has [seriesUuid],
    and the item has no [uuid] otherwise. *)
Theorem parse_item_uuid data t d :
  parse_item my data = Ok t ->
  getitem data "attributes" = Ok (VDict d) ->
  assoc "uuid" t = match assoc "programmeUuid" d with
                   | Some u => Some u
                   | None => assoc "seriesUuid" d
                   end.
Proof.
  intros Hrun Hatt. unfold parse_item in Hrun. rewrite Hatt in Hrun.
  cbn [bind] in Hrun.
  apply bind_Ok in Hrun as (id & Eid & Hrun).
  apply bind_Ok in Hrun as (slug & Eslug & Hrun).
  apply bind_Ok in Hrun as (title & Etitle & Hrun).
  apply bind_Ok in Hrun as (a & Ea & Hrun).
  apply bind_Ok in Hrun as (g & Eg & Hrun).
  apply bind_Ok in Hrun as (ty & Ety & Hrun).
  apply bind_Ok in Hrun as (t1 & Et1 & Hrun).
  apply bind_Ok in Hrun as (t2 & Et2 & Hrun).
  apply bind_Ok in Hrun as (has_pu & Epu & Hrun).
  apply bind_Ok in Hrun as (t3 & Et3 & Hrun).
  apply bind_Ok in Hrun as (has_ps & Eps & Hrun).
  apply bind_Ok in Hrun as (t4 & Et4 & Hrun).
  assert (assoc "uuid" t1 = None) as H1.
  { clear Et2 Et3 Et4 Hrun.
    destruct (eq_str ty "CATALOGUE/SERIES");
      [|destruct (eq_str ty "CATALOGUE/SEASON");
        [|destruct (eq_str ty "ASSET/EPISODE");
          [|destruct (eq_str ty "ASSET/PROGRAMME")]]].
    all: run_inv; by lookup_simpl. }
  assert (assoc "uuid" t2 = None) as H2.
  { clear Et1 Et3 Et4 Hrun. destruct (in_strs ty playable_types); [|by run_inv].
    apply bind_Ok in Et2 as (plot & _ & Et2).
    apply bind_Ok in Et2 as (dur & _ & Et2).
    apply bind_Ok in Et2 as (mpaa & _ & Et2).
    apply bind_Ok in Et2 as (tf & Etf & Et2).
    apply bind_Ok in Et2 as (pv & _ & Et2). injection Et2 as <-.
    rewrite assoc_set_ne by done.
    rewrite (add_formats_frame _ _ _ "uuid" Etf) by done. by lookup_simpl. }
  assert (assoc "uuid" t3 = match assoc "programmeUuid" d with
                            | Some u => Some u
                            | None => assoc "seriesUuid" d
                            end) as H3.
  { clear Et1 Et2 Et4 Hrun. cbn [contains] in Epu. injection Epu as <-.
    unfold has_key in Et3. cbn [getitem contains bind] in Et3.
    unfold has_key in Et3.
    destruct (assoc "programmeUuid" d) as [u|].
    - injection Et3 as <-. apply assoc_set_eq.
    - destruct (assoc "seriesUuid" d) as [u|]; injection Et3 as <-;
        [apply assoc_set_eq|done]. }
  assert (assoc "uuid" t4 = assoc "uuid" t3) as H4.
  { destruct has_ps; run_inv; by lookup_simpl. }
  rewrite <- H3, <- H4.
  apply add_segments_inv in Hrun as [(_ & ->)|(_ & segs & sub & _ & _ & ->)];
    by lookup_simpl.
Qed.

End ItemFacts.

Lemma parse_item_uuid_witness :
  exists t,
    parse_item Sample.my
      (VDict [("id", VStr "s-1"); ("type", VStr "CATALOGUE/SERIES");
              ("attributes",
               VDict [("slug", VStr "/tv/s-1"); ("title", VStr "A show");
                      ("images", VList []); ("genres", VList []);
                      ("seriesUuid", VStr "u-series");
                      ("programmeUuid", VStr "u-programme")])]) = Ok t /\
    assoc "uuid" t = Some (VStr "u-programme").
Proof.
  pose (src := VDict [("id", VStr "s-1"); ("type", VStr "CATALOGUE/SERIES");
              ("attributes",
               VDict [("slug", VStr "/tv/s-1"); ("title", VStr "A show");
                      ("images", VList []); ("genres", VList []);
                      ("seriesUuid", VStr "u-series");
                      ("programmeUuid", VStr "u-programme")])]).
  pose (t := match parse_item Sample.my src with Ok t => t | Raise _ => [] end).
  assert (parse_item Sample.my src = Ok t) as Ht by (vm_compute; reflexivity).
  exists t. split; [exact Ht|].
  exact (parse_item_uuid Sample.my src t _ Ht eq_refl).
Defined.

Section DeviceIdFacts.

Context `{Collaborators}.

Lemma alphabet_alnum i :
  i < 62 -> exists c, String.get i alphabet = Some c /\ is_alnum c = true.
Proof.
  intros Hi.
  assert (forallb (fun i => match String.get i alphabet with
                            | Some c => is_alnum c
                            | None => false
                            end) (seq 0 62) = true) as Hall
    by (vm_compute; reflexivity).
  rewrite forallb_forall in Hall. specialize (Hall i).
  destruct (String.get i alphabet) as [c|].
  - exists c. split; [done|]. apply Hall, in_seq. lia.
  - exfalso. enough (false = true) by done. apply Hall, in_seq. lia.
Qed.

Lemma random_choice_alnum k :
  exists c, random_choice k alphabet = String c EmptyString /\ is_alnum c = true.
Proof.
  unfold random_choice.
  change (String.length alphabet) with 62.
  destruct (alphabet_alnum (random_index k 62 mod 62)) as (c & -> & Hc).
  { apply Nat.mod_upper_bound. lia. }
  by exists c.
Qed.

Lemma random_chars_format n k :
  String.length (random_chars n k) = n /\
  Forall (fun c => is_alnum c = true) (String.list_ascii_of_string (random_chars n k)).
Proof.
  revert k. induction n as [|n IH]; intros k; simpl; [by split|].
  destruct (random_choice_alnum k) as (c & -> & Hc).
  destruct (IH (S k)) as (Hlen & Hall). split.
  - simpl. by f_equal.
  - simpl. by constructor.
Qed.

(** X7: a new device identifier has exactly twenty characters, each an
    ASCII letter or digit, whatever the random source picks; making it
    takes twenty draws and changes nothing else. *)
Theorem create_device_id_format s w :
  exists id,
    create_device_id (s, w) =
      (Ok id, (s, World (files w) (clock w) (sent w) (draws w + 20))) /\
    String.length id = 20 /\
    Forall (fun c => is_alnum c = true) (String.list_ascii_of_string id).
Proof.
  exists (random_chars 20 (draws w)). split; [done|]. apply random_chars_format.
Qed.

End DeviceIdFacts.

Section DevicePersistence.

Context `{Collaborators}.

(** After the device identifier is set up, the rest of [__init__] leaves
    it and its file alone. *)
Lemma init_rest_keeps_device dir territory :
  preserves_if (fun s => pldir s = dir)
    (keeps dir ["device_id.conf"] device_id)
    (let! t := cookie_territory territory in
     load_localisation t ;; load_profile ;; load_profile_info ;; load_user_token ;;
     load_search ;; load_my_segments).
Proof.
  unfold cookie_territory, load_localisation, fetch_localisation, apply_localisation,
    load_profile, select_default_profile, load_profile_info, load_user_token,
    load_search, load_my_segments.
  repeat keeps_step.
Qed.

Lemma init_head_keeps_device dir :
  preserves_if (fun s => pldir s = dir)
    (keeps dir ["device_id.conf"] (fun _ => tt))
    (init_start ;; load_cookie).
Proof. unfold init_start, load_cookie. repeat keeps_step. Qed.

(** [# Load device_id] ends with a non-empty identifier that is both in
    the session and in the file. *)
Lemma load_device_id_result s w s' w' :
  load_device_id (s, w) = (Ok tt, (s', w')) ->
  pldir s' = pldir s /\
  exists id, id <> "" /\ device_id s' = VStr id /\
    content <$> files w' !! (pldir s +:+ "/device_id.conf") = Some id.
Proof.
  unfold load_device_id. exec. unfold Cache.stored.
  destruct (files w !! (pldir s +:+ "/device_id.conf")) as [[c tm]|] eqn:Efile.
  - cbn [content truthy]. destruct (String.eqb c "") eqn:Ec; cbn [negb].
    + apply String.eqb_eq in Ec as ->. unfold create_device_id. exec.
      intros [= <- <-]. split; [done|].
      exists (random_chars 20 (draws w)). split.
      { intros Heq. by destruct (random_chars_format 20 (draws w)) as (Hl & _);
          rewrite Heq in Hl. }
      split; [done|]. cbn [files]. by rewrite lookup_insert_eq.
    + rewrite run_set_self. intros [= <- <-]. split; [done|].
      exists c. split; [by apply String.eqb_neq|]. split; [done|].
      by rewrite Efile.
  - cbn [truthy]. unfold create_device_id. exec.
    intros [= <- <-]. split; [done|].
    exists (random_chars 20 (draws w)). split.
    { intros Heq. by destruct (random_chars_format 20 (draws w)) as (Hl & _);
        rewrite Heq in Hl. }
    split; [done|]. cbn [files]. by rewrite lookup_insert_eq.
Qed.

Lemma load_device_id_stored s w id :
  content <$> files w !! (pldir s +:+ "/device_id.conf") = Some id ->
  id <> "" ->
  load_device_id (s, w) = (Ok tt, (with_device_id (VStr id) s, w)).
Proof.
  intros Hfile Hid. unfold load_device_id. exec. unfold Cache.stored.
  destruct (files w !! (pldir s +:+ "/device_id.conf")) as [[c tm]|]; [|done].
  injection Hfile as ->. by rewrite truthy_str.
Qed.

Lemma init_device s w territory s' w' :
  init territory (s, w) = (Ok tt, (s', w')) ->
  pldir s' = pldir s /\
  exists id, id <> "" /\ device_id s' = VStr id /\
    content <$> files w' !! (pldir s +:+ "/device_id.conf") = Some id.
Proof.
  intros Hinit. unfold init in Hinit.
  apply mbind_M_inv in Hinit as ([] & [sa wa] & Hstart & Hinit).
  apply mbind_M_inv in Hinit as ([] & [sb wb] & Hcookie & Hinit).
  apply mbind_M_inv in Hinit as ([] & [sc wc] & Hdev & Hrest).
  assert (pldir sb = pldir s) as Hdir.
  { assert ((init_start ;; load_cookie) (s, w) = (Ok tt, (sb, wb))) as Hhead
      by (by rewrite (mbind_M_Ok _ _ _ _ _ Hstart)).
    by destruct (init_head_keeps_device (pldir s) s w _ _ eq_refl Hhead) as (? & _). }
  apply load_device_id_result in Hdev as (Hdirc & id & Hid & Hsess & Hfile).
  rewrite Hdir in Hdirc, Hfile.
  destruct (init_rest_keeps_device (pldir s) territory sc wc _ _ Hdirc Hrest)
    as (Hd & _ & Hproj & Hfiles & _).
  cbn [fst snd] in *. split; [congruence|].
  exists id. split; [done|]. split; [congruence|].
  change (pldir s +:+ "/device_id.conf") with (pldir s +:+ "/" +:+ "device_id.conf")
    in *.
  rewrite (Hfiles "device_id.conf"); [done|]. apply list_elem_of_here.
Qed.

(** X8: the device identifier survives a restart: a bootstrap that finds
    the identifier file left by an earlier bootstrap of the same
    platform ends with the same device identifier, and the file keeps
    it. *)
Theorem device_id_persists t1 t2 s w s1 w1 s2 w2 s3 w3 :
  init t1 (s, w) = (Ok tt, (s1, w1)) ->
  pldir s2 = pldir s1 ->
  files w2 !! (pldir s1 +:+ "/device_id.conf") =
    files w1 !! (pldir s1 +:+ "/device_id.conf") ->
  init t2 (s2, w2) = (Ok tt, (s3, w3)) ->
  device_id s3 = device_id s1 /\
  content <$> files w3 !! (pldir s1 +:+ "/device_id.conf") =
    content <$> files w1 !! (pldir s1 +:+ "/device_id.conf").
Proof.
  intros Hfirst Hdir Hsame Hsecond.
  apply init_device in Hfirst as (Hdir1 & id & Hid & Hsess & Hfile).
  rewrite <- Hdir1 in Hfile. rewrite Hsess, Hfile.
  unfold init in Hsecond.
  apply mbind_M_inv in Hsecond as ([] & [sa wa] & Hstart & Hinit).
  apply mbind_M_inv in Hinit as ([] & [sb wb] & Hcookie & Hinit).
  apply mbind_M_inv in Hinit as ([] & [sc wc] & Hdev & Hrest).
  assert ((init_start ;; load_cookie) (s2, w2) = (Ok tt, (sb, wb))) as Hhead
    by (by rewrite (mbind_M_Ok _ _ _ _ _ Hstart)).
  destruct (init_head_keeps_device (pldir s1) s2 w2 _ _ Hdir Hhead)
    as (Hdirb & _ & _ & Hfilesb & _).
  cbn [fst snd] in *.
  change (pldir s1 +:+ "/device_id.conf") with (pldir s1 +:+ "/" +:+ "device_id.conf")
    in *.
  specialize (Hfilesb "device_id.conf" (list_elem_of_here _ _)).
  rewrite load_device_id_stored with (id := id) in Hdev; [| |done].
  2: { rewrite Hdirb, Hdir.
       change (pldir s1 +:+ "/device_id.conf")
         with (pldir s1 +:+ "/" +:+ "device_id.conf").
       by rewrite Hfilesb, Hsame. }
  injection Hdev as <- <-.
  assert (pldir (with_device_id (VStr id) sb) = pldir s1) as Hdirc
    by (cbn; congruence).
  destruct (init_rest_keeps_device (pldir s1) t2 _ wb _ _ Hdirc Hrest)
    as (_ & _ & Hproj & Hfiles & _).
  cbn [fst snd] in *. split; [by rewrite Hproj|].
  rewrite (Hfiles "device_id.conf" (list_elem_of_here _ _)).
  by rewrite Hfilesb, Hsame.
Qed.

End DevicePersistence.

Lemma device_id_persists_witness :
  let C := Sample.collaborators Sample.token_reply Sample.login_failure in
  exists s1 w1 s3 w3,
    init (H:=C) VNone (Sample.start, Sample.empty_world) = (Ok tt, (s1, w1)) /\
    init (H:=C) (VStr "GB") (Sample.start, w1) = (Ok tt, (s3, w3)) /\
    device_id s3 = device_id s1.
Proof.
  intros C.
  pose (st1 := snd (init (H:=C) VNone (Sample.start, Sample.empty_world))).
  assert (init (H:=C) VNone (Sample.start, Sample.empty_world) =
          (Ok tt, (fst st1, snd st1))) as H1 by (vm_compute; reflexivity).
  pose (st3 := snd (init (H:=C) (VStr "GB") (Sample.start, snd st1))).
  assert (init (H:=C) (VStr "GB") (Sample.start, snd st1) =
          (Ok tt, (fst st3, snd st3))) as H3 by (vm_compute; reflexivity).
  assert (pldir Sample.start = pldir (fst st1)) as Hdir by (vm_compute; reflexivity).
  exists (fst st1), (snd st1), (fst st3), (snd st3).
  split; [exact H1|]. split; [exact H3|].
  exact (proj1 (device_id_persists (H:=C) VNone (VStr "GB") Sample.start
                  Sample.empty_world (fst st1) (snd st1) Sample.start (snd st1)
                  (fst st3) (snd st3) H1 Hdir eq_refl H3)).
Defined.

Section SegmentFacts.

Context `{Collaborators}.

#[global] Instance segments_grow_preorder : PreOrder segments_grow.
Proof.
  split.
  - intros st. unfold segments_grow. done.
  - intros st1 st2 st3. unfold segments_grow. by etrans.
Qed.

Lemma net_only_segments_grow {A} (m : M A) :
  preserves net_only m -> preserves segments_grow m.
Proof.
  intros Hm st r st' Hrun. destruct (Hm _ _ _ Hrun) as (Hs & _).
  unfold segments_grow. by rewrite Hs.
Qed.

Lemma set_world_segments_grow f : preserves segments_grow (set_world f).
Proof. intros [s w] r st' [= _ <-]. by unfold segments_grow. Qed.

Lemma create_device_id_segments_grow : preserves segments_grow create_device_id.
Proof. intros [s w] r st' [= _ <-]. by unfold segments_grow. Qed.

Lemma set_self_segments_grow g :
  (forall s, my_segments s `prefix_of` my_segments (g s)) ->
  preserves segments_grow (set_self g).
Proof. intros Hg [s w] r st' [= _ <-]. apply Hg. Qed.

Ltac grow_step :=
  first [ preserves_step
        | apply net_only_segments_grow, get_localisation_net_only
        | apply net_only_segments_grow, get_profiles_net_only
        | apply net_only_segments_grow, get_profile_info_net_only
        | apply net_only_segments_grow, get_tokens_net_only
        | apply net_only_segments_grow, get_me_net_only
        | apply create_device_id_segments_grow
        | apply set_world_segments_grow
        | progress unfold Cache.save_json, Cache.save_file
        | apply set_self_segments_grow; intros ?; cbn [my_segments with_my_segments];
          first [ done | by apply prefix_app_r ] ].

(** X9: a bootstrap never removes a segment from the account: the
    segments it loads are appended to those the account holds already,
    whether it ends normally or raises. *)
Theorem init_keeps_segments territory s w r s' w' :
  init territory (s, w) = (r, (s', w')) ->
  my_segments s `prefix_of` my_segments s'.
Proof.
  revert r. revert s w s' w'.
  enough (preserves segments_grow (init territory)) as Hp
    by (intros s w s' w' r Hrun; exact (Hp _ _ _ Hrun)).
  unfold init, init_start, load_cookie, load_device_id, cookie_territory,
    load_localisation, fetch_localisation, apply_localisation, load_profile,
    select_default_profile, load_profile_info, load_user_token, load_search,
    load_my_segments.
  repeat grow_step.
Qed.

End SegmentFacts.

Lemma init_keeps_segments_witness :
  let C := Sample.collaborators Sample.token_reply Sample.login_failure in
  exists s1 w1 s2 w2,
    init (H:=C) VNone (Sample.start, Sample.stored_world) = (Ok tt, (s1, w1)) /\
    init (H:=C) VNone (s1, w1) = (Ok tt, (s2, w2)) /\
    my_segments s1 = [VStr "Y"; VStr "Z"] /\
    my_segments s1 `prefix_of` my_segments s2.
Proof.
  intros C.
  pose (st1 := snd (init (H:=C) VNone (Sample.start, Sample.stored_world))).
  assert (init (H:=C) VNone (Sample.start, Sample.stored_world) =
          (Ok tt, (fst st1, snd st1))) as H1 by (vm_compute; reflexivity).
  pose (st2 := snd (init (H:=C) VNone (fst st1, snd st1))).
  assert (init (H:=C) VNone (fst st1, snd st1) =
          (Ok tt, (fst st2, snd st2))) as H2 by (vm_compute; reflexivity).
  assert (my_segments (fst st1) = [VStr "Y"; VStr "Z"]) as Hseg
    by (vm_compute; reflexivity).
  exists (fst st1), (snd st1), (fst st2), (snd st2).
  split; [exact H1|]. split; [exact H2|]. split; [exact Hseg|].
  exact (init_keeps_segments (H:=C) VNone _ _ _ _ _ H2).
Defined.

Section LogoutFacts.

Context `{Collaborators}.

(** Past [# Load cookie], [__init__] changes neither the login flag nor
    the account cookie. *)
Lemma init_tail_keeps_login dir territory :
  preserves_if (fun s => pldir s = dir)
    (keeps dir [] (fun s => (logged s, cookie s)))
    (load_device_id ;;
     let! t := cookie_territory territory in
     load_localisation t ;; load_profile ;; load_profile_info ;; load_user_token ;;
     load_search ;; load_my_segments).
Proof.
  unfold load_device_id, cookie_territory, load_localisation, fetch_localisation,
    apply_localisation, load_profile, select_default_profile, load_profile_info,
    load_user_token, load_search, load_my_segments.
  repeat keeps_step.
Qed.

(** X10: [delete_cookie] removes the cookie file and nothing else, and a
    bootstrap that finds no cookie file ends logged out; the account
    keeps whatever cookie it held before that bootstrap. *)
Theorem delete_cookie_logs_out s w :
  exists w1,
    delete_cookie (s, w) = (Ok tt, (s, w1)) /\
    files w1 !! (pldir s +:+ "/cookie.conf") = None /\
    (forall path, path <> pldir s +:+ "/cookie.conf" ->
                  files w1 !! path = files w !! path) /\
    forall territory s2 w2 s3 w3,
      pldir s2 = pldir s ->
      files w2 !! (pldir s +:+ "/cookie.conf") = None ->
      init territory (s2, w2) = (Ok tt, (s3, w3)) ->
      logged s3 = false /\ cookie s3 = cookie s2.
Proof.
  eexists. split; [|split; [|split]].
  - unfold delete_cookie, Cache.remove_file. exec. reflexivity.
  - cbn [files]. apply lookup_delete_eq.
  - intros path Hpath. cbn [files]. by rewrite lookup_delete_ne.
  - intros territory s2 w2 s3 w3 Hdir Hnone Hinit. unfold init in Hinit.
    apply mbind_M_inv in Hinit as ([] & [sa wa] & Hstart & Hinit).
    apply mbind_M_inv in Hinit as ([] & [sb wb] & Hcookie & Hrest).
    unfold init_start in Hstart. rewrite run_set_self in Hstart.
    injection Hstart as <- <-. cbn [fst snd] in Hcookie.
    unfold load_cookie in Hcookie. revert Hcookie. exec.
    cbn [pldir with_net_headers with_logged]. unfold Cache.stored.
    rewrite Hdir, Hnone. cbn [truthy]. rewrite run_ret. intros [= <- <-].
    match type of Hrest with
    | _ (?s0, _) = _ =>
        destruct (init_tail_keeps_login (pldir s) territory s0 w2 _ _ Hdir Hrest)
          as (_ & _ & Hproj & _)
    end.
    cbn [fst snd] in Hproj. by injection Hproj as -> ->.
Qed.

End LogoutFacts.

Lemma delete_cookie_logs_out_witness :
  let C := Sample.collaborators Sample.token_reply Sample.login_failure in
  exists w1 s3 w3,
    delete_cookie (Sample.logged_session, Sample.stored_world) =
      (Ok tt, (Sample.logged_session, w1)) /\
    files w1 !! "skyshowtime/device_id.conf" =
      files Sample.stored_world !! "skyshowtime/device_id.conf" /\
    init (H:=C) VNone (Sample.logged_session, w1) = (Ok tt, (s3, w3)) /\
    logged s3 = false /\
    cookie s3 = VStr "hterr=PL; skyCEsidismesso01=abc".
Proof.
  intros C.
  destruct (delete_cookie_logs_out Sample.logged_session Sample.stored_world)
    as (w1 & Hrun & Hgone & Hframe & Hnext).
  pose (w2 := snd (snd (delete_cookie (Sample.logged_session, Sample.stored_world)))).
  assert (w1 = w2) as -> by (unfold w2; by rewrite Hrun).
  pose (st3 := snd (init (H:=C) VNone (Sample.logged_session, w2))).
  assert (init (H:=C) VNone (Sample.logged_session, w2) =
          (Ok tt, (fst st3, snd st3))) as Hinit by (vm_compute; reflexivity).
  exists w2, (fst st3), (snd st3).
  split; [exact Hrun|].
  split; [apply Hframe; discriminate|].
  split; [exact Hinit|].
  exact (Hnext VNone Sample.logged_session w2 (fst st3) (snd st3) eq_refl Hgone Hinit).
Defined.

Section GuideIndex.

Import EPG.
Context `{Formatting}.

Lemma get_epg_items_each l ps :
  get_epg_items l = Ok ps <-> Forall2 (fun i p => get_epg_item i = Ok p) l ps.
Proof.
  revert ps. induction l as [|i l IH]; intros ps; simpl.
  - split; [intros [= <-]; constructor|intros Hf; by inversion Hf].
  - split.
    + intros Hrun. apply bind_Ok in Hrun as (p & Ep & Hrun).
      apply bind_Ok in Hrun as (r & Er & Hrun). injection Hrun as <-.
      constructor; [done|by apply IH].
    + intros Hf. inversion Hf as [|? p ? r Hp Hr]; subst.
      rewrite Hp. cbn [bind]. apply IH in Hr. by rewrite Hr.
Qed.

Lemma get_epg_fold_last guide (acc idx : gmap string (list program)) :
  foldM (fun res c =>
           let* l := get_epg_items (scheduleItems c) in
           Ok (<[serviceKey c := l]> res)) guide acc = Ok idx ->
  (forall k, Forall (fun c => serviceKey c <> k) guide -> idx !! k = acc !! k) /\
  (forall g1 c g2, guide = (g1 ++ c :: g2)%list ->
     Forall (fun c' => serviceKey c' <> serviceKey c) g2 ->
     exists l, idx !! serviceKey c = Some l /\
               get_epg_items (scheduleItems c) = Ok l).
Proof.
  revert acc. induction guide as [|c0 guide IH]; intros acc Hrun; simpl in Hrun.
  - injection Hrun as <-. split; [done|].
    intros g1 c g2 Hg. by destruct g1.
  - apply bind_Ok in Hrun as (acc1 & Hstep & Hrun).
    apply bind_Ok in Hstep as (l0 & El0 & Hstep). injection Hstep as <-.
    destruct (IH _ Hrun) as (Hother & Hlast). split.
    + intros k Hk. inversion Hk as [|? ? Hk0 Hk']; subst.
      rewrite Hother by done. by rewrite lookup_insert_ne.
    + intros g1 c g2 Hg Hg2. destruct g1 as [|c1 g1]; simpl in Hg.
      * injection Hg as -> ->. exists l0. split; [|done].
        rewrite Hother by done. apply lookup_insert_eq.
      * injection Hg as -> ->. by eapply Hlast.
Qed.

(** X11: the index that [get_epg] builds has exactly the service keys of
    the guide, and under a key it holds the schedule of the last channel
    with that key: one programme per schedule item, in the order of the
    guide. *)
Theorem get_epg_index guide idx :
  get_epg guide = Ok idx ->
  (forall k, is_Some (idx !! k) <-> exists c, c ∈ guide /\ serviceKey c = k) /\
  (forall g1 c g2, guide = (g1 ++ c :: g2)%list ->
     Forall (fun c' => serviceKey c' <> serviceKey c) g2 ->
     exists l, idx !! serviceKey c = Some l /\
               Forall2 (fun i p => get_epg_item i = Ok p) (scheduleItems c) l).
Proof.
  intros Hrun. unfold get_epg in Hrun.
  destruct (get_epg_fold_last _ _ _ Hrun) as (Hother & Hlast).
  destruct (get_epg_fold _ _ _ Hrun) as (Hin & _ & _). split.
  - intros k. split.
    + intros Hk.
      destruct (decide (Exists (fun c => serviceKey c = k) guide)) as [Hex|Hno].
      * apply Exists_exists in Hex as (c & Hc & Hkey). by exists c.
      * apply not_Exists_Forall in Hno; [|solve_decision].
        rewrite Hother in Hk by done. rewrite lookup_empty in Hk.
        by destruct Hk.
    + intros (c & Hc & <-). by apply Hin.
  - intros g1 c g2 Hg Hg2. destruct (Hlast _ _ _ Hg Hg2) as (l & Hl & Hitems).
    exists l. split; [done|]. by apply get_epg_items_each.
Qed.

End GuideIndex.

Lemma get_epg_index_witness :
  exists idx,
    EPG.get_epg (H:=Sample.formatting) Sample.guide = Ok idx /\
    (forall k, is_Some (idx !! k) <->
               exists c, c ∈ Sample.guide /\ EPG.serviceKey c = k).
Proof.
  pose (idx := match EPG.get_epg (H:=Sample.formatting) Sample.guide with
               | Ok m => m | Raise _ => ∅ end).
  assert (EPG.get_epg (H:=Sample.formatting) Sample.guide = Ok idx) as Hi
    by (vm_compute; reflexivity).
  exists idx. split; [exact Hi|].
  exact (proj1 (get_epg_index (H:=Sample.formatting) Sample.guide idx Hi)).
Defined.

Section GuideMerge.

Import EPG.
Context `{Formatting}.






End GuideMerge.


Section ReadOnly.

Context `{Formatting} `{Collaborators} `{Runtime}.

Lemma send_put_net_only r : preserves net_only (send_put r).
Proof.
  intros [s w] x st' [= _ <-]. repeat split; cbn. by apply prefix_app_r.
Qed.

Lemma send_delete_net_only r : preserves net_only (send_delete r).
Proof.
  intros [s w] x st' [= _ <-]. repeat split; cbn. by apply prefix_app_r.
Qed.

Lemma get_world_net_only : preserves net_only get_world.
Proof. intros st x st' [= _ <-]. reflexivity. Qed.

Ltac read_only :=
  repeat first [ preserves_step
               | apply send_data_net_only
               | apply send_post_net_only
               | apply send_put_net_only
               | apply send_delete_net_only
               | apply get_world_net_only ].

Lemma get_video_info_net_only slug : preserves net_only (get_video_info slug).
Proof. unfold get_video_info, load_data. read_only. Qed.

Lemma get_video_info_uuid_net_only uuid : preserves net_only (get_video_info_uuid uuid).
Proof. unfold get_video_info_uuid, load_data. read_only. Qed.

Lemma search_vod_loop_net_only l res : preserves net_only (search_vod_loop l res).
Proof.
  revert res. induction l as [|i l IH]; intros res; cbn [search_vod_loop].
  - read_only.
  - apply preserves_bind; [apply _|read_only|]. intros [|]; [|apply IH].
    apply preserves_bind; [apply _|read_only|]. intros u.
    apply preserves_bind; [apply _|apply get_video_info_uuid_net_only|].
    intros [t|]; [|apply IH]. destruct (truthy (VDict t)); apply IH.
Qed.

Lemma get_my_section_net_only slug : preserves net_only (get_my_section slug).
Proof. unfold get_my_section. read_only. Qed.

Lemma get_my_stuff_slug_net_only : preserves net_only get_my_stuff_slug.
Proof. unfold get_my_stuff_slug, load_data. read_only. Qed.

Lemma request_playback_tokens_net_only url pd ct pref :
  preserves net_only (request_playback_tokens url pd ct pref).
Proof. unfold request_playback_tokens. read_only. Qed.

(** X13: browsing, playback, watchlist, bookmark and device calls leave
    the session and every cached file as they were, and the clock and
    the random source untouched: all they do is send requests, whether
    they return or raise. *)
Theorem browsing_is_read_only :
  (forall slug, preserves net_only (get_catalog slug)) /\
  (forall slug, preserves net_only (get_series_info slug)) /\
  (forall slug, preserves net_only (get_seasons slug)) /\
  (forall slug, preserves net_only (get_episodes slug)) /\
  (forall slug, preserves net_only (get_video_info slug)) /\
  (forall uuid, preserves net_only (get_video_info_uuid uuid)) /\
  (forall term, preserves net_only (search_vod term)) /\
  preserves net_only get_my_list /\
  preserves net_only get_continue_watching /\
  (forall cid pv pref uhd hdcp,
     preserves net_only (get_playback_info cid pv pref uhd hdcp)) /\
  (forall key pref hdcp, preserves net_only (get_live_playback_info key pref hdcp)) /\
  (forall uuid slug action, preserves net_only (to_watchlist uuid slug action)) /\
  preserves net_only get_bookmarks /\
  (forall cid meta pos, preserves net_only (set_bookmark cid meta pos)) /\
  preserves net_only get_devices /\
  preserves net_only download_menu.
Proof.
  repeat match goal with |- _ /\ _ => split end; intros.
  - unfold get_catalog, load_data. read_only.
  - unfold get_series_info, load_data. read_only.
  - unfold get_seasons, get_series_info, load_data. read_only.
  - unfold get_episodes, get_series_info, load_data. read_only.
  - apply get_video_info_net_only.
  - apply get_video_info_uuid_net_only.
  - unfold search_vod, load_data.
    repeat first [ apply search_vod_loop_net_only | preserves_step
                 | apply send_data_net_only ].
  - unfold get_my_list.
    apply preserves_bind; [apply _|apply get_my_stuff_slug_net_only|].
    intros ?. apply get_my_section_net_only.
  - apply get_my_section_net_only.
  - unfold get_playback_info.
    repeat first [ apply request_playback_tokens_net_only | preserves_step ].
  - unfold get_live_playback_info.
    repeat first [ apply request_playback_tokens_net_only | preserves_step ].
  - unfold to_watchlist.
    repeat first [ apply get_video_info_net_only | preserves_step
                 | apply send_put_net_only | apply send_delete_net_only ].
  - unfold get_bookmarks. read_only.
  - unfold set_bookmark. read_only.
  - unfold get_devices. read_only.
  - unfold download_menu. read_only.
Qed.

End ReadOnly.

Section ItemIdentity.

Variable my : list pyval.

(** A parsed item carries the id of its source. *)
Lemma parse_item_id data t :
  parse_item my data = Ok t ->
  exists id, getitem data "id" = Ok id /\ assoc "id" t = Some id.
Proof.
  intros Hrun. unfold parse_item in Hrun.
  apply bind_Ok in Hrun as (att & Eatt & Hrun).
  apply bind_Ok in Hrun as (id & Eid & Hrun).
  apply bind_Ok in Hrun as (slug & Eslug & Hrun).
  apply bind_Ok in Hrun as (title & Etitle & Hrun).
  apply bind_Ok in Hrun as (a & Ea & Hrun).
  apply bind_Ok in Hrun as (g & Eg & Hrun).
  apply bind_Ok in Hrun as (ty & Ety & Hrun).
  apply bind_Ok in Hrun as (t1 & Et1 & Hrun).
  apply bind_Ok in Hrun as (t2 & Et2 & Hrun).
  apply bind_Ok in Hrun as (has_pu & Epu & Hrun).
  apply bind_Ok in Hrun as (t3 & Et3 & Hrun).
  apply bind_Ok in Hrun as (has_ps & Eps & Hrun).
  apply bind_Ok in Hrun as (t4 & Et4 & Hrun).
  exists id. split; [done|].
  assert (assoc "id" t1 = Some id) as H1.
  { clear Et2 Et3 Et4 Hrun.
    destruct (eq_str ty "CATALOGUE/SERIES");
      [|destruct (eq_str ty "CATALOGUE/SEASON");
        [|destruct (eq_str ty "ASSET/EPISODE");
          [|destruct (eq_str ty "ASSET/PROGRAMME")]]].
    all: run_inv; by lookup_simpl. }
  assert (assoc "id" t2 = Some id) as H2.
  { clear Et1 Et3 Et4 Hrun. destruct (in_strs ty playable_types); [|by run_inv].
    apply bind_Ok in Et2 as (plot & _ & Et2).
    apply bind_Ok in Et2 as (dur & _ & Et2).
    apply bind_Ok in Et2 as (mpaa & _ & Et2).
    apply bind_Ok in Et2 as (tf & Etf & Et2).
    apply bind_Ok in Et2 as (pv & _ & Et2). injection Et2 as <-.
    rewrite assoc_set_ne by done.
    rewrite (add_formats_frame _ _ _ "id" Etf) by done. by lookup_simpl. }
  assert (assoc "id" t3 = Some id) as H3.
  { clear Et1 Et2 Et4 Hrun. destruct has_pu; run_inv; lookup_simpl; done. }
  assert (assoc "id" t4 = Some id) as H4.
  { clear Et1 Et2 Et3 Hrun. destruct has_ps; run_inv; lookup_simpl; done. }
  apply add_segments_inv in Hrun as [(_ & ->)|(_ & segs & sub & _ & _ & ->)];
    by lookup_simpl.
Qed.

End ItemIdentity.

Section SearchFacts.

Context `{Formatting} `{Collaborators} `{Runtime}.

(** A lookup by uuid that returns has sent one request and changed
    nothing else; what it returns is never an empty item. *)
Lemma get_video_info_uuid_inv uuid s w t st' :
  get_video_info_uuid uuid (s, w) = (Ok t, st') ->
  (exists req, st' = (s, record req w)) /\
  (forall d, t = Some d -> truthy (VDict d) = true).
Proof.
  unfold get_video_info_uuid, load_data, send_data. intros Hrun.
  rewrite step_get_self in Hrun. cbn [fst snd] in Hrun.
  apply mbind_M_inv in Hrun as (data & st1 & Hsend & Hrun).
  injection Hsend as Hdata <-.
  apply mbind_M_inv in Hrun as (n & st2 & Hn & Hrun).
  injection Hn as Hn <-.
  destruct (0 <? n)%nat.
  - apply mbind_M_inv in Hrun as (d0 & st3 & Hd0 & Hrun). injection Hd0 as Hd0 <-.
    rewrite step_get_self in Hrun. cbn [fst snd] in Hrun.
    apply mbind_M_inv in Hrun as (d & st4 & Hd & Hrun). injection Hd as Hd <-.
    injection Hrun as <- <-. split; [eauto|].
    intros ? [= <-]. apply parse_item_id in Hd as (id & _ & Hid).
    by destruct d.
  - injection Hrun as <- <-. split; [eauto|]. by intros ? [=].
Qed.

Lemma search_vod_loop_inv l res s w res' st' :
  search_vod_loop l res (s, w) = (Ok res', st') ->
  exists w', st' = (s, w') /\
    length (sent w') = length (sent w) + length (List.filter has_uuid l) /\
    length res' <= length res + length (List.filter has_uuid l) /\
    files w' = files w.
Proof.
  revert res w. induction l as [|i l IH]; intros res w Hrun; cbn [search_vod_loop] in Hrun.
  - injection Hrun as <- <-. exists w. simpl.
    split; [done|]. rewrite !Nat.add_0_r. done.
  - apply mbind_M_inv in Hrun as (has & st1 & Hhas & Hrun).
    injection Hhas as Hhas <-.
    assert (has_uuid i = has) as Huu
      by (unfold has_uuid; rewrite Hhas; by destruct has).
    cbn [List.filter]. rewrite Huu. destruct has.
    + apply mbind_M_inv in Hrun as (u & st2 & Hu & Hrun). injection Hu as Hu <-.
      apply mbind_M_inv in Hrun as (t & st3 & Ht & Hrun).
      apply get_video_info_uuid_inv in Ht as ((req & ->) & Htruthy).
      assert (exists res1, length res1 <= S (length res) /\
                search_vod_loop l res1 (s, record req w) = (Ok res', st'))
        as (res1 & Hlen & Hloop).
      { destruct t as [d|].
        - rewrite (Htruthy d eq_refl) in Hrun. eexists. split; [|exact Hrun].
          rewrite length_app. simpl. lia.
        - exists res. split; [lia|done]. }
      apply IH in Hloop as (w' & -> & Hsent & Hres & Hfiles).
      exists w'. split; [done|]. cbn [record sent files length] in *.
      rewrite length_app in Hsent. simpl in Hsent.
      split; [lia|]. split; [lia|done].
    + apply IH in Hrun as (w' & -> & Hsent & Hres & Hfiles).
      exists w'. split; [done|]. split; [lia|]. split; [lia|done].
Qed.

(** X14: when the reply to a title search has [results], [search_vod]
    looks up every result that carries a [uuid], one request each and in
    order, and no other: it sends one request more than there are such
    results, and returns at most as many items; without [results] it
    returns [None] after the one request. *)
Theorem search_vod_lookups term s w r s' w' :
  search_vod term (s, w) = (Ok r, (s', w')) ->
  s' = s /\ files w' = files w /\
  exists req data,
    net_data (sent w) req = Ok data /\
    match r with
    | None => contains "results" data = Ok false /\ sent w' = (sent w ++ [req])%list
    | Some res =>
        exists l, (let* x := getitem data "results" in iter x) = Ok l /\
          length (sent w') = S (length (sent w)) + length (List.filter has_uuid l) /\
          length res <= length (List.filter has_uuid l)
    end.
Proof.
  unfold search_vod, load_data, send_data. intros Hrun.
  rewrite step_get_self in Hrun. cbn [fst snd] in Hrun.
  apply mbind_M_inv in Hrun as (data & st1 & Hsend & Hrun).
  injection Hsend as Hdata <-.
  apply mbind_M_inv in Hrun as (has & st2 & Hhas & Hrun).
  injection Hhas as Hhas <-. destruct has; cbn [negb] in Hrun.
  - apply mbind_M_inv in Hrun as (l & st3 & Hl & Hrun). injection Hl as Hl <-.
    apply mbind_M_inv in Hrun as (res & st4 & Hloop & Hrun).
    injection Hrun as <- ->.
    apply search_vod_loop_inv in Hloop as (w1 & [= <-] & Hsent & Hres & Hfiles).
    subst w1. split; [done|]. split; [exact Hfiles|]. eexists _, data. split; [exact Hdata|].
    exists l. split; [done|]. cbn [record sent] in Hsent.
    rewrite length_app in Hsent. simpl in *. split; lia.
  - injection Hrun as <- <- <-. split; [done|]. split; [done|].
    eexists _, data. split; [exact Hdata|]. by split.
Qed.

End SearchFacts.

Section PlaybackFacts.

Context `{Collaborators} `{Runtime}.

Lemma pick_manifest_preferred pref l1 i l2 c u m0 r :
  Forall (other_server pref) l1 ->
  getitem i "cdn" = Ok (VStr c) ->
  str_lower c = str_lower pref ->
  getitem i "url" = Ok u ->
  pick_manifest pref (l1 ++ i :: l2) m0 = Ok r ->
  r = u.
Proof.
  intros Hl1 Hcdn Hlow Hurl. revert m0.
  induction Hl1 as [|j l1 Hj Hl1 IH]; intros m0 Hrun; cbn [app pick_manifest] in Hrun.
  - apply bind_Ok in Hrun as (m1 & _ & Hrun). rewrite Hcdn in Hrun. cbn [bind] in Hrun.
    rewrite Hlow, String.eqb_refl, Hurl in Hrun. by injection Hrun.
  - apply bind_Ok in Hrun as (m1 & _ & Hrun).
    apply bind_Ok in Hrun as (cdn & Ecdn & Hrun).
    destruct cdn as [| | | |cj| |]; try discriminate.
    destruct (String.eqb (str_lower cj) (str_lower pref)) eqn:Eeq.
    + apply String.eqb_eq in Eeq. by destruct (Hj cj Ecdn).
    + by eapply IH.
Qed.

Lemma pick_manifest_no_match pref l m r :
  Forall (other_server pref) l ->
  truthy m = true ->
  pick_manifest pref l m = Ok r ->
  r = m.
Proof.
  intros Hl Hm. induction Hl as [|j l Hj Hl IH]; intros Hrun; cbn [pick_manifest] in Hrun.
  - by injection Hrun.
  - rewrite Hm in Hrun. cbn [negb bind] in Hrun.
    apply bind_Ok in Hrun as (cdn & Ecdn & Hrun).
    destruct cdn as [| | | |cj| |]; try discriminate.
    destruct (String.eqb (str_lower cj) (str_lower pref)) eqn:Eeq.
    + apply String.eqb_eq in Eeq. by destruct (Hj cj Ecdn).
    + by apply IH.
Qed.

Lemma pick_manifest_first pref i l u r :
  Forall (other_server pref) (i :: l) ->
  getitem i "url" = Ok u ->
  truthy u = true ->
  pick_manifest pref (i :: l) VNone = Ok r ->
  r = u.
Proof.
  intros Hl Hurl Hu Hrun. cbn [pick_manifest truthy negb] in Hrun.
  rewrite Hurl in Hrun. cbn [bind] in Hrun.
  apply bind_Ok in Hrun as (cdn & Ecdn & Hrun).
  inversion Hl as [|? ? Hi Hl']; subst.
  destruct cdn as [| | | |cj| |]; try discriminate.
  destruct (String.eqb (str_lower cj) (str_lower pref)) eqn:Eeq.
  - apply String.eqb_eq in Eeq. by destruct (Hi cj Ecdn).
  - by eapply pick_manifest_no_match.
Qed.

(** A call that returns has parsed the reply and built its result from
    it. *)
Lemma request_playback_tokens_inv url pd ct pref s w res st' :
  request_playback_tokens url pd ct pref (s, w) = (Ok res, st') ->
  exists req r data,
    st' = (s, record req w) /\
    net_post (sent w) req = Ok r /\
    json_loads (resp_content r) = Ok data /\
    playback_result (platform_name s) pref data = Ok res.
Proof.
  unfold request_playback_tokens, send_post. intros Hrun.
  rewrite step_get_self in Hrun. cbn [fst snd] in Hrun.
  apply mbind_M_inv in Hrun as (sig & st1 & Hsig & Hrun). injection Hsig as Hsig <-.
  apply mbind_M_inv in Hrun as (r & st2 & Hpost & Hrun). injection Hpost as Hpost <-.
  apply mbind_M_inv in Hrun as (data & st3 & Hdata & Hrun). injection Hdata as Hdata <-.
  rewrite step_get_self in Hrun. cbn [fst snd] in Hrun.
  injection Hrun as Hres <-. eauto 10.
Qed.

(** X15: the manifest that [request_playback_tokens] returns is the URL
    of the first endpoint on the preferred server, compared without
    regard to case, wherever that endpoint stands; when no endpoint is
    on it, it is the URL of the first endpoint. On SkyShowtime the track
    options are appended to it. *)
Theorem playback_manifest url pd ct pref s w res st' :
  request_playback_tokens url pd ct pref (s, w) = (Ok res, st') ->
  exists data,
    assoc "response" res = Some data /\
    forall l u,
      (let* a := getitem data "asset" in
       let* e := getitem a "endpoints" in
       iter e) = Ok l ->
      u <> "" ->
      (exists l1 i l2 c,
         l = (l1 ++ i :: l2)%list /\ Forall (other_server pref) l1 /\
         getitem i "cdn" = Ok (VStr c) /\ str_lower c = str_lower pref /\
         getitem i "url" = Ok (VStr u)) \/
      (exists i l',
         l = i :: l' /\ Forall (other_server pref) l /\
         getitem i "url" = Ok (VStr u)) ->
      assoc "manifest_url" res =
        Some (VStr (if String.eqb (platform_name s) "SkyShowtime"
                    then u +:+ manifest_options else u)).
Proof.
  intros Hrun.
  apply request_playback_tokens_inv in Hrun as (req & r & data & _ & _ & _ & Hres).
  exists data. unfold playback_result in Hres.
  apply bind_Ok in Hres as (has_asset & Easset & Hres).
  apply bind_Ok in Hres as (res1 & Eres1 & Hres).
  apply bind_Ok in Hres as (has_prot & Eprot & Hres).
  assert (assoc "response" res = assoc "response" res1 /\
          assoc "manifest_url" res = assoc "manifest_url" res1) as (Hresp & Hman).
  { destruct has_prot; run_inv; by lookup_simpl. }
  rewrite Hresp, Hman. clear Hres Hresp Hman. split.
  - destruct has_asset; run_inv; by lookup_simpl.
  - intros l u Hl Hu Hcase.
    apply bind_Ok in Hl as (a & Ea & Hl).
    apply getitem_contains in Ea as Hhas. rewrite Hhas in Easset.
    injection Easset as <-. rewrite Ea in Eres1. cbn [bind] in Eres1.
    rewrite Hl in Eres1. cbn [bind] in Eres1.
    apply bind_Ok in Eres1 as (m & Em & Eres1).
    assert (m = VStr u) as ->.
    { destruct Hcase as [(l1 & i & l2 & c & -> & Hl1 & Hcdn & Hlow & Hurl)
                        |(i & l' & -> & Hall & Hurl)].
      - by eapply pick_manifest_preferred.
      - eapply pick_manifest_first; [done|done| |done]. by apply truthy_str. }
    rewrite (truthy_str u Hu) in Eres1. cbn [andb] in Eres1.
    destruct (String.eqb (platform_name s) "SkyShowtime").
    + apply bind_Ok in Eres1 as (m' & Em' & Eres1). cbn in Em'.
      injection Em' as <-. by injection Eres1 as <-.
    + cbn [bind] in Eres1. by injection Eres1 as <-.
Qed.

End PlaybackFacts.

Section PathFrames.

Context `{Collaborators}.
Context {X : Type} (path : string) (proj : session -> X).
Hypothesis top_level : has_slash path = false.

#[global] Instance keeps_path_preorder : PreOrder (keeps_path path proj).
Proof.
  split.
  - intros st. by split.
  - intros st1 st2 st3 [Hp1 Hf1] [Hp2 Hf2]. split; congruence.
Qed.

Lemma has_slash_app_r p q : has_slash q = true -> has_slash (p +:+ q) = true.
Proof.
  intros Hq. induction p as [|c p IH]; simpl; [done|].
  by rewrite IH, orb_true_r.
Qed.

Lemma net_only_keeps_path {A} (m : M A) :
  preserves net_only m -> preserves (keeps_path path proj) m.
Proof.
  intros Hm st r st' Hrun. destruct (Hm _ _ _ Hrun) as (Hs & Hf & _).
  split; [by rewrite Hs|by rewrite Hf].
Qed.

Lemma set_self_keeps_path g :
  (forall s, proj (g s) = proj s) -> preserves (keeps_path path proj) (set_self g).
Proof. intros Hg [s w] r st' [= _ <-]. split; [apply Hg|done]. Qed.

Lemma create_device_id_keeps_path : preserves (keeps_path path proj) create_device_id.
Proof. intros [s w] r st' [= _ <-]. by split. Qed.

Lemma save_file_keeps_path dir name data :
  has_slash name = true ->
  preserves (keeps_path path proj) (Cache.save_file (dir +:+ name) data).
Proof.
  intros Hname [s w] r st' [= _ <-]. split; [done|]. cbn [snd files].
  apply lookup_insert_ne. intros Heq.
  rewrite <- Heq, has_slash_app_r in top_level; done.
Qed.

End PathFrames.

Ltac path_step :=
  match goal with
  | |- preserves _ (Cache.save_json _ _) => unfold Cache.save_json
  | |- preserves _ (Cache.save_file _ _) => by apply save_file_keeps_path
  | |- preserves _ (set_self _) => apply set_self_keeps_path; by intros ?
  | |- preserves _ create_device_id => apply create_device_id_keeps_path
  | |- preserves _ get_localisation =>
      apply net_only_keeps_path, get_localisation_net_only
  | |- preserves _ get_profiles => apply net_only_keeps_path, get_profiles_net_only
  | |- preserves _ (get_profile_info _) =>
      apply net_only_keeps_path, get_profile_info_net_only
  | |- preserves _ get_tokens => apply net_only_keeps_path, get_tokens_net_only
  | |- preserves _ get_me => apply net_only_keeps_path, get_me_net_only
  | _ => preserves_step
  end.

Section SearchListFacts.

Context `{Collaborators}.

(** Up to [# Search], [__init__] leaves the stored searches alone. *)
Lemma init_prefix_keeps_searches territory :
  preserves (keeps_path "searchs.json" (fun _ => tt))
    (init_start ;; load_cookie ;; load_device_id ;;
     let! t := cookie_territory territory in
     load_localisation t ;; load_profile ;; load_profile_info ;; load_user_token).
Proof.
  unfold init_start, load_cookie, load_device_id, cookie_territory,
    load_localisation, fetch_localisation, apply_localisation, load_profile,
    select_default_profile, load_profile_info, load_user_token.
  repeat path_step.
Qed.

(** [# Load my segments] leaves the search list alone. *)
Lemma load_my_segments_keeps_searches :
  preserves (keeps_path "searchs.json" search_list) load_my_segments.
Proof. unfold load_my_segments. repeat path_step. Qed.

Lemma init_split_searches territory st :
  init territory st =
  mbind_M (init_start ;; load_cookie ;; load_device_id ;;
           let! t := cookie_territory territory in
           load_localisation t ;; load_profile ;; load_profile_info ;;
           load_user_token)
          (fun _ => load_search ;; load_my_segments) st.
Proof.
  unfold init. repeat rewrite step_assoc.
  repeat (apply mbind_M_ext; intros ? ?; repeat rewrite step_assoc).
  reflexivity.
Qed.

(** A bootstrap reads the search list from the stored searches. *)
Lemma init_search_list territory s w s' w' c l :
  files w !! "searchs.json" = Some c ->
  content c <> "" ->
  json_loads (content c) = Ok l ->
  init territory (s, w) = (Ok tt, (s', w')) ->
  search_list s' = l.
Proof.
  intros Hfile Hne Hloads Hinit. rewrite init_split_searches in Hinit.
  apply mbind_M_inv in Hinit as ([] & [s1 w1] & Hprefix & Hinit).
  apply init_prefix_keeps_searches in Hprefix as [_ Hkeep]. cbn [fst snd] in Hkeep.
  apply mbind_M_inv in Hinit as ([] & [s2 w2] & Hsearch & Hseg).
  apply load_my_segments_keeps_searches in Hseg as [Hlist _]. cbn [fst snd] in Hlist.
  rewrite Hlist. revert Hsearch. unfold load_search. exec.
  unfold Cache.stored. rewrite Hkeep, Hfile. rewrite truthy_str by done.
  unfold loads. rewrite Hloads. exec. by intros [= <- _].
Qed.

(** X16: a search term added with [add_search] is appended to the search
    list and stored with it, no other file changes, and a later
    bootstrap that finds the stored list starts with the term in its
    search list. *)
Theorem add_search_persists term s w l :
  search_list s = VList l ->
  exists s' w',
    add_search term (s, w) = (Ok tt, (s', w')) /\
    search_list s' = VList (l ++ [term]) /\
    files w' !! "searchs.json" =
      Some (File (json_dumps (VList (l ++ [term]))) (clock w)) /\
    (forall path, path <> "searchs.json" -> files w' !! path = files w !! path) /\
    forall territory s2 w2 s3 w3,
      files w2 !! "searchs.json" = files w' !! "searchs.json" ->
      json_dumps (VList (l ++ [term])) <> "" ->
      json_loads (json_dumps (VList (l ++ [term]))) = Ok (VList (l ++ [term])) ->
      init territory (s2, w2) = (Ok tt, (s3, w3)) ->
      search_list s3 = VList (l ++ [term]).
Proof.
  intros Hl. eexists _, _. split; [|split; [|split; [|split]]].
  - unfold add_search. exec. rewrite Hl. exec. reflexivity.
  - done.
  - cbn [files search_list with_search_list]. apply lookup_insert_eq.
  - intros path Hpath. cbn [files]. by rewrite lookup_insert_ne.
  - intros territory s2 w2 s3 w3 Hsame Hne Hround Hinit.
    cbn [files search_list with_search_list] in Hsame.
    rewrite lookup_insert_eq in Hsame.
    by eapply init_search_list.
Qed.

(** X17: [delete_search] drops every entry of the search list that equals
    the term, keeps the others in their order and stores the new list;
    it undoes an [add_search] of a term that was not in the list. *)
Theorem delete_search_effect term s w l :
  search_list s = VList l ->
  exists s' w' l',
    delete_search term (s, w) = (Ok tt, (s', w')) /\
    search_list s' = VList l' /\
    Forall (fun x => py_eq x term = false) l' /\
    (forall x, x ∈ l -> py_eq x term = false -> x ∈ l') /\
    l' `sublist_of` l /\
    files w' !! "searchs.json" = Some (File (json_dumps (VList l')) (clock w)) /\
    (forall l0 s0 w0 s1 w1,
       search_list s0 = VList l0 ->
       Forall (fun x => py_eq x term = false) l0 ->
       py_eq term term = true ->
       add_search term (s0, w0) = (Ok tt, (s1, w1)) ->
       exists s2 w2, delete_search term (s1, w1) = (Ok tt, (s2, w2)) /\
                     search_list s2 = VList l0).
Proof.
  intros Hl.
  exists (with_search_list (VList (List.filter (fun x => negb (py_eq x term)) l)) s).
  eexists. exists (List.filter (fun x => negb (py_eq x term)) l).
  split; [|split; [|split; [|split; [|split; [|split]]]]].
  - unfold delete_search. exec. rewrite Hl. cbn [iter]. exec. reflexivity.
  - done.
  - apply Forall_forall. intros x Hx. apply list_elem_of_In, filter_In in Hx as [_ Hx].
    by apply negb_true_iff.
  - intros x Hx Hne. apply list_elem_of_In, filter_In. split; [by apply list_elem_of_In|].
    by rewrite Hne.
  - clear. induction l as [|x l IH]; simpl; [done|].
    destruct (negb (py_eq x term)); [by apply sublist_skip|by apply sublist_cons].
  - cbn [files search_list with_search_list]. apply lookup_insert_eq.
  - intros l0 s0 w0 s1 w1 Hl0 Hfresh Hrefl Hadd.
    revert Hadd. unfold add_search. exec. rewrite Hl0. exec. intros [= <- <-].
    eexists _, _. split.
    + unfold delete_search. exec. cbn [search_list with_search_list iter]. exec.
      reflexivity.
    + cbn [search_list with_search_list]. f_equal.
      rewrite List.filter_app. simpl. rewrite Hrefl. simpl. rewrite app_nil_r.
      clear -Hfresh. induction Hfresh as [|x l0 Hx Hl0 IH]; simpl; [done|].
      by rewrite Hx, IH.
Qed.

End SearchListFacts.

Section MenuFacts.

Context `{Formatting} `{Collaborators} `{Runtime}.

Lemma stored_fresh_forever key w c :
  files w !! key = Some c -> Cache.stored_fresh key 0 w = VStr (content c).
Proof. intros Hc. unfold Cache.stored_fresh, Cache.fresh. by rewrite Hc. Qed.

(** X18: when no menu is stored, [get_main_menu] downloads it with one
    request that names the device as a computer, and stores the reply;
    from then on, at any later time and for the same kind of profile, it
    returns the same entries from the stored menu without a request. *)
Theorem main_menu_cached s w res s1 w1 :
  cache_miss (pldir s +:+ "/menu.json") 0 w ->
  get_main_menu (s, w) = (Ok res, (s1, w1)) ->
  exists req d,
    net_data (sent w) req = Ok d /\
    assoc "x-skyott-device" (req_headers req) = Some (VStr "COMPUTER") /\
    assoc "x-skyott-platform" (req_headers req) = Some (VStr "PC") /\
    s1 = s /\ sent w1 = (sent w ++ [req])%list /\
    files w1 !! (pldir s +:+ "/menu.json") = Some (File (json_dumps d) (clock w)) /\
    forall s2 w2,
      pldir s2 = pldir s ->
      profile_type s2 = profile_type s ->
      files w2 !! (pldir s +:+ "/menu.json") = files w1 !! (pldir s +:+ "/menu.json") ->
      json_dumps d <> "" ->
      json_loads (json_dumps d) = Ok d ->
      get_main_menu (s2, w2) = (Ok res, (s2, w2)).
Proof.
  intros Hmiss Hrun. unfold cache_miss in Hmiss.
  unfold get_main_menu in Hrun. revert Hrun. exec. rewrite Hmiss.
  unfold download_menu, send_data. exec. intros Hrun.
  apply mbind_M_inv in Hrun as (d & st1 & Hsend & Hrun).
  injection Hsend as Hd <-. revert Hrun. exec. intros [= Hres <- <-].
  eexists _, d. split; [exact Hd|].
  split; [cbn [req_headers]; by lookup_simpl|].
  split; [cbn [req_headers]; by lookup_simpl|].
  split; [done|]. split; [done|].
  split; [cbn [files]; apply lookup_insert_eq|].
  intros s2 w2 Hdir Htype Hsame Hne Hround.
  cbn [files record] in Hsame. rewrite lookup_insert_eq in Hsame.
  unfold get_main_menu. exec. rewrite Hdir.
  rewrite (stored_fresh_forever _ _ _ Hsame). cbn [content].
  rewrite truthy_str by done. unfold loads. rewrite Hround. exec.
  by rewrite Htype, Hres.
Qed.

End MenuFacts.

Section WatchlistFacts.

Context `{Formatting} `{Collaborators} `{Runtime}.

(** X19: [to_watchlist] sends a PUT for the action ['add'] and a DELETE
    for any other action. When it returns, either the reply had status
    201 and the result is [(201, '')], or the body of the reply parsed
    as JSON, and the result is its error code and description when it
    has an [errorCode] and the status with [''] otherwise: a reply with
    another status and a body that does not parse makes it raise. *)
Theorem to_watchlist_outcome uuid slug action s w code descr st' :
  to_watchlist uuid slug action (s, w) = (Ok (code, descr), st') ->
  exists pre req r,
    sent (snd st') = (pre ++ [req])%list /\
    method req = (if py_eq action (VStr "add") then "PUT" else "DELETE") /\
    (if py_eq action (VStr "add") then net_put else net_delete) pre req = Ok r /\
    ((status_code r = 201%Z /\ code = VInt 201 /\ descr = VStr "") \/
     (status_code r <> 201%Z /\
      exists data,
        json_loads (resp_content r) = Ok data /\
        ((contains "errorCode" data = Ok true /\
          getitem data "errorCode" = Ok code /\
          getitem data "description" = Ok descr) \/
         (contains "errorCode" data = Ok false /\
          code = VInt (status_code r) /\ descr = VStr "")))).
Proof.
  unfold to_watchlist. intros Hrun.
  apply mbind_M_inv in Hrun as (uuid' & [s1 w1] & _ & Hrun).
  rewrite step_get_self in Hrun. cbn [fst snd] in Hrun.
  apply mbind_M_inv in Hrun as (sig & st2 & Hsig & Hrun). injection Hsig as Hsig <-.
  apply mbind_M_inv in Hrun as (r & st3 & Hsend & Hrun).
  assert (exists req,
            st3 = (s1, record req w1) /\
            method req = (if py_eq action (VStr "add") then "PUT" else "DELETE") /\
            (if py_eq action (VStr "add") then net_put else net_delete)
              (sent w1) req = Ok r) as (req & -> & Hmethod & Hreply).
  { destruct (py_eq action (VStr "add")); cbn [String.eqb Ascii.eqb Bool.eqb] in Hsend;
      injection Hsend as Hr <-; eauto. }
  exists (sent w1), req, r.
  destruct (Z.eqb_spec (status_code r) 201) as [H201|H201]; cbn [negb] in Hrun.
  - injection Hrun as <- <- <-. rewrite H201. split; [done|]. split; [done|].
    split; [done|]. by left.
  - apply mbind_M_inv in Hrun as (data & st4 & Hdata & Hrun).
    injection Hdata as Hdata <-.
    apply mbind_M_inv in Hrun as (has & st5 & Hhas & Hrun).
    injection Hhas as Hhas <-. destruct has.
    + apply mbind_M_inv in Hrun as (c & st6 & Hc & Hrun). injection Hc as Hc <-.
      apply mbind_M_inv in Hrun as (d & st7 & Hd & Hrun). injection Hd as Hd <-.
      injection Hrun as <- <- <-. split; [done|]. split; [done|]. split; [done|].
      right. split; [done|]. exists data. split; [done|]. by left.
    + injection Hrun as <- <- <-. split; [done|]. split; [done|]. split; [done|].
      right. split; [done|]. exists data. split; [done|]. by right.
Qed.

End WatchlistFacts.

Section DeviceListFacts.

Context `{Formatting} `{Collaborators} `{Runtime}.

Lemma get_devices_body_entry res d res' :
  get_devices_body res d = Ok res' ->
  exists dev, res' = (res ++ [dev])%list /\ device_entry d dev.
Proof.
  unfold get_devices_body. intros Hrun.
  apply bind_Ok in Hrun as (id & Eid & Hrun).
  apply bind_Ok in Hrun as (descr & Edescr & Hrun).
  apply bind_Ok in Hrun as (signin & Esignin & Hrun).
  apply bind_Ok in Hrun as (date & Edate & Hrun).
  apply bind_Ok in Hrun as (alias & Ealias & Hrun).
  apply bind_Ok in Hrun as (ty & Ety & Hrun).
  apply bind_Ok in Hrun as (has & Ehas & Hrun).
  apply bind_Ok in Hrun as (dev & Edev & Hrun). injection Hrun as <-.
  destruct (getitem_is_dict _ _ _ Eid) as [dd ->].
  apply getitem_dict in Eid, Edescr, Ealias, Ety.
  cbn [get_or] in Esignin. injection Esignin as Esignin.
  cbn [contains] in Ehas. injection Ehas as Ehas.
  apply bind_Ok in Edate as (secs & Esecs & _).
  rewrite item_set_eq in Esecs. unfold truediv in Esecs.
  exists (VDict dev). split; [done|].
  exists dd, dev, signin, alias.
  split; [done|]. split; [done|].
  assert (is_Some (as_number signin)) as Hnum
    by (destruct (as_number signin); [eauto|discriminate]).
  assert (assoc "location" dd = if has then assoc "location" dd else None) as Hloc.
  { destruct has; [done|]. by apply has_key_false. }
  rewrite Hloc, Eid, Edescr, Ety. clear Hloc.
  destruct has; run_inv;
    try match goal with E : getitem (VDict _) "location" = Ok _ |- _ =>
          apply getitem_dict in E; rewrite E end;
    repeat match goal with |- _ /\ _ => split end; done.
Qed.

Lemma get_devices_fold l acc res :
  foldM get_devices_body l acc = Ok res ->
  exists devs, res = (acc ++ devs)%list /\ Forall2 device_entry l devs.
Proof.
  revert acc. induction l as [|d l IH]; intros acc Hrun; simpl in Hrun.
  - injection Hrun as <-. exists []. split; [by rewrite app_nil_r|constructor].
  - apply bind_Ok in Hrun as (acc1 & Hbody & Hrun).
    apply get_devices_body_entry in Hbody as (dev & -> & Hdev).
    apply IH in Hrun as (devs & -> & Hdevs).
    exists (dev :: devs). split; [by rewrite <- app_assoc|by constructor].
Qed.

(** X20: when [get_devices] returns, it has sent one request with the
    account cookie and returns one entry for every device of the reply,
    in order: with the sign-in time of the device, or 0 when the device
    has none, always a number (a [null] sign-in time makes it raise);
    with the alias of the device, or [''] when that is empty; and with a
    location exactly when the device has one. Without [devices] in the
    reply it returns no entry. *)
Theorem get_devices_entries s w res st' :
  get_devices (s, w) = (Ok res, st') ->
  exists req data,
    st' = (s, record req w) /\
    net_data (sent w) req = Ok data /\
    assoc "cookie" (req_headers req) = Some (cookie s) /\
    (contains "devices" data = Ok false -> res = []) /\
    (forall ds, getitem data "devices" = Ok (VList ds) ->
                Forall2 device_entry ds res).
Proof.
  unfold get_devices, send_data. intros Hrun.
  rewrite step_get_self in Hrun. cbn [fst snd] in Hrun.
  apply mbind_M_inv in Hrun as (data & st1 & Hsend & Hrun). injection Hsend as Hdata <-.
  apply mbind_M_inv in Hrun as (has & st2 & Hhas & Hrun). injection Hhas as Hhas <-.
  eexists _, data. split; [|split; [exact Hdata|split; [apply assoc_set_eq|]]].
  - destruct has; [|by injection Hrun as _ <-].
    apply mbind_M_inv in Hrun as (l & st3 & Hl & Hrun). injection Hl as _ <-.
    by injection Hrun as _ <-.
  - destruct has.
    + split; [by rewrite Hhas|]. intros ds Hds.
      apply mbind_M_inv in Hrun as (l & st3 & Hl & Hrun). injection Hl as Hl <-.
      rewrite Hds in Hl. cbn [bind iter] in Hl. injection Hl as <-.
      injection Hrun as Hfold _.
      apply get_devices_fold in Hfold as (devs & -> & Hdevs). done.
    + injection Hrun as <- _. split; [done|]. intros ds Hds.
      apply getitem_contains in Hds. rewrite Hds in Hhas. discriminate.
Qed.

End DeviceListFacts.

Section GuideCacheFacts.

Context `{Formatting} `{Collaborators} `{Runtime}.

(** X21: a guide that [download_epg] fetched is stored under a name that
    does not depend on the platform, and for sixty seconds any session,
    of either platform, gets that guide back from the cache without a
    request. *)
Theorem download_epg_cached s w d s1 w1 :
  cache_miss "cache/epg.json" 60 w ->
  download_epg (s, w) = (Ok d, (s1, w1)) ->
  s1 = s /\
  (exists req, sent w1 = (sent w ++ [req])%list /\ net_data (sent w) req = Ok d) /\
  files w1 !! "cache/epg.json" = Some (File (json_dumps d) (clock w)) /\
  forall s2 w2,
    files w2 !! "cache/epg.json" = files w1 !! "cache/epg.json" ->
    (clock w2 - clock w < 60)%Q ->
    json_dumps d <> "" ->
    json_loads (json_dumps d) = Ok d ->
    download_epg (s2, w2) = (Ok d, (s2, w2)).
Proof.
  intros Hmiss Hrun. unfold cache_miss in Hmiss.
  unfold download_epg in Hrun. revert Hrun. exec. rewrite Hmiss.
  unfold get_world, load_data, send_data. intros Hrun.
  apply mbind_M_inv in Hrun as (w0 & st0 & Hw & Hrun). injection Hw as <- <-.
  rewrite step_get_self in Hrun. cbn [fst snd] in Hrun.
  apply mbind_M_inv in Hrun as (data & st1 & Hsend & Hrun). injection Hsend as Hd <-.
  revert Hrun. exec. intros [= <- <- <-].
  split; [done|]. split; [eauto|].
  split; [cbn [files]; apply lookup_insert_eq|].
  intros s2 w2 Hsame Hclock Hne Hround.
  cbn [files record] in Hsame. rewrite lookup_insert_eq in Hsame.
  unfold download_epg. exec.
  rewrite (stored_fresh_within _ _ _ _ _ Hsame Hclock).
  rewrite truthy_str by done. unfold loads. by rewrite Hround.
Qed.

End GuideCacheFacts.

Section KeyFileFacts.

Context `{Formatting} `{Collaborators} `{Runtime}.

Lemma load_cookie_stored s w c :
  files w !! (pldir s +:+ "/cookie.conf") = Some c ->
  content c <> "" ->
  load_cookie (s, w) =
    (Ok tt, (with_logged true (with_cookie (VStr (strip (content c))) s), w)).
Proof.
  intros Hfile Hne. unfold load_cookie. exec. unfold Cache.stored.
  rewrite Hfile. by rewrite truthy_str.
Qed.

(** X22: [import_key_file] stores the cookie of the key file for the
    platform that the file names, PeacockTV when its host mentions
    [peacocktv] and SkyShowtime otherwise, whatever platform the session
    runs, and changes no other file; the next bootstrap of that platform
    is logged in with that cookie, stripped. *)
Theorem import_key_file_target filename data h c s w :
  load_key_file filename = Ok data ->
  getitem data "host" = Ok (VStr h) ->
  getitem data "data" = Ok (VStr c) ->
  let dir := if is_substring "peacocktv" h then "peacocktv" else "skyshowtime" in
  exists w',
    import_key_file filename (s, w) = (Ok tt, (s, w')) /\
    files w' = <[dir +:+ "/cookie.conf" := File c (clock w)]> (files w) /\
    forall territory s2 w2 s3 w3,
      pldir s2 = dir ->
      files w2 !! (dir +:+ "/cookie.conf") = files w' !! (dir +:+ "/cookie.conf") ->
      c <> "" ->
      init territory (s2, w2) = (Ok tt, (s3, w3)) ->
      logged s3 = true /\ cookie s3 = VStr (strip c).
Proof.
  intros Hload Hhost Hdata dir. eexists. split; [|split].
  - unfold import_key_file. rewrite Hload. exec. rewrite Hhost. cbn [bind contains].
    exec. rewrite Hdata. exec. fold dir. reflexivity.
  - done.
  - intros territory s2 w2 s3 w3 Hdir Hsame Hne Hinit.
    cbn [files] in Hsame. rewrite lookup_insert_eq in Hsame.
    unfold init in Hinit.
    apply mbind_M_inv in Hinit as ([] & [sa wa] & Hstart & Hinit).
    apply mbind_M_inv in Hinit as ([] & [sb wb] & Hcookie & Hrest).
    unfold init_start in Hstart. rewrite run_set_self in Hstart.
    injection Hstart as <- <-. cbn [fst snd] in Hcookie.
    rewrite (load_cookie_stored _ _ (File c (clock w))) in Hcookie;
      [|by cbn [pldir with_net_headers with_logged]; rewrite Hdir|done].
    injection Hcookie as <- <-.
    match type of Hrest with
    | _ (?s0, _) = _ =>
        destruct (init_tail_keeps_login dir territory s0 w2 _ _ Hdir Hrest)
          as (_ & _ & Hproj & _)
    end.
    cbn [fst snd] in Hproj. by injection Hproj as -> ->.
Qed.

End KeyFileFacts.

Section WarmBootstrap.

Context `{Collaborators}.

#[global] Instance same_world_preorder : PreOrder same_world.
Proof.
  split.
  - intros st. by split.
  - intros st1 st2 st3 [Hw1 Hd1] [Hw2 Hd2]. split; congruence.
Qed.

Lemma set_self_same_world g :
  (forall s, pldir (g s) = pldir s) -> preserves same_world (set_self g).
Proof. intros Hg [s w] r st' [= _ <-]. split; [done|apply Hg]. Qed.

Lemma preserves_run {A} I (m : M A) st r st' :
  preserves I m -> m st = (r, st') -> I st st'.
Proof. intros Hp Hrun. exact (Hp _ _ _ Hrun). Qed.

Lemma preserves_from_weaken {A} P I (m : M A) :
  preserves I m -> preserves_from P I m.
Proof. intros Hp st r st' _ Hrun. exact (Hp _ _ _ Hrun). Qed.

Lemma preserves_from_bind {A B} P (I : relation (session * world)) `{!PreOrder I}
    (m : M A) (f : A -> M B) :
  (forall st st', P st -> I st st' -> P st') ->
  preserves_from P I m -> (forall a, preserves_from P I (f a)) ->
  preserves_from P I (mbind_M m f).
Proof.
  intros Hstable Hm Hf st r st' HP Hrun. unfold mbind_M in Hrun.
  destruct (m st) as [[a|e] st1] eqn:Em.
  - pose proof (Hm _ _ _ HP Em) as H1. etrans; [exact H1|].
    eapply Hf; [|exact Hrun]. by eapply Hstable.
  - injection Hrun as _ <-. by eapply Hm.
Qed.

Ltac quiet_step :=
  first [ preserves_step
        | apply set_self_same_world; by intros ? ].

Section Warm.

Variables (dir : string) (w : world).

Lemma at_home_stable st st' :
  at_home dir w st -> same_world st st' -> at_home dir w st'.
Proof. intros [Hd Hw] [Hw' Hd']. split; congruence. Qed.

Lemma stored_cached name :
  cached dir name w ->
  exists c, Cache.stored (dir +:+ "/" +:+ name) w = VStr c /\
            Cache.stored_fresh (dir +:+ "/" +:+ name) 0 w = VStr c /\
            truthy (VStr c) = true.
Proof.
  intros (f & Hf & Hne). exists (content f).
  unfold Cache.stored, Cache.stored_fresh, Cache.fresh. rewrite Hf.
  split; [done|]. split; [done|]. by apply truthy_str.
Qed.

Lemma load_device_id_warm :
  cached dir "device_id.conf" w -> preserves_from (at_home dir w) same_world load_device_id.
Proof.
  intros (c & Hc & _ & Ht)%stored_cached [s0 w0] r st' [Hd Hw] Hrun.
  cbn [fst snd] in Hd, Hw. subst w0. revert Hrun. unfold load_device_id.
  rewrite step_get_self, step_load_file. cbn [fst snd]. rewrite Hd.
  change (dir +:+ "/device_id.conf") with (dir +:+ "/" +:+ "device_id.conf").
  rewrite Hc, Ht. apply preserves_run. quiet_step.
Qed.

Lemma load_localisation_warm territory :
  cached dir "localisation.json" w ->
  preserves_from (at_home dir w) same_world (load_localisation territory).
Proof.
  intros (c & _ & Hc & Ht)%stored_cached [s0 w0] r st' [Hd Hw] Hrun.
  cbn [fst snd] in Hd, Hw. subst w0. revert Hrun.
  unfold load_localisation, fetch_localisation.
  rewrite !step_assoc, step_get_self, !step_assoc, step_load. cbn [fst snd]. rewrite Hd.
  change (dir +:+ "/localisation.json") with (dir +:+ "/" +:+ "localisation.json").
  rewrite Hc, Ht. apply preserves_run. unfold apply_localisation. repeat quiet_step.
Qed.

Lemma load_profile_warm :
  cached dir "profile.json" w -> preserves_from (at_home dir w) same_world load_profile.
Proof.
  intros (c & Hc & _ & Ht)%stored_cached [s0 w0] r st' [Hd Hw] Hrun.
  cbn [fst snd] in Hd, Hw. subst w0. revert Hrun. unfold load_profile.
  rewrite step_get_self, step_load_file. cbn [fst snd]. rewrite Hd.
  change (dir +:+ "/profile.json") with (dir +:+ "/" +:+ "profile.json").
  rewrite Hc, Ht. apply preserves_run. repeat quiet_step.
Qed.

Lemma load_profile_info_warm :
  cached dir "profile_info.json" w ->
  preserves_from (at_home dir w) same_world load_profile_info.
Proof.
  intros (c & Hc & _ & Ht)%stored_cached [s0 w0] r st' [Hd Hw] Hrun.
  cbn [fst snd] in Hd, Hw. subst w0. revert Hrun. unfold load_profile_info.
  rewrite step_get_self. cbn [fst snd].
  destruct (truthy (profile_id s0)); [|apply preserves_run; quiet_step].
  cbv zeta. rewrite step_load_file. cbn [fst snd]. rewrite Hd.
  change (dir +:+ "/profile_info.json") with (dir +:+ "/" +:+ "profile_info.json").
  rewrite Hc, Ht. apply preserves_run. repeat quiet_step.
Qed.

Lemma load_user_token_warm :
  (exists f, files w !! (dir +:+ "/token.json") = Some f /\ content f <> "" /\
             (clock w - mtime f < 60)%Q) ->
  preserves_from (at_home dir w) same_world load_user_token.
Proof.
  intros (f & Hf & Hne & Hfresh) [s0 w0] r st' [Hd Hw] Hrun.
  cbn [fst snd] in Hd, Hw. subst w0. revert Hrun. unfold load_user_token.
  rewrite step_get_self. cbn [fst snd]. cbv zeta. rewrite step_load. cbn [fst snd].
  rewrite Hd. destruct f as [c tm]. cbn [content mtime] in *.
  rewrite (stored_fresh_within _ _ _ _ _ Hf Hfresh), (truthy_str _ Hne).
  apply preserves_run. repeat quiet_step.
Qed.

Lemma load_my_segments_warm :
  cached dir "me.json" w -> preserves_from (at_home dir w) same_world load_my_segments.
Proof.
  intros (c & _ & Hc & Ht)%stored_cached [s0 w0] r st' [Hd Hw] Hrun.
  cbn [fst snd] in Hd, Hw. subst w0. revert Hrun. unfold load_my_segments.
  rewrite step_get_self. cbn [fst snd].
  destruct (truthy (user_token s0)); [|apply preserves_run; quiet_step].
  cbv zeta. rewrite step_load. cbn [fst snd]. rewrite Hd.
  change (dir +:+ "/me.json") with (dir +:+ "/" +:+ "me.json").
  rewrite Hc, Ht. apply preserves_run. repeat quiet_step.
Qed.

Lemma init_warm territory :
  Forall (fun name => cached dir name w) bootstrap_files ->
  (exists f, files w !! (dir +:+ "/token.json") = Some f /\ content f <> "" /\
             (clock w - mtime f < 60)%Q) ->
  preserves_from (at_home dir w) same_world (init territory).
Proof.
  intros Hfiles Htoken. unfold bootstrap_files in Hfiles.
  apply Forall_cons in Hfiles as [Hdev Hfiles].
  apply Forall_cons in Hfiles as [Hloc Hfiles].
  apply Forall_cons in Hfiles as [Hprof Hfiles].
  apply Forall_cons in Hfiles as [Hinfo Hfiles].
  apply Forall_cons in Hfiles as [Hme _].
  unfold init.
  apply preserves_from_bind; [apply _|apply at_home_stable| |intros ?].
  { apply preserves_from_weaken. unfold init_start. quiet_step. }
  apply preserves_from_bind; [apply _|apply at_home_stable| |intros ?].
  { apply preserves_from_weaken. unfold load_cookie. repeat quiet_step. }
  apply preserves_from_bind; [apply _|apply at_home_stable| |intros ?].
  { by apply load_device_id_warm. }
  apply preserves_from_bind; [apply _|apply at_home_stable| |intros ?].
  { apply preserves_from_weaken. unfold cookie_territory. repeat quiet_step. }
  apply preserves_from_bind; [apply _|apply at_home_stable| |intros ?].
  { by apply load_localisation_warm. }
  apply preserves_from_bind; [apply _|apply at_home_stable| |intros ?].
  { by apply load_profile_warm. }
  apply preserves_from_bind; [apply _|apply at_home_stable| |intros ?].
  { by apply load_profile_info_warm. }
  apply preserves_from_bind; [apply _|apply at_home_stable| |intros ?].
  { by apply load_user_token_warm. }
  apply preserves_from_bind; [apply _|apply at_home_stable| |intros ?].
  { apply preserves_from_weaken. unfold load_search. repeat quiet_step. }
  by apply load_my_segments_warm.
Qed.

End Warm.

(** X23: a bootstrap that finds the device identifier, the localisation,
    the profile, the profile details and the segments stored, and a
    token stored less than sixty seconds ago, works from the cache
    alone: it sends no request, writes no file and draws no random
    number, whether it ends normally or raises. *)
Theorem warm_bootstrap_offline territory s w r s' w' :
  Forall (fun name => cached (pldir s) name w) bootstrap_files ->
  (exists f, files w !! (pldir s +:+ "/token.json") = Some f /\ content f <> "" /\
             (clock w - mtime f < 60)%Q) ->
  init territory (s, w) = (r, (s', w')) ->
  w' = w.
Proof.
  intros Hfiles Htoken Hinit.
  by destruct (init_warm (pldir s) w territory Hfiles Htoken (s, w) r (s', w')
                 (conj eq_refl eq_refl) Hinit) as [Hw _].
Qed.

End WarmBootstrap.

Section ProfileListFacts.

Context `{Collaborators}.

Lemma get_profiles_body_entry res p res' :
  get_profiles_body res p = Ok res' ->
  exists q, res' = (res ++ [q])%list /\ profile_entry p q.
Proof.
  unfold get_profiles_body. intros Hrun.
  apply bind_Ok in Hrun as (id & Eid & Hrun).
  apply bind_Ok in Hrun as (name & Ename & Hrun).
  apply bind_Ok in Hrun as (ty & Ety & Hrun).
  apply bind_Ok in Hrun as (av & Eav & Hrun).
  apply bind_Ok in Hrun as (links & Elinks & Hrun).
  apply bind_Ok in Hrun as (bg & Ebg & Hrun).
  apply bind_Ok in Hrun as (href & Ehref & Hrun).
  apply bind_Ok in Hrun as (av' & Eav' & Hrun). injection Hrun as <-.
  cbn [item assoc String.eqb Ascii.eqb Bool.eqb] in Eav'.
  destruct href as [| | | |h| |]; try discriminate. injection Eav' as <-.
  eexists. split; [done|]. exists h.
  rewrite Eav. cbn [bind]. rewrite Elinks. cbn [bind]. rewrite Ebg. cbn [bind].
  rewrite Eid, Ename, Ety. by repeat split.
Qed.

Lemma get_profiles_fold l acc res :
  foldM get_profiles_body l acc = Ok res ->
  exists qs, res = (acc ++ qs)%list /\ Forall2 profile_entry l qs.
Proof.
  revert acc. induction l as [|p l IH]; intros acc Hrun; simpl in Hrun.
  - injection Hrun as <-. exists []. split; [by rewrite app_nil_r|constructor].
  - apply bind_Ok in Hrun as (acc1 & Hbody & Hrun).
    apply get_profiles_body_entry in Hbody as (q & -> & Hq).
    apply IH in Hrun as (qs & -> & Hqs).
    exists (q :: qs). split; [by rewrite <- app_assoc|by constructor].
Qed.

(** X24: when [get_profiles] returns, it has sent one request with the
    account cookie and returns one profile for every persona of the
    reply, in order, with the id, the display name and the type of the
    persona and its avatar address sized to 400; a reply without
    [personas] gives no profile. *)
Theorem get_profiles_entries s w profiles st' :
  get_profiles (s, w) = (Ok profiles, st') ->
  exists req data,
    st' = (s, record req w) /\
    net_data (sent w) req = Ok data /\
    assoc "cookie" (req_headers req) = Some (cookie s) /\
    (contains "personas" data = Ok false -> profiles = []) /\
    (forall ps, getitem data "personas" = Ok (VList ps) ->
                Forall2 profile_entry ps profiles).
Proof.
  unfold get_profiles, send_data. intros Hrun.
  rewrite step_get_self in Hrun. cbn [fst snd] in Hrun.
  apply mbind_M_inv in Hrun as (data & st1 & Hsend & Hrun). injection Hsend as Hdata <-.
  apply mbind_M_inv in Hrun as (has & st2 & Hhas & Hrun). injection Hhas as Hhas <-.
  eexists _, data. split; [|split; [exact Hdata|split; [apply assoc_set_eq|]]].
  - destruct has; [|by injection Hrun as _ <-].
    apply mbind_M_inv in Hrun as (ps & st3 & Hps & Hrun). injection Hps as _ <-.
    apply mbind_M_inv in Hrun as (l & st4 & Hl & Hrun). injection Hl as _ <-.
    by injection Hrun as _ <-.
  - destruct has.
    + split; [by rewrite Hhas|]. intros ps Hps.
      apply mbind_M_inv in Hrun as (ps' & st3 & Hps' & Hrun). injection Hps' as Hps' <-.
      rewrite Hps in Hps'. assert (ps' = VList ps) as -> by congruence.
      apply mbind_M_inv in Hrun as (l & st4 & Hl & Hrun). injection Hl as <- <-.
      injection Hrun as Hfold _.
      apply get_profiles_fold in Hfold as (qs & -> & Hqs). done.
    + injection Hrun as <- _. split; [done|]. intros ps Hps.
      apply getitem_contains in Hps. rewrite Hps in Hhas. discriminate.
Qed.

(** X25: [change_profile] with an id that none of the account's profiles
    has returns normally and changes nothing: the stored profile and
    every other file stay as they were, and the session too. *)
Theorem change_profile_no_match id s w profiles s1 w1 :
  get_profiles (s, w) = (Ok profiles, (s1, w1)) ->
  Forall (fun q => exists qid, getitem q "id" = Ok qid /\ py_eq qid id = false)
         profiles ->
  change_profile id (s, w) = (Ok tt, (s, w1)) /\ files w1 = files w.
Proof.
  intros Hget Hnone. unfold change_profile.
  rewrite (mbind_M_Ok _ _ _ _ _ Hget).
  destruct (get_profiles_net_only _ _ _ Hget) as (Hs & Hf & _).
  cbn [fst snd] in Hs, Hf. subst s1. split; [|done].
  clear Hget Hf. induction Hnone as [|q l (qid & Hq & Hne) Hl IH]; [done|].
  cbn [change_profile_loop]. rewrite Hq. rewrite step_lift_Ok. by rewrite Hne.
Qed.

End ProfileListFacts.

Section WriteFrame.

Context `{Collaborators}.
Variables (dir : string) (names : list string).

#[global] Instance writes_only_preorder : PreOrder (writes_only dir names).
Proof.
  split.
  - intros st. by split.
  - intros st1 st2 st3 [Hd1 Hf1] [Hd2 Hf2]. split; [congruence|].
    intros path Hpath. rewrite Hf2, Hf1; done.
Qed.

Lemma writes_only_stable st st' :
  pldir (fst st) = dir -> writes_only dir names st st' -> pldir (fst st') = dir.
Proof. intros Hd [Hd' _]. congruence. Qed.

Lemma net_only_writes_only {A} (m : M A) :
  preserves net_only m -> preserves (writes_only dir names) m.
Proof.
  intros Hm st r st' Hrun. destruct (Hm _ _ _ Hrun) as (Hs & Hf & _).
  split; [by rewrite Hs|]. intros path _. by rewrite Hf.
Qed.

Lemma set_self_writes_only g :
  (forall s, pldir (g s) = pldir s) -> preserves (writes_only dir names) (set_self g).
Proof. intros Hg [s w] r st' [= _ <-]. split; [apply Hg|done]. Qed.

Lemma create_device_id_writes_only :
  preserves (writes_only dir names) create_device_id.
Proof. intros [s w] r st' [= _ <-]. by split. Qed.

Lemma save_file_writes_only n data :
  n ∈ names -> preserves (writes_only dir names) (Cache.save_file (dir +:+ "/" +:+ n) data).
Proof.
  intros Hn [s w] r st' [= _ <-]. split; [done|]. intros path Hpath.
  cbn [snd files]. apply lookup_insert_ne. intros Heq. by apply (Hpath n).
Qed.

End WriteFrame.

Ltac writes_step :=
  match goal with
  | |- preserves_if _ _ (mbind_M get_self _) =>
      apply preserves_if_get_self; intros ? ?
  | |- preserves_if _ _ (mbind_M _ _) =>
      apply preserves_if_bind; [apply _ | apply writes_only_stable | | intros ?]
  | |- preserves_if _ _ (for_each _ _) =>
      apply preserves_if_for_each; [apply _ | apply writes_only_stable | intros ?]
  | |- preserves_if _ _ (if ?c then _ else _) => destruct c
  | |- preserves_if _ _ (match ?x with _ => _ end) => destruct x
  | |- preserves_if _ _ (let _ := _ in _) => cbv zeta
  | |- preserves_if _ _ (Cache.save_json _ _) => unfold Cache.save_json
  | |- preserves_if _ _ _ => apply preserves_if_weaken
  | |- preserves _ (ret _) => apply preserves_ret; apply _
  | |- preserves _ (lift _) => apply preserves_lift; apply _
  | |- preserves _ get_self => apply preserves_get_self; apply _
  | |- preserves _ (Cache.load_file _) => apply preserves_load_file; apply _
  | |- preserves _ (Cache.load _ _) => apply preserves_load; apply _
  | |- preserves _ (set_self _) => apply set_self_writes_only; by intros ?
  | Hdir : pldir ?s = _ |- preserves _ (Cache.save_file (pldir ?s +:+ _) _) =>
      rewrite Hdir;
      first [ apply (save_file_writes_only _ _ "device_id.conf")
            | apply (save_file_writes_only _ _ "localisation.json")
            | apply (save_file_writes_only _ _ "profile.json")
            | apply (save_file_writes_only _ _ "profile_info.json")
            | apply (save_file_writes_only _ _ "token.json")
            | apply (save_file_writes_only _ _ "me.json") ];
      unfold bootstrap_outputs; set_solver
  | |- preserves _ create_device_id => apply create_device_id_writes_only
  | |- preserves _ get_localisation =>
      apply net_only_writes_only, get_localisation_net_only
  | |- preserves _ get_profiles => apply net_only_writes_only, get_profiles_net_only
  | |- preserves _ (get_profile_info _) =>
      apply net_only_writes_only, get_profile_info_net_only
  | |- preserves _ get_tokens => apply net_only_writes_only, get_tokens_net_only
  | |- preserves _ get_me => apply net_only_writes_only, get_me_net_only
  end.

Section BootstrapWrites.

Context `{Collaborators}.

Lemma init_writes dir territory :
  preserves_if (fun s => pldir s = dir) (writes_only dir bootstrap_outputs)
    (init territory).
Proof.
  unfold init, init_start, load_cookie, load_device_id, cookie_territory,
    load_localisation, fetch_localisation, apply_localisation, load_profile,
    select_default_profile, load_profile_info, load_user_token, load_search,
    load_my_segments.
  repeat writes_step.
Qed.

(** X26: a bootstrap writes nothing but the six files of its own platform
    directory that hold the device identifier, the localisation, the
    profile, the profile details, the token and the segments: every
    other file, the cookie and the saved searches among them, is left
    exactly as it was, whether the bootstrap ends normally or raises. *)
Theorem init_writes_only territory s w r s' w' :
  init territory (s, w) = (r, (s', w')) ->
  (forall path,
     (forall n, n ∈ bootstrap_outputs -> path <> pldir s +:+ "/" +:+ n) ->
     files w' !! path = files w !! path) /\
  files w' !! (pldir s +:+ "/cookie.conf") = files w !! (pldir s +:+ "/cookie.conf") /\
  files w' !! "searchs.json" = files w !! "searchs.json".
Proof.
  intros Hinit.
  destruct (init_writes (pldir s) territory s w r (s', w') eq_refl Hinit) as [_ Hframe].
  cbn [fst snd] in Hframe. split; [exact Hframe|]. split.
  - apply Hframe. intros n Hn.
    change (pldir s +:+ "/cookie.conf") with (pldir s +:+ "/" +:+ "cookie.conf").
    unfold bootstrap_outputs in Hn.
    repeat (apply elem_of_cons in Hn as [->|Hn]; [path_ne|]).
    by apply elem_of_nil in Hn.
  - apply Hframe. intros n Hn. by apply top_level_path.
Qed.

End BootstrapWrites.

Section LoginPersistence.

Context `{Collaborators}.

Lemma load_cookie_present s w c :
  files w !! (pldir s +:+ "/cookie.conf") = Some c ->
  load_cookie (s, w) =
    (Ok tt,
     (if String.eqb (content c) "" then s
      else with_logged true (with_cookie (VStr (strip (content c))) s), w)).
Proof.
  intros Hfile. unfold load_cookie. exec. unfold Cache.stored. rewrite Hfile.
  cbn [truthy]. by destruct (String.eqb (content c) "").
Qed.

(** X27: after a login that succeeded, the cookies of the reply, joined
    into one string, are the stored cookie: the next bootstrap of the
    platform is logged in with that string, stripped. When the reply set
    no cookie the stored string is empty, and the next bootstrap is not
    logged in although [login] reported success. *)
Theorem login_then_bootstrap u p s w r data props :
  has_key "x-skyott-device" (net_headers s) = true ->
  net_post (sent w) (login_request s u p) = Ok r ->
  json_loads (resp_content r) = Ok data ->
  get_or data "properties" (VList []) = Ok props ->
  get props "eventType" = Ok (VStr "success") ->
  exists s1 w1,
    login u p (s, w) = (Ok (Some (true, resp_content r)), (s1, w1)) /\
    forall territory s2 w2 s3 w3,
      pldir s2 = pldir s ->
      files w2 !! (pldir s +:+ "/cookie.conf") =
        files w1 !! (pldir s +:+ "/cookie.conf") ->
      init territory (s2, w2) = (Ok tt, (s3, w3)) ->
      logged s3 = negb (String.eqb (join_cookies (resp_cookies r)) "") /\
      (join_cookies (resp_cookies r) <> "" ->
       cookie s3 = VStr (strip (join_cookies (resp_cookies r)))).
Proof.
  intros Hdev Hpost Hdata Hprops Hev.
  destruct (login_success u p s w r data props Hdev Hpost Hdata Hprops Hev)
    as (w1 & Hrun & Hfiles).
  eexists _, w1. split; [exact Hrun|].
  intros territory s2 w2 s3 w3 Hdir Hsame Hinit.
  rewrite Hfiles, lookup_insert_eq in Hsame.
  unfold init in Hinit.
  apply mbind_M_inv in Hinit as ([] & [sa wa] & Hstart & Hinit).
  apply mbind_M_inv in Hinit as ([] & [sb wb] & Hcookie & Hrest).
  unfold init_start in Hstart. rewrite run_set_self in Hstart.
  injection Hstart as <- <-. cbn [fst snd] in Hcookie.
  rewrite (load_cookie_present _ _ (File (join_cookies (resp_cookies r)) (clock w)))
    in Hcookie by (by cbn [pldir with_net_headers with_logged]; rewrite Hdir).
  injection Hcookie as <- <-. cbn [content] in Hrest.
  match type of Hrest with
  | _ (?s0, _) = _ =>
      assert (pldir s0 = pldir s) as Hdir0
        by (by destruct (String.eqb _ _); cbn; rewrite Hdir);
      destruct (init_tail_keeps_login (pldir s) territory s0 w2 _ _ Hdir0 Hrest)
        as (_ & _ & Hproj & _)
  end.
  cbn [fst snd] in Hproj. injection Hproj as -> ->.
  destruct (String.eqb_spec (join_cookies (resp_cookies r)) "") as [Hempty|Hne].
  - split; [done|]. by intros [].
  - split; [done|]. by intros _.
Qed.

End LoginPersistence.

Section LanguageFacts.

Context `{Collaborators}.

(** Up to and including [# Load profile], [__init__] leaves the stored
    profile details alone. *)
Lemma init_prefix_keeps_profile_info dir territory :
  preserves_if (fun s => pldir s = dir)
    (keeps dir ["profile_info.json"] (fun _ => tt))
    (init_start ;; load_cookie ;; load_device_id ;;
     let! t := cookie_territory territory in
     load_localisation t ;; load_profile).
Proof.
  unfold init_start, load_cookie, load_device_id, cookie_territory,
    load_localisation, fetch_localisation, apply_localisation, load_profile,
    select_default_profile.
  repeat keeps_step.
Qed.

(** After the profile details, [__init__] changes neither the profile
    nor the headers. *)
Lemma init_suffix_keeps_headers dir :
  preserves_if (fun s => pldir s = dir)
    (keeps dir [] (fun s => (profile_id s, headers s, net_headers s)))
    (load_user_token ;; load_search ;; load_my_segments).
Proof.
  unfold load_user_token, load_search, load_my_segments. repeat keeps_step.
Qed.

Lemma init_split_language territory st :
  init territory st =
  mbind_M (init_start ;; load_cookie ;; load_device_id ;;
           let! t := cookie_territory territory in
           load_localisation t ;; load_profile)
          (fun _ => load_profile_info ;;
                    (load_user_token ;; load_search ;; load_my_segments)) st.
Proof.
  unfold init. repeat rewrite step_assoc.
  repeat (apply mbind_M_ext; intros ? ?; repeat rewrite step_assoc).
  reflexivity.
Qed.

(** [if self.account['profile_id']: ...] on stored profile details that
    give a display language. *)
Lemma load_profile_info_language s w f data persona lang s' w' :
  truthy (profile_id s) = true ->
  files w !! (pldir s +:+ "/profile_info.json") = Some f ->
  content f <> "" ->
  json_loads (content f) = Ok data ->
  getitem data "persona" = Ok persona ->
  getitem persona "displayLanguage" = Ok lang ->
  load_profile_info (s, w) = (Ok tt, (s', w')) ->
  profile_id s' = profile_id s /\ pldir s' = pldir s /\
  assoc "x-skyott-language" (headers s') = Some lang /\
  assoc "x-skyott-language" (net_headers s') = Some lang.
Proof.
  intros Hid Hfile Hne Hloads Hpersona Hlang. unfold load_profile_info. exec.
  rewrite Hid. exec. unfold Cache.stored. rewrite Hfile, truthy_str by done.
  unfold loads. rewrite Hloads. exec.
  rewrite (getitem_contains _ _ _ Hpersona). exec. rewrite Hpersona. exec.
  rewrite (getitem_contains _ _ _ Hlang). exec. rewrite Hlang. exec.
  intros [= <- <-]. cbn [profile_id pldir headers net_headers with_headers with_net_headers].
  split; [done|]. split; [done|]. split; [apply assoc_set_eq|].
  by rewrite assoc_update, assoc_set_eq.
Qed.

(** X28: the display language of the stored profile details wins over the
    language of the localisation: a bootstrap that ends with a profile
    and finds profile details whose persona has a [displayLanguage] ends
    with that language as [x-skyott-language], both in the platform
    headers and in the headers of the network. *)
Theorem profile_language territory s w s' w' f data persona lang :
  files w !! (pldir s +:+ "/profile_info.json") = Some f ->
  content f <> "" ->
  json_loads (content f) = Ok data ->
  getitem data "persona" = Ok persona ->
  getitem persona "displayLanguage" = Ok lang ->
  init territory (s, w) = (Ok tt, (s', w')) ->
  truthy (profile_id s') = true ->
  assoc "x-skyott-language" (headers s') = Some lang /\
  assoc "x-skyott-language" (net_headers s') = Some lang.
Proof.
  intros Hfile Hne Hloads Hpersona Hlang Hinit Hid.
  rewrite init_split_language in Hinit.
  apply mbind_M_inv in Hinit as ([] & [s1 w1] & Hprefix & Hinit).
  apply mbind_M_inv in Hinit as ([] & [s2 w2] & Hinfo & Hsuffix).
  destruct (init_prefix_keeps_profile_info (pldir s) territory s w _ _ eq_refl Hprefix)
    as (Hdir1 & _ & _ & Hkeep & _).
  cbn [fst snd] in Hdir1, Hkeep.
  specialize (Hkeep "profile_info.json" (list_elem_of_here _ _)).
  change (pldir s +:+ "/" +:+ "profile_info.json")
    with (pldir s +:+ "/profile_info.json") in Hkeep.
  rewrite Hfile, <- Hdir1 in Hkeep.
  assert (pldir s2 = pldir s /\ profile_id s2 = profile_id s1) as [Hdir2 Hid2].
  { destruct (load_profile_info_keeps (pldir s) s1 w1 _ _ Hdir1 Hinfo)
      as (Hd & _ & Hp & _). cbn [fst snd] in Hd, Hp.
    split; [congruence|by injection Hp]. }
  destruct (init_suffix_keeps_headers (pldir s) s2 w2 _ _ Hdir2 Hsuffix)
    as (_ & _ & Hproj & _).
  cbn [fst snd] in Hproj. injection Hproj as Hp Hh Hn.
  rewrite Hh, Hn.
  eapply load_profile_info_language; [|exact Hkeep|done|done|done|done|exact Hinfo].
  congruence.
Qed.

End LanguageFacts.

Lemma login_then_bootstrap_witness :
  let C := Sample.collaborators Sample.token_reply Sample.login_success in
  exists s1 w1 s3 w3,
    login (H:=C) (VStr "ann@example.org") (VStr "secret")
      (Sample.logged_session, Sample.empty_world) =
      (Ok (Some (true, Sample.dumps Sample.login_success)), (s1, w1)) /\
    init (H:=C) VNone (Sample.start, w1) = (Ok tt, (s3, w3)) /\
    logged s3 = true /\
    cookie s3 = VStr "hterr=PL; skyCEsidismesso01=abc".
Proof.
  intros C.
  pose (r := Response 200 (Sample.dumps Sample.login_success)
               [("hterr", "PL"); ("skyCEsidismesso01", "abc")]).
  destruct (login_then_bootstrap (H:=C) (VStr "ann@example.org") (VStr "secret")
              Sample.logged_session Sample.empty_world r Sample.login_success
              (VDict [("eventType", VStr "success")])
              eq_refl eq_refl eq_refl eq_refl eq_refl)
    as (s1 & w1 & Hrun & Hnext).
  pose (w2 := snd (snd (login (H:=C) (VStr "ann@example.org") (VStr "secret")
                          (Sample.logged_session, Sample.empty_world)))).
  assert (w1 = w2) as -> by (unfold w2; by rewrite Hrun).
  pose (st3 := snd (init (H:=C) VNone (Sample.start, w2))).
  assert (init (H:=C) VNone (Sample.start, w2) = (Ok tt, (fst st3, snd st3))) as Hinit
    by (vm_compute; reflexivity).
  destruct (Hnext VNone Sample.start w2 (fst st3) (snd st3) eq_refl eq_refl Hinit)
    as [Hlogged Hcookie].
  exists s1, w2, (fst st3), (snd st3).
  split; [exact Hrun|]. split; [exact Hinit|]. split; [exact Hlogged|].
  apply Hcookie. discriminate.
Defined.

Lemma search_vod_lookups_witness :
  let C := Scenario.collaborators Scenario.created in
  exists res w',
    search_vod (H0:=C) (VStr "dune") (Sample.logged_session, Sample.empty_world) =
      (Ok (Some res), (Sample.logged_session, w')) /\
    files w' = files Sample.empty_world /\
    exists l, length (sent w') =
                S (length (sent Sample.empty_world)) + length (List.filter has_uuid l) /\
              length res <= length (List.filter has_uuid l).
Proof.
  intros C.
  pose (st := search_vod (H0:=C) (VStr "dune") (Sample.logged_session, Sample.empty_world)).
  pose (res := match fst st with Ok (Some r) => r | _ => [] end).
  pose (w' := snd (snd st)).
  assert (search_vod (H0:=C) (VStr "dune") (Sample.logged_session, Sample.empty_world) =
          (Ok (Some res), (Sample.logged_session, w'))) as Hrun
    by (vm_compute; reflexivity).
  destruct (search_vod_lookups (H0:=C) _ _ _ _ _ _ Hrun)
    as (_ & Hfiles & req & data & _ & l & _ & Hsent & Hres).
  exists res, w'. split; [exact Hrun|]. split; [exact Hfiles|].
  exists l. split; [exact Hsent|exact Hres].
Defined.

Lemma playback_manifest_witness :
  let C := Scenario.collaborators Scenario.playback_response in
  let R := Scenario.runtime Scenario.playback_response in
  exists res st',
    get_live_playback_info (H0:=C) (H1:=R) (VStr "4270") "limelight" (VBool false)
      (Sample.logged_session, Sample.empty_world) = (Ok res, st') /\
    assoc "manifest_url" res =
      Some (VStr "https://l.example/m.mpd?t=1&audio=all&subtitle=all&forcedNarrative=true&trickplay=true").
Proof.
  intros C R.
  pose (st := get_live_playback_info (H0:=C) (H1:=R) (VStr "4270") "limelight"
                (VBool false) (Sample.logged_session, Sample.empty_world)).
  pose (res := match fst st with Ok r => r | Raise _ => [] end).
  assert (get_live_playback_info (H0:=C) (H1:=R) (VStr "4270") "limelight" (VBool false)
            (Sample.logged_session, Sample.empty_world) = (Ok res, snd st)) as Hrun
    by (vm_compute; reflexivity).
  exists res, (snd st). split; [exact Hrun|].
  unfold get_live_playback_info in Hrun. rewrite step_get_self in Hrun.
  destruct (playback_manifest (H:=C) (H0:=R) _ _ _ _ _ _ _ _ Hrun) as (data & Hresp & Hman).
  assert (assoc "response" res = Some Scenario.playback_reply) as Hresp'
    by (vm_compute; reflexivity).
  assert (data = Scenario.playback_reply) as -> by congruence.
  assert (Forall (other_server (H:=R) "limelight")
            [Scenario.endpoint "AKAMAI" "https://a.example/m.mpd?t=1"]) as Hother.
  { constructor; [|constructor]. intros c [= <-]. vm_compute. discriminate. }
  refine (Hman [Scenario.endpoint "AKAMAI" "https://a.example/m.mpd?t=1";
                Scenario.endpoint "Limelight" "https://l.example/m.mpd?t=1"]
               "https://l.example/m.mpd?t=1" eq_refl _ (or_introl _)).
  - discriminate.
  - exists [Scenario.endpoint "AKAMAI" "https://a.example/m.mpd?t=1"],
      (Scenario.endpoint "Limelight" "https://l.example/m.mpd?t=1"), [], "Limelight".
    split; [reflexivity|]. split; [exact Hother|]. split; [reflexivity|].
    split; reflexivity.
Defined.

Lemma add_search_persists_witness :
  let C := Scenario.collaborators Scenario.created in
  exists s' w' s3 w3,
    add_search (H0:=C) (VStr "dune") (Sample.start, Sample.stored_world) =
      (Ok tt, (s', w')) /\
    search_list s' = VList [VStr "dune"] /\
    init (H:=C) VNone (Sample.start, w') = (Ok tt, (s3, w3)) /\
    search_list s3 = VList [VStr "dune"].
Proof.
  intros C.
  destruct (add_search_persists (H:=C) (VStr "dune") Sample.start Sample.stored_world []
              eq_refl) as (s' & w' & Hrun & Hlist & _ & _ & Hnext).
  pose (w2 := snd (snd (add_search (H0:=C) (VStr "dune")
                          (Sample.start, Sample.stored_world)))).
  assert (w' = w2) as -> by (unfold w2; by rewrite Hrun).
  pose (st3 := snd (init (H:=C) VNone (Sample.start, w2))).
  assert (init (H:=C) VNone (Sample.start, w2) = (Ok tt, (fst st3, snd st3))) as Hinit
    by (vm_compute; reflexivity).
  assert (json_dumps (Collaborators:=C) (VList [VStr "dune"]) <> "") as Hne
    by (vm_compute; discriminate).
  assert (json_loads (Collaborators:=C) (json_dumps (VList [VStr "dune"])) =
          Ok (VList [VStr "dune"])) as Hround by (vm_compute; reflexivity).
  exists s', w2, (fst st3), (snd st3).
  split; [exact Hrun|]. split; [exact Hlist|]. split; [exact Hinit|].
  exact (Hnext VNone Sample.start w2 (fst st3) (snd st3) eq_refl Hne Hround Hinit).
Defined.

Lemma delete_search_effect_witness :
  let C := Scenario.collaborators Scenario.created in
  let s := with_search_list (VList [VStr "a"; VStr "b"; VStr "a"]) Sample.start in
  exists s' w' l',
    delete_search (H0:=C) (VStr "a") (s, Sample.empty_world) = (Ok tt, (s', w')) /\
    search_list s' = VList l' /\
    Forall (fun x => py_eq x (VStr "a") = false) l' /\
    VStr "b" ∈ l'.
Proof.
  intros C s.
  destruct (delete_search_effect (H:=C) (VStr "a") s Sample.empty_world
              [VStr "a"; VStr "b"; VStr "a"] eq_refl)
    as (s' & w' & l' & Hrun & Hlist & Hgone & Hkept & _).
  exists s', w', l'. split; [exact Hrun|]. split; [exact Hlist|].
  split; [exact Hgone|]. apply Hkept; [|reflexivity].
  apply list_elem_of_further, list_elem_of_here.
Defined.

Lemma main_menu_cached_witness :
  let C := Scenario.collaborators Scenario.created in
  exists res s1 w1,
    get_main_menu (H0:=C) (Sample.logged_session, Sample.empty_world) =
      (Ok res, (s1, w1)) /\
    length res = 2 /\
    get_main_menu (H0:=C)
      (Sample.logged_session, World (files w1) 86400 (sent w1) (draws w1)) =
      (Ok res, (Sample.logged_session, World (files w1) 86400 (sent w1) (draws w1))).
Proof.
  intros C.
  pose (st := get_main_menu (H0:=C) (Sample.logged_session, Sample.empty_world)).
  pose (res := match fst st with Ok r => r | Raise _ => [] end).
  pose (w1 := snd (snd st)).
  assert (get_main_menu (H0:=C) (Sample.logged_session, Sample.empty_world) =
          (Ok res, (Sample.logged_session, w1))) as Hrun by (vm_compute; reflexivity).
  assert (length res = 2) as Hlen by (vm_compute; reflexivity).
  destruct (main_menu_cached (H0:=C) Sample.logged_session Sample.empty_world res
              Sample.logged_session w1 eq_refl Hrun)
    as (req & d & Hd & _ & _ & _ & Hsent & _ & Hagain).
  vm_compute in Hsent. injection Hsent as <-.
  vm_compute in Hd. injection Hd as <-.
  assert (json_dumps (Collaborators:=C) Scenario.menu_reply <> "") as Hne
    by (vm_compute; discriminate).
  assert (json_loads (Collaborators:=C) (json_dumps Scenario.menu_reply) =
          Ok Scenario.menu_reply) as Hround by (vm_compute; reflexivity).
  exists res, Sample.logged_session, w1.
  split; [exact Hrun|]. split; [exact Hlen|].
  exact (Hagain Sample.logged_session (World (files w1) 86400 (sent w1) (draws w1))
           eq_refl eq_refl eq_refl Hne Hround).
Defined.

Lemma to_watchlist_outcome_witness :
  let C := Scenario.collaborators Scenario.created in
  let R := Scenario.runtime Scenario.created in
  exists st' pre req,
    to_watchlist (H0:=C) (H1:=R) (VStr "u-1") VNone (VStr "add")
      (Sample.logged_session, Sample.empty_world) = (Ok (VInt 201, VStr ""), st') /\
    sent (snd st') = (pre ++ [req])%list /\
    method req = "PUT".
Proof.
  intros C R.
  pose (st := to_watchlist (H0:=C) (H1:=R) (VStr "u-1") VNone (VStr "add")
                (Sample.logged_session, Sample.empty_world)).
  assert (to_watchlist (H0:=C) (H1:=R) (VStr "u-1") VNone (VStr "add")
            (Sample.logged_session, Sample.empty_world) =
          (Ok (VInt 201, VStr ""), snd st)) as Hrun by (vm_compute; reflexivity).
  destruct (to_watchlist_outcome (H0:=C) (H1:=R) _ _ _ _ _ _ _ _ Hrun)
    as (pre & req & r & Hsent & Hmethod & _).
  exists (snd st), pre, req. split; [exact Hrun|]. split; [exact Hsent|exact Hmethod].
Defined.

Lemma get_devices_entries_witness :
  let C := Scenario.collaborators Scenario.created in
  exists res st',
    get_devices (H:=Sample.formatting) (H0:=C)
      (Sample.logged_session, Sample.empty_world) = (Ok res, st') /\
    Forall2 device_entry
      [VDict [("deviceid", VStr "d-1"); ("devicedescription", VStr "TV");
              ("signintime", VInt 1700000000000); ("alias", VNone);
              ("type", VStr "TV")];
       VDict [("deviceid", VStr "d-2"); ("devicedescription", VStr "Phone");
              ("alias", VStr "Ann's phone"); ("type", VStr "MOBILE");
              ("location", VStr "PL")]] res.
Proof.
  intros C.
  pose (st := get_devices (H:=Sample.formatting) (H0:=C)
                (Sample.logged_session, Sample.empty_world)).
  pose (res := match fst st with Ok r => r | Raise _ => [] end).
  assert (get_devices (H:=Sample.formatting) (H0:=C)
            (Sample.logged_session, Sample.empty_world) = (Ok res, snd st)) as Hrun
    by (vm_compute; reflexivity).
  destruct (get_devices_entries (H:=Sample.formatting) (H0:=C) _ _ _ _ Hrun)
    as (req & data & Hst & Hd & _ & _ & Hall).
  vm_compute in Hst. injection Hst as <-.
  vm_compute in Hd. injection Hd as <-.
  exists res, (snd st). split; [exact Hrun|].
  exact (Hall _ eq_refl).
Defined.

Lemma download_epg_cached_witness :
  let C := Scenario.collaborators Scenario.created in
  let R := Scenario.runtime Scenario.created in
  exists d s1 w1,
    download_epg (H0:=C) (H1:=R) (Sample.start, Sample.empty_world) =
      (Ok d, (s1, w1)) /\
    download_epg (H0:=C) (H1:=R) (Scenario.peacock, World (files w1) 30 [] 0) =
      (Ok d, (Scenario.peacock, World (files w1) 30 [] 0)).
Proof.
  intros C R.
  pose (st := download_epg (H0:=C) (H1:=R) (Sample.start, Sample.empty_world)).
  pose (w1 := snd (snd st)).
  assert (download_epg (H0:=C) (H1:=R) (Sample.start, Sample.empty_world) =
          (Ok Scenario.guide_reply, (Sample.start, w1))) as Hrun
    by (vm_compute; reflexivity).
  destruct (download_epg_cached (H0:=C) (H1:=R) Sample.start Sample.empty_world
              Scenario.guide_reply Sample.start w1 eq_refl Hrun)
    as (_ & _ & _ & Hagain).
  assert (json_dumps (Collaborators:=C) Scenario.guide_reply <> "") as Hne
    by (vm_compute; discriminate).
  assert (json_loads (Collaborators:=C) (json_dumps Scenario.guide_reply) =
          Ok Scenario.guide_reply) as Hround by (vm_compute; reflexivity).
  assert (clock (World (files w1) 30 [] 0) - clock Sample.empty_world < 60)%Q as Hclock
    by (vm_compute; reflexivity).
  exists Scenario.guide_reply, Sample.start, w1. split; [exact Hrun|].
  exact (Hagain Scenario.peacock (World (files w1) 30 [] 0) eq_refl Hclock Hne Hround).
Defined.

Lemma import_key_file_target_witness :
  let C := Scenario.collaborators Scenario.created in
  let R := Scenario.runtime Scenario.created in
  exists w' s3 w3,
    import_key_file (H1:=R) "peacock.key" (Sample.start, Sample.empty_world) =
      (Ok tt, (Sample.start, w')) /\
    files w' !! "peacocktv/cookie.conf" =
      Some (File "hterr=US; skyCEsidismesso01=xyz" 0) /\
    files w' !! "skyshowtime/cookie.conf" = None /\
    init (H:=C) VNone (Scenario.peacock, w') = (Ok tt, (s3, w3)) /\
    logged s3 = true /\
    cookie s3 = VStr "hterr=US; skyCEsidismesso01=xyz".
Proof.
  intros C R.
  destruct (import_key_file_target (H0:=C) (H1:=R) "peacock.key" Scenario.key_file
              "https://www.peacocktv.com" "hterr=US; skyCEsidismesso01=xyz"
              Sample.start Sample.empty_world eq_refl eq_refl eq_refl)
    as (w' & Hrun & Hfiles & Hnext).
  pose (w2 := snd (snd (import_key_file (H1:=R) "peacock.key"
                          (Sample.start, Sample.empty_world)))).
  assert (w' = w2) as -> by (unfold w2; by rewrite Hrun).
  pose (st3 := snd (init (H:=C) VNone (Scenario.peacock, w2))).
  assert (init (H:=C) VNone (Scenario.peacock, w2) = (Ok tt, (fst st3, snd st3)))
    as Hinit by (vm_compute; reflexivity).
  assert (files w2 !! "peacocktv/cookie.conf" =
          Some (File "hterr=US; skyCEsidismesso01=xyz" 0)) as Hcookie
    by (vm_compute; reflexivity).
  assert (files w2 !! "skyshowtime/cookie.conf" = None) as Hother
    by (vm_compute; reflexivity).
  assert ("hterr=US; skyCEsidismesso01=xyz" <> "") as Hne by discriminate.
  exists w2, (fst st3), (snd st3).
  split; [exact Hrun|]. split; [exact Hcookie|]. split; [exact Hother|].
  split; [exact Hinit|].
  exact (Hnext VNone Scenario.peacock w2 (fst st3) (snd st3) eq_refl eq_refl Hne Hinit).
Defined.

Lemma warm_bootstrap_offline_witness :
  let C := Scenario.collaborators Scenario.created in
  exists s1 w1 s2,
    init (H:=C) VNone (Sample.start, Sample.empty_world) = (Ok tt, (s1, w1)) /\
    init (H:=C) VNone (Sample.start, w1) = (Ok tt, (s2, w1)).
Proof.
  intros C.
  pose (st1 := snd (init (H:=C) VNone (Sample.start, Sample.empty_world))).
  assert (init (H:=C) VNone (Sample.start, Sample.empty_world) =
          (Ok tt, (fst st1, snd st1))) as H1 by (vm_compute; reflexivity).
  pose (st2 := snd (init (H:=C) VNone (Sample.start, snd st1))).
  assert (init (H:=C) VNone (Sample.start, snd st1) = (Ok tt, (fst st2, snd st2)))
    as H2 by (vm_compute; reflexivity).
  pose (f := fun name : string =>
              match files (snd st1) !! ("skyshowtime/" +:+ name) with
              | Some x => x
              | None => File "" 0
              end).
  assert (Forall (fun name => cached (pldir Sample.start) name (snd st1))
            bootstrap_files) as Hall.
  { unfold bootstrap_files.
    repeat match goal with
           | |- Forall _ (?n :: _) =>
               constructor;
               [exists (f n); split; [vm_compute; reflexivity|vm_compute; discriminate]|]
           end.
    constructor. }
  assert (exists x, files (snd st1) !! (pldir Sample.start +:+ "/token.json") = Some x /\
                    content x <> "" /\ (clock (snd st1) - mtime x < 60)%Q) as Htoken.
  { exists (f "token.json"). split; [vm_compute; reflexivity|].
    split; [vm_compute; discriminate|vm_compute; reflexivity]. }
  pose proof (warm_bootstrap_offline (H:=C) VNone Sample.start (snd st1) (Ok tt)
                (fst st2) (snd st2) Hall Htoken H2) as Hsame.
  exists (fst st1), (snd st1), (fst st2). split; [exact H1|].
  rewrite <- Hsame at 2. exact H2.
Defined.

Lemma get_profiles_entries_witness :
  let C := Scenario.collaborators Scenario.created in
  exists profiles st',
    get_profiles (H:=C) (Sample.logged_session, Sample.empty_world) =
      (Ok profiles, st') /\
    profiles = [Sample.profile_ann; Sample.profile_ben] /\
    exists ps, getitem Sample.personas_reply "personas" = Ok (VList ps) /\
               Forall2 profile_entry ps profiles.
Proof.
  intros C.
  pose (st := get_profiles (H:=C) (Sample.logged_session, Sample.empty_world)).
  assert (get_profiles (H:=C) (Sample.logged_session, Sample.empty_world) =
          (Ok [Sample.profile_ann; Sample.profile_ben], snd st)) as Hrun
    by (vm_compute; reflexivity).
  destruct (get_profiles_entries (H:=C) _ _ _ _ Hrun)
    as (req & data & Hst & Hd & _ & _ & Hall).
  vm_compute in Hst. injection Hst as <-.
  vm_compute in Hd. injection Hd as <-.
  exists [Sample.profile_ann; Sample.profile_ben], (snd st).
  split; [exact Hrun|]. split; [reflexivity|].
  eexists. split; [reflexivity|]. exact (Hall _ eq_refl).
Defined.

Lemma change_profile_no_match_witness :
  let C := Scenario.collaborators Scenario.created in
  exists w1,
    change_profile (H:=C) (VStr "p-9") (Sample.logged_session, Sample.stored_world) =
      (Ok tt, (Sample.logged_session, w1)) /\
    files w1 = files Sample.stored_world.
Proof.
  intros C.
  pose (st1 := snd (get_profiles (H:=C) (Sample.logged_session, Sample.stored_world))).
  assert (get_profiles (H:=C) (Sample.logged_session, Sample.stored_world) =
          (Ok [Sample.profile_ann; Sample.profile_ben], (fst st1, snd st1))) as Hget
    by (vm_compute; reflexivity).
  assert (Forall (fun q => exists qid, getitem q "id" = Ok qid /\
                                       py_eq qid (VStr "p-9") = false)
            [Sample.profile_ann; Sample.profile_ben]) as Hnone.
  { constructor; [|constructor; [|constructor]].
    - exists (VStr "p-1"). split; vm_compute; reflexivity.
    - exists (VStr "p-2"). split; vm_compute; reflexivity. }
  exists (snd st1).
  exact (change_profile_no_match (H:=C) (VStr "p-9") Sample.logged_session
           Sample.stored_world _ (fst st1) (snd st1) Hget Hnone).
Defined.

Lemma init_writes_only_witness :
  let C := Scenario.collaborators Scenario.created in
  exists s' w',
    init (H:=C) VNone (Sample.start, Sample.stored_world) = (Ok tt, (s', w')) /\
    files w' !! "skyshowtime/cookie.conf" =
      files Sample.stored_world !! "skyshowtime/cookie.conf" /\
    files w' !! "searchs.json" = files Sample.stored_world !! "searchs.json".
Proof.
  intros C.
  pose (st := snd (init (H:=C) VNone (Sample.start, Sample.stored_world))).
  assert (init (H:=C) VNone (Sample.start, Sample.stored_world) =
          (Ok tt, (fst st, snd st))) as Hinit by (vm_compute; reflexivity).
  exists (fst st), (snd st). split; [exact Hinit|].
  exact (proj2 (init_writes_only (H:=C) VNone _ _ _ _ _ Hinit)).
Defined.

Lemma profile_language_witness :
  let C := Household.collaborators in
  exists s' w',
    init (H:=C) VNone (Sample.start, Household.home) = (Ok tt, (s', w')) /\
    assoc "x-skyott-language" (headers s') = Some (VStr "cs-CZ") /\
    assoc "x-skyott-language" (net_headers s') = Some (VStr "cs-CZ").
Proof.
  intros C.
  pose (st := snd (init (H:=C) VNone (Sample.start, Household.home))).
  assert (init (H:=C) VNone (Sample.start, Household.home) =
          (Ok tt, (fst st, snd st))) as Hinit by (vm_compute; reflexivity).
  assert (files Household.home !! (pldir Sample.start +:+ "/profile_info.json") =
          Some (File (Sample.dumps Household.profile_details) 0)) as Hfile
    by (vm_compute; reflexivity).
  assert (content (File (Sample.dumps Household.profile_details) 0) <> "") as Hne
    by (vm_compute; discriminate).
  assert (json_loads (Collaborators:=C)
            (content (File (Sample.dumps Household.profile_details) 0)) =
          Ok Household.profile_details) as Hloads by (vm_compute; reflexivity).
  assert (truthy (profile_id (fst st)) = true) as Hid by (vm_compute; reflexivity).
  exists (fst st), (snd st). split; [exact Hinit|].
  exact (profile_language (H:=C) VNone Sample.start Household.home (fst st) (snd st)
           _ Household.profile_details
           (VDict [("id", VStr "p-1"); ("displayLanguage", VStr "cs-CZ")])
           (VStr "cs-CZ") Hfile Hne Hloads eq_refl eq_refl Hinit Hid).
Defined.
